(** * Sekoropo piece-jobs: the service layer over the Appwrite document store

    A shallow embedding of the dispute, payment, review, application and job
    services ([src/lib/utils/services/*.service.ts]) together with the parts
    of JavaScript and of the Appwrite SDK they rely on.

    Conventions of the embedding:
    - a JavaScript [number] read from a document is kept as the decimal
      it is written as ([Qc]), which denotes the double nearest to it;
      the sums and quotients of amounts and of resolution times are
      computed in IEEE 754 double precision ([Double]); a rating is a
      whole number of stars ([rating: number; // 1-5]), sums of ratings
      are exact in double precision for any number of reviews a store can
      hold, and the rating averages are computed on the exact values, a
      rounded decimal standing for the double nearest to it;
    - an ISO-8601 timestamp string is kept as the instant it denotes, in
      milliseconds since the epoch ([Z]), which is what
      [new Date(s).getTime()] extracts from it;
    - documents read back from the store are records, as the services cast
      them ([response.documents as Dispute[]]); objects built by object
      literals and spreads are finite maps from property names to values;
    - the store is a component of an explicit world that every call
      threads, with a plan of injected faults, a trace of the requests
      made and the [console.error] channel. *)

From Stdlib Require Import ZArith QArith Qcanon Qround List Sorted Lia.
From Stdlib Require Import Floats.SpecFloat.
From stdpp Require Import gmap strings list fin_maps pretty.

Open Scope Z_scope.

(** ** JavaScript: numbers, truthiness, arrays, objects *)
Module Js.

Definition number : Type := Qc.

Definition of_Z (z : Z) : number := Q2Qc (inject_Z z).
Definition of_nat (n : nat) : number := of_Z (Z.of_nat n).

(** [Math.round(x)]: the integer nearest to [x], ties going towards
    plus infinity, that is [floor(x + 1/2)]. *)
Definition Math_round (x : number) : number :=
  of_Z (Qfloor (x + Q2Qc (1 # 2))%Qc).

(** Truthiness of the primitive values the services test. *)
Definition truthy_number (x : number) : bool := negb (bool_decide (x = 0%Qc)).
Definition truthy_string (s : string) : bool := negb (bool_decide (s = ""%string)).
Definition truthy_opt_string (s : option string) : bool :=
  match s with Some s => truthy_string s | None => false end.
Definition truthy_opt_number (x : option number) : bool :=
  match x with Some x => truthy_number x | None => false end.

(** [a || b] where [a] is a possibly missing string. *)
Definition or_string (a : option string) (b : string) : string :=
  match a with
  | Some s => if truthy_string s then s else b
  | None => b
  end.

Section Arrays.
Context {A : Type}.

(** [arr.findIndex(p)], [-1] when no element satisfies [p]. *)
Fixpoint findIndex_from (p : A -> bool) (i : Z) (l : list A) : Z :=
  match l with
  | [] => -1
  | x :: l' => if p x then i else findIndex_from p (i + 1) l'
  end.
Definition findIndex (p : A -> bool) (l : list A) : Z := findIndex_from p 0 l.

(** [arr.filter((x, index, self) => p(x, index, self))]. *)
Fixpoint filter_from (p : A -> Z -> list A -> bool) (self : list A)
         (i : Z) (l : list A) : list A :=
  match l with
  | [] => []
  | x :: l' =>
      if p x i self then x :: filter_from p self (i + 1) l'
      else filter_from p self (i + 1) l'
  end.
Definition filter_indexed (p : A -> Z -> list A -> bool) (l : list A) : list A :=
  filter_from p l 0 l.

(** [arr.slice(start, end)] for non-negative integer bounds. *)
Definition slice (start stop : nat) (l : list A) : list A :=
  drop start (take stop l).

(** [arr.sort(cmp)]: the sort is stable (ECMAScript 2019), so for a
    consistent comparator its result is the one of a stable insertion
    sort: an element moves in front of the ones it precedes or ties
    with ([cmp x y <= 0]) among those that followed it. *)
Fixpoint sort_insert (cmp : A -> A -> Z) (x : A) (l : list A) : list A :=
  match l with
  | [] => [x]
  | y :: l' => if cmp x y <=? 0 then x :: y :: l' else y :: sort_insert cmp x l'
  end.
Fixpoint sort (cmp : A -> A -> Z) (l : list A) : list A :=
  match l with
  | [] => []
  | x :: l' => sort_insert cmp x (sort cmp l')
  end.

(** [arr.reduce(f, init)]. *)
Definition reduce {B : Type} (f : B -> A -> B) (init : B) (l : list A) : B :=
  fold_left f l init.
End Arrays.

(** Property values of the objects handed to the SDK. *)
Inductive value : Type :=
| VUndefined
| VBool (b : bool)
| VNum (x : number)
| VStr (s : string)
| VTime (ms : Z)
| VStrs (l : list string).

Abbreviation obj := (gmap string value).

(** [o.k], [undefined] for an absent property. *)
Definition get (o : obj) (k : string) : value := default VUndefined (o !! k).

Definition truthy (v : value) : bool :=
  match v with
  | VUndefined => false
  | VBool b => b
  | VNum x => truthy_number x
  | VStr s => truthy_string s
  | VTime _ => true
  | VStrs _ => true
  end.

(** [a || b] on values. *)
Definition or (a b : value) : value := if truthy a then a else b.

(** [{...base, k1: v1, ..., kn: vn}]: properties are assigned from left
    to right, a later one replacing an earlier one of the same name. *)
Definition assign (base : obj) (props : list (string * value)) : obj :=
  fold_left (fun o kv => <[kv.1 := kv.2]> o) props base.
Definition literal (props : list (string * value)) : obj := assign ∅ props.

(** A thrown value, of which the services read [error.message]. *)
Record Error : Type := mkError { message : option string }.

End Js.

(** ** JavaScript: arithmetic in double precision

    The values are those of IEEE 754 binary64, with the operations of the
    standard library's specification of floating-point arithmetic
    (round to nearest, ties to even), which are those of [+], [-], [*]
    and [/] on JavaScript numbers. *)
Module Double.

Definition t : Type := spec_float.
Definition prec : Z := 53.
Definition emax : Z := 1024.

Definition zero : t := S754_zero false.
Definition add : t -> t -> t := SFadd prec emax.
Definition sub : t -> t -> t := SFsub prec emax.
Definition mul : t -> t -> t := SFmul prec emax.
Definition div : t -> t -> t := SFdiv prec emax.

(** The double nearest to an integer. *)
Definition of_Z (z : Z) : t := binary_normalize prec emax z 0 false.
Definition of_nat (n : nat) : t := of_Z (Z.of_nat n).

(** The double nearest to a rational: the value of a decimal literal and
    of a number parsed from JSON. *)
Definition of_Qc (q : Js.number) : t :=
  match Qnum (this q) with
  | Z0 => zero
  | Zpos n => div (S754_finite false n 0) (S754_finite false (Qden (this q)) 0)
  | Zneg n => div (S754_finite true n 0) (S754_finite false (Qden (this q)) 0)
  end.

(** [Math.round(x)]: the integer nearest to [x], ties going towards plus
    infinity, computed exactly; [NaN], the infinities and the zeros are
    returned as they are, and a result of zero keeps the sign of [x]. *)
Definition Math_round (x : t) : t :=
  match x with
  | S754_finite s m (Zneg k) =>
      let n := Z.shiftr (2 * (if s then Zneg m else Zpos m) + Z.shiftl 1 (Zpos k))
                        (Zpos k + 1) in
      match n with
      | Z0 => S754_zero s
      | _ => of_Z n
      end
  | _ => x
  end.

(** The integer a double is, when it is finite and integral (0 for the
    other doubles, which no statistic of a store with valid dates
    reaches). *)
Definition integer (x : t) : Z :=
  match x with
  | S754_finite s m e =>
      match e with
      | Zneg k => Z.shiftr (if s then Zneg m else Zpos m) (Zpos k)
      | _ => Z.shiftl (if s then Zneg m else Zpos m) e
      end
  | _ => 0
  end.

End Double.

(** ** Documents of the collections *)

Module Dispute.
Record t : Type := mk {
  id : string;
  job_id : string;
  complainant_id : string;
  respondent_id : string;
  dispute_type : string;
  status : string;
  priority : string;
  created_at : Z;
  resolved_at : option Z;
  assigned_admin_id : option string
}.
End Dispute.

Module Payment.
Record t : Type := mk {
  id : string;
  job_id : string;
  payer_id : string;
  recipient_id : string;
  amount : Js.number;
  status : string;
  created_at : Z
}.
End Payment.

Module Review.
Record t : Type := mk {
  id : string;
  job_id : string;
  reviewer_id : string;
  reviewee_id : string;
  rating : Js.number;
  comment : option string;
  review_type : string;
  created_at : Z;
  updated_at : option Z
}.
End Review.

Module Profile.
(** The fields of a profile document that the services write. *)
Record t : Type := mk {
  average_rating : Js.number;
  total_reviews : nat;
  updated_at : option Z
}.
End Profile.

(** What the store needs of a document to answer a query: its [$id], its
    [created_at] instant and its string attributes by name. *)
Class Document (D : Type) : Type := {
  doc_id : D -> string;
  doc_created_at : D -> Z;
  doc_attribute : D -> string -> option string
}.

#[global] Instance Dispute_Document : Document Dispute.t := {
  doc_id := Dispute.id;
  doc_created_at := Dispute.created_at;
  doc_attribute d a :=
    if String.eqb a "job_id" then Some (Dispute.job_id d)
    else if String.eqb a "complainant_id" then Some (Dispute.complainant_id d)
    else if String.eqb a "respondent_id" then Some (Dispute.respondent_id d)
    else if String.eqb a "dispute_type" then Some (Dispute.dispute_type d)
    else if String.eqb a "status" then Some (Dispute.status d)
    else if String.eqb a "priority" then Some (Dispute.priority d)
    else if String.eqb a "assigned_admin_id" then Dispute.assigned_admin_id d
    else None
}.

#[global] Instance Payment_Document : Document Payment.t := {
  doc_id := Payment.id;
  doc_created_at := Payment.created_at;
  doc_attribute d a :=
    if String.eqb a "job_id" then Some (Payment.job_id d)
    else if String.eqb a "payer_id" then Some (Payment.payer_id d)
    else if String.eqb a "recipient_id" then Some (Payment.recipient_id d)
    else if String.eqb a "status" then Some (Payment.status d)
    else None
}.

#[global] Instance Review_Document : Document Review.t := {
  doc_id := Review.id;
  doc_created_at := Review.created_at;
  doc_attribute d a :=
    if String.eqb a "job_id" then Some (Review.job_id d)
    else if String.eqb a "reviewer_id" then Some (Review.reviewer_id d)
    else if String.eqb a "reviewee_id" then Some (Review.reviewee_id d)
    else if String.eqb a "review_type" then Some (Review.review_type d)
    else None
}.

(** The comparator [(a, b) => new Date(b.created_at).getTime() -
    new Date(a.created_at).getTime()] of the merges. *)
Definition by_created_at_desc {D : Type} `{Document D} (a b : D) : Z :=
  doc_created_at b - doc_created_at a.


(** ** The Appwrite SDK: queries, the store, requests and their failures *)
Module Query.
Inductive t : Type :=
| equal (attribute value : string)
| greaterThanEqual (attribute : string) (value : Z)
| lessThanEqual (attribute : string) (value : Z)
| orderDesc (attribute : string)
| limit (n : nat)
| offset (n : nat).
End Query.

Module Appwrite.

(** The answer of [listDocuments]. *)
Record DocumentList (D : Type) : Type := mkList {
  documents : list D;
  total : nat
}.
Arguments mkList {D} _ _.
Arguments documents {D} _.
Arguments total {D} _.

Section Select.
Context {D : Type} `{Document D}.

(** Whether a document passes one query term; the terms are AND-composed
    and the only attribute compared by range is [created_at]. *)
Definition satisfies (q : Query.t) (d : D) : bool :=
  match q with
  | Query.equal a v => bool_decide (doc_attribute d a = Some v)
  | Query.greaterThanEqual a v => String.eqb a "created_at" && (v <=? doc_created_at d)
  | Query.lessThanEqual a v => String.eqb a "created_at" && (doc_created_at d <=? v)
  | _ => true
  end.

Definition matches (qs : list Query.t) (d : D) : bool :=
  forallb (fun q => satisfies q d) qs.

Fixpoint limit_of (qs : list Query.t) : option nat :=
  match qs with
  | [] => None
  | Query.limit n :: _ => Some n
  | _ :: qs' => limit_of qs'
  end.

Fixpoint offset_of (qs : list Query.t) : nat :=
  match qs with
  | [] => 0%nat
  | Query.offset n :: _ => n
  | _ :: qs' => offset_of qs'
  end.

Definition ordered_desc (qs : list Query.t) : bool :=
  existsb (fun q => match q with
                    | Query.orderDesc a => String.eqb a "created_at"
                    | _ => false
                    end) qs.

(** The store's answer to a list of query terms over the content of a
    collection: the matching documents, ordered, then the window
    [offset, offset + limit); [total] counts every matching document,
    whatever the window. A list without a limit term is answered with all
    the matching documents. *)
Definition select (qs : list Query.t) (content : list D) : DocumentList D :=
  let matched := List.filter (matches qs) content in
  let ordered := if ordered_desc qs then Js.sort by_created_at_desc matched else matched in
  let after := drop (offset_of qs) ordered in
  mkList (match limit_of qs with Some n => take n after | None => after end)
         (length matched).
End Select.

(** What the trace records of a request to the store. *)
Inductive Request : Type :=
| CreateDocument | GetDocument | ListDocuments | UpdateDocument | DeleteDocument.

Inductive Event : Type :=
| Requested (r : Request) (collection : string) (ok : bool)
| Entered (method : string) (argument : string).

#[global] Instance Request_eq_dec : EqDecision Request.
Proof. solve_decision. Defined.
#[global] Instance Event_eq_dec : EqDecision Event.
Proof. solve_decision. Defined.

(** The world a service call runs in. [faults] is consumed one entry per
    request, [Some e] making that request reject with [e]; [race] tells
    whether the second of two concurrent requests settles first. *)
Record World : Type := mkWorld {
  disputes : list Dispute.t;
  payments : list Payment.t;
  reviews : list Review.t;
  profiles : gmap string Profile.t;
  created : list (string * Js.obj);
  console : list (string * Js.Error);
  faults : list (option Js.Error);
  race : bool;
  trace : list Event;
  now : Z;
  next_id : nat
}.

Definition set_reviews (x : list Review.t) (w : World) : World :=
  mkWorld (disputes w) (payments w) x (profiles w) (created w) (console w)
          (faults w) (race w) (trace w) (now w) (next_id w).
Definition set_profiles (x : gmap string Profile.t) (w : World) : World :=
  mkWorld (disputes w) (payments w) (reviews w) x (created w) (console w)
          (faults w) (race w) (trace w) (now w) (next_id w).
Definition set_created (x : list (string * Js.obj)) (w : World) : World :=
  mkWorld (disputes w) (payments w) (reviews w) (profiles w) x (console w)
          (faults w) (race w) (trace w) (now w) (next_id w).
Definition set_console (x : list (string * Js.Error)) (w : World) : World :=
  mkWorld (disputes w) (payments w) (reviews w) (profiles w) (created w) x
          (faults w) (race w) (trace w) (now w) (next_id w).
Definition set_faults (x : list (option Js.Error)) (w : World) : World :=
  mkWorld (disputes w) (payments w) (reviews w) (profiles w) (created w) (console w)
          x (race w) (trace w) (now w) (next_id w).
Definition set_trace (x : list Event) (w : World) : World :=
  mkWorld (disputes w) (payments w) (reviews w) (profiles w) (created w) (console w)
          (faults w) (race w) x (now w) (next_id w).
Definition set_next_id (x : nat) (w : World) : World :=
  mkWorld (disputes w) (payments w) (reviews w) (profiles w) (created w) (console w)
          (faults w) (race w) (trace w) (now w) x.

(** Computations that read and write the world and may throw. *)
Inductive Outcome (A : Type) : Type :=
| Returned (a : A)
| Thrown (e : Js.Error).
Arguments Returned {A} _.
Arguments Thrown {A} _.

Definition M (A : Type) : Type := World -> Outcome A * World.

Definition ret {A : Type} (a : A) : M A := fun w => (Returned a, w).
Definition throw {A : Type} (e : Js.Error) : M A := fun w => (Thrown e, w).
Definition bind {A B : Type} (m : M A) (k : A -> M B) : M B :=
  fun w => match m w with
           | (Returned a, w') => k a w'
           | (Thrown e, w') => (Thrown e, w')
           end.

(** [try { body } catch (error) { handler(error) }]. *)
Definition try_catch {A : Type} (body : M A) (handler : Js.Error -> M A) : M A :=
  fun w => match body w with
           | (Returned a, w') => (Returned a, w')
           | (Thrown e, w') => handler e w'
           end.

(** [await Promise.all([p1, p2])]: both requests are issued, in order; the
    result rejects with the rejection that settles first. *)
Definition Promise_all {A B : Type} (p1 : M A) (p2 : M B) : M (A * B) :=
  fun w =>
    let '(r1, w1) := p1 w in
    let '(r2, w2) := p2 w1 in
    match r1, r2 with
    | Returned a, Returned b => (Returned (a, b), w2)
    | Thrown e, Returned _ => (Thrown e, w2)
    | Returned _, Thrown e => (Thrown e, w2)
    | Thrown e1, Thrown e2 => (Thrown (if race w then e2 else e1), w2)
    end.

Definition is_returned {A : Type} (o : Outcome A) : bool :=
  match o with Returned _ => true | Thrown _ => false end.

Definition record (e : Event) (w : World) : World := set_trace (trace w ++ [e]) w.

(** One request to the store: the fault planned for it, if any, rejects
    it before the store is touched; the trace keeps how it ended. *)
Definition request {A : Type} (r : Request) (collection : string)
           (serve : World -> Outcome A * World) : M A :=
  fun w =>
    let w0 := set_faults (tail (faults w)) w in
    match head (faults w) with
    | Some (Some e) => (Thrown e, record (Requested r collection false) w0)
    | _ => let '(o, w') := serve w0 in
           (o, record (Requested r collection (is_returned o)) w')
    end.

Definition not_found : Js.Error :=
  Js.mkError (Some "Document with the requested ID could not be found."%string).

(** [ID.unique()] and [new Date().toISOString()]. *)
Definition ID_unique : M string :=
  fun w => (Returned ("doc" +:+ pretty (next_id w)), set_next_id (S (next_id w)) w).
Definition Date_now : M Z := fun w => (Returned (now w), w).

(** [console.error(label, error)]. *)
Definition console_error (label : string) (e : Js.Error) : M unit :=
  fun w => (Returned tt, set_console (console w ++ [(label, e)]) w).

(** [databases.listDocuments(DATABASE_ID, collection, queries)]. *)
Definition listDocuments {D : Type} `{Document D} (collection : string)
           (content : World -> list D) (qs : list Query.t) : M (DocumentList D) :=
  request ListDocuments collection (fun w => (Returned (select qs (content w)), w)).

(** [databases.getDocument(DATABASE_ID, collection, id)]: rejects when no
    document of the collection has that [$id]. *)
Definition getDocument {D : Type} `{Document D} (collection : string)
           (content : World -> list D) (id : string) : M D :=
  request GetDocument collection
    (fun w => match List.find (fun d => String.eqb (doc_id d) id) (content w) with
              | Some d => (Returned d, w)
              | None => (Thrown not_found, w)
              end).

(** [databases.createDocument(DATABASE_ID, collection, id, data)] on a
    collection of records. *)
Definition createDocument {D : Type} (collection : string)
           (content : World -> list D) (put : list D -> World -> World)
           (doc : D) : M D :=
  request CreateDocument collection
    (fun w => (Returned doc, put (content w ++ [doc]) w)).

(** The same request with the object the caller built: the store keeps it
    under the collection, with its [$id]. *)
Definition createDocument_object (collection : string) (id : string)
           (data : Js.obj) : M Js.obj :=
  request CreateDocument collection
    (fun w => let doc := <["$id"%string := Js.VStr id]> data in
              (Returned doc, set_created (created w ++ [(collection, doc)]) w)).

(** [databases.updateDocument(DATABASE_ID, collection, id, data)]: the
    fields of [data] replace those of the stored document. *)
Definition updateDocument {D : Type} `{Document D} (collection : string)
           (content : World -> list D) (put : list D -> World -> World)
           (id : string) (data : D -> D) : M D :=
  request UpdateDocument collection
    (fun w => match List.find (fun d => String.eqb (doc_id d) id) (content w) with
              | Some d =>
                  (Returned (data d),
                   put (map (fun x => if String.eqb (doc_id x) id then data x else x)
                            (content w)) w)
              | None => (Thrown not_found, w)
              end).

(** [updateDocument] on the profiles, which are kept by document id. *)
Definition updateDocument_profile (collection : string) (id : string)
           (data : Profile.t -> Profile.t) : M Profile.t :=
  request UpdateDocument collection
    (fun w => match profiles w !! id with
              | Some p => (Returned (data p), set_profiles (<[id := data p]> (profiles w)) w)
              | None => (Thrown not_found, w)
              end).

(** [databases.deleteDocument(DATABASE_ID, collection, id)]. *)
Definition deleteDocument {D : Type} `{Document D} (collection : string)
           (content : World -> list D) (put : list D -> World -> World)
           (id : string) : M unit :=
  request DeleteDocument collection
    (fun w => match List.find (fun d => String.eqb (doc_id d) id) (content w) with
              | Some _ =>
                  (Returned tt,
                   put (List.filter (fun x => negb (String.eqb (doc_id x) id)) (content w)) w)
              | None => (Thrown not_found, w)
              end).

(** The fault planned for the [n]-th request from now, if any. *)
Definition fault_at (n : nat) (w : World) : option Js.Error :=
  match faults w !! n with
  | Some (Some e) => Some e
  | _ => None
  end.

(** The events a run added to the trace. *)
Definition new_events (before after : World) : list Event :=
  drop (length (trace before)) (trace after).

End Appwrite.

Notation "x <- m ;; k" := (Appwrite.bind m (fun x => k))
  (at level 100, m at next level, right associativity).

(** ** Shared types of the services ([$lib/utils/types]) *)

(** The envelope [{success: true, data}] or [{success: false, error}]. *)
Inductive ApiResponse (A : Type) : Type :=
| Success (data : A)
| Failure (error : string).
Arguments Success {A} _.
Arguments Failure {A} _.

Definition success {A : Type} (r : ApiResponse A) : bool :=
  match r with Success _ => true | Failure _ => false end.
Definition data {A : Type} (r : ApiResponse A) : option A :=
  match r with Success d => Some d | Failure _ => None end.
Definition error {A : Type} (r : ApiResponse A) : option string :=
  match r with Success _ => None | Failure e => Some e end.

Record PaginatedResponse (D : Type) : Type := mkPage {
  documents : list D;
  total : nat
}.
Arguments mkPage {D} _ _.
Arguments documents {D} _.
Arguments total {D} _.

(** [catch (error: any) { return {success: false, error: error.message ||
    fallback} }], the handler every public method ends with. *)
Definition failed {A : Type} (fallback : string) (error : Js.Error)
  : Appwrite.M (ApiResponse A) :=
  Appwrite.ret (Failure (Js.or_string (Js.message error) fallback)).

(** The collection ids ([COLLECTION_IDS] of [database.types.ts]; the
    [COLLECTIONS] table of [$lib/utils/constants] is taken to agree). *)
Module COLLECTION_IDS.
Definition PROFILES : string := "profiles".
Definition JOBS : string := "jobs".
Definition APPLICATIONS : string := "applications".
Definition PAYMENTS : string := "payments".
Definition REVIEWS : string := "reviews".
Definition DISPUTES : string := "disputes".
End COLLECTION_IDS.

(** ** DisputeService ([dispute.service.ts]) *)
Module DisputeService.

(** [create]: the document is built from the named properties of the
    request; [status] is a constant of the literal. *)
Definition create_data (disputeData : Js.obj) (now : Z) : Js.obj :=
  Js.literal
    [ ("job_id", Js.get disputeData "jobId");
      ("complainant_id", Js.get disputeData "complainantId");
      ("respondent_id", Js.get disputeData "respondentId");
      ("dispute_type", Js.get disputeData "disputeType");
      ("description", Js.get disputeData "description");
      ("evidence_urls", Js.or (Js.get disputeData "evidenceUrls") (Js.VStrs []));
      ("amount_in_dispute", Js.get disputeData "amountInDispute");
      ("status", Js.VStr "open");
      ("priority", Js.or (Js.get disputeData "priority") (Js.VStr "medium"));
      ("created_at", Js.VTime now) ]%string.

Definition create (disputeData : Js.obj) : Appwrite.M (ApiResponse Js.obj) :=
  Appwrite.try_catch
    (id <- Appwrite.ID_unique ;;
     now <- Appwrite.Date_now ;;
     dispute <- Appwrite.createDocument_object COLLECTION_IDS.DISPUTES id
                  (create_data disputeData now) ;;
     Appwrite.ret (Success dispute))
    (failed "Failed to create dispute").

Record Filters : Type := mkFilters {
  status : option string;
  priority : option string;
  disputeType : option string;
  userId : option string
}.

(** [if (x) queries.push(q(x))]. *)
Definition push_if (x : option string) (q : string -> Query.t) : list Query.t :=
  match x with
  | Some v => if Js.truthy_string v then [q v] else []
  | None => []
  end.

Definition same_id (a b : Dispute.t) : bool := String.eqb (Dispute.id a) (Dispute.id b).

(** [allDisputes.filter((dispute, index, self) =>
      index === self.findIndex(d => d.$id === dispute.$id))]. *)
Definition uniqueDisputes (allDisputes : list Dispute.t) : list Dispute.t :=
  Js.filter_indexed
    (fun dispute index self => index =? Js.findIndex (fun d => same_id d dispute) self)
    allDisputes.

(** The merge of [getAll] when [filters.userId] is set. *)
Definition merge_unique (complainantDisputes respondentDisputes : Appwrite.DocumentList Dispute.t)
           (limit offset : nat) : Appwrite.DocumentList Dispute.t :=
  let allDisputes := Appwrite.documents complainantDisputes
                     ++ Appwrite.documents respondentDisputes in
  let unique := uniqueDisputes allDisputes in
  Appwrite.mkList
    (Js.slice offset (offset + limit) (Js.sort by_created_at_desc unique))
    (length unique).

(** The [queries] array of [getAll] once the optional filters are pushed. *)
Definition getAll_queries (filters : Filters) (limit offset : nat) : list Query.t :=
  [Query.orderDesc "created_at"; Query.limit limit; Query.offset offset]
  ++ push_if (status filters) (Query.equal "status")
  ++ push_if (priority filters) (Query.equal "priority")
  ++ push_if (disputeType filters) (Query.equal "dispute_type").

Definition getAll (filters : Filters) (limit offset : nat)
  : Appwrite.M (ApiResponse (PaginatedResponse Dispute.t)) :=
  Appwrite.try_catch
    (let queries := getAll_queries filters limit offset in
     response <-
       (if Js.truthy_opt_string (userId filters) then
          both <- Appwrite.Promise_all
                    (Appwrite.listDocuments COLLECTION_IDS.DISPUTES Appwrite.disputes
                       (queries ++ [Query.equal "complainant_id" (default "" (userId filters))]))
                    (Appwrite.listDocuments COLLECTION_IDS.DISPUTES Appwrite.disputes
                       (queries ++ [Query.equal "respondent_id" (default "" (userId filters))])) ;;
          Appwrite.ret (merge_unique both.1 both.2 limit offset)
        else
          Appwrite.listDocuments COLLECTION_IDS.DISPUTES Appwrite.disputes queries) ;;
     Appwrite.ret (Success (mkPage (Appwrite.documents response) (Appwrite.total response))))
    (failed "Failed to fetch disputes").

Inductive Role : Type := complainant | respondent | all.

(** The merge of [getUserDisputes] for the role ['all']. *)
Definition merge_all (complainantDisputes respondentDisputes : Appwrite.DocumentList Dispute.t)
           (limit offset : nat) : Appwrite.DocumentList Dispute.t :=
  let allDisputes :=
    Js.slice offset (offset + limit)
      (Js.sort by_created_at_desc
         (Appwrite.documents complainantDisputes ++ Appwrite.documents respondentDisputes)) in
  Appwrite.mkList allDisputes
    (Appwrite.total complainantDisputes + Appwrite.total respondentDisputes).

Definition getUserDisputes (userId : string) (role : Role) (limit offset : nat)
  : Appwrite.M (ApiResponse (PaginatedResponse Dispute.t)) :=
  Appwrite.try_catch
    (let queries :=
       [Query.orderDesc "created_at"; Query.limit limit; Query.offset offset] in
     response <-
       match role with
       | complainant =>
           Appwrite.listDocuments COLLECTION_IDS.DISPUTES Appwrite.disputes
             (queries ++ [Query.equal "complainant_id" userId])
       | respondent =>
           Appwrite.listDocuments COLLECTION_IDS.DISPUTES Appwrite.disputes
             (queries ++ [Query.equal "respondent_id" userId])
       | all =>
           both <- Appwrite.Promise_all
                     (Appwrite.listDocuments COLLECTION_IDS.DISPUTES Appwrite.disputes
                        (queries ++ [Query.equal "complainant_id" userId]))
                     (Appwrite.listDocuments COLLECTION_IDS.DISPUTES Appwrite.disputes
                        (queries ++ [Query.equal "respondent_id" userId])) ;;
           Appwrite.ret (merge_all both.1 both.2 limit offset)
       end ;;
     Appwrite.ret (Success (mkPage (Appwrite.documents response) (Appwrite.total response))))
    (failed "Failed to fetch user disputes").

(** The accumulator of the [reduce] of [getStats]. *)
Record StatsAcc : Type := mkAcc {
  acc_totalDisputes : nat;
  acc_openDisputes : nat;
  acc_inReviewDisputes : nat;
  acc_resolvedDisputes : nat;
  acc_closedDisputes : nat;
  acc_totalResolutionTime : Double.t;
  acc_resolvedCount : nat;
  acc_disputesByType : gmap string nat;
  acc_disputesByPriority : gmap string nat
}.

(** [(resolvedTime - createdTime) / (1000 * 60 * 60)], on doubles. *)
Definition resolutionHours (dispute : Dispute.t) (resolved_at : Z) : Double.t :=
  Double.div
    (Double.sub (Double.of_Z resolved_at) (Double.of_Z (Dispute.created_at dispute)))
    (Double.mul (Double.mul (Double.of_Z 1000) (Double.of_Z 60)) (Double.of_Z 60)).

(** [acc[k] = (acc[k] || 0) + 1]. *)
Definition count_key (k : string) (m : gmap string nat) : gmap string nat :=
  <[k := (default 0 (m !! k) + 1)%nat]> m.

(** Which arm of the [if / else if] chain on the status is taken. *)
Definition status_arm (s : string) : nat :=
  if String.eqb s "open" then 1
  else if String.eqb s "under_review" then 2
  else if String.eqb s "resolved_in_favor_of_seeker"
          || String.eqb s "resolved_in_favor_of_provider" then 3
  else if String.eqb s "cancelled" then 4
  else 0.

Definition bump (b : bool) (n : nat) : nat := if b then S n else n.

(** One step of the [reduce]. [timed] is the [resolved_at] of a dispute
    that passes [dispute.status === 'resolved' && dispute.resolved_at]. *)
Definition stats_step (acc : StatsAcc) (dispute : Dispute.t) : StatsAcc :=
  let arm := status_arm (Dispute.status dispute) in
  let timed :=
    if String.eqb (Dispute.status dispute) "resolved" then Dispute.resolved_at dispute
    else None in
  mkAcc
    (S (acc_totalDisputes acc))
    (bump (arm =? 1)%nat (acc_openDisputes acc))
    (bump (arm =? 2)%nat (acc_inReviewDisputes acc))
    (bump (arm =? 3)%nat (acc_resolvedDisputes acc))
    (bump (arm =? 4)%nat (acc_closedDisputes acc))
    (match timed with
     | Some resolved_at =>
         Double.add (acc_totalResolutionTime acc) (resolutionHours dispute resolved_at)
     | None => acc_totalResolutionTime acc
     end)
    (bump (bool_decide (is_Some timed)) (acc_resolvedCount acc))
    (count_key (Dispute.dispute_type dispute) (acc_disputesByType acc))
    (count_key (Dispute.priority dispute) (acc_disputesByPriority acc)).

Record Stats : Type := mkStats {
  totalDisputes : nat;
  openDisputes : nat;
  inReviewDisputes : nat;
  resolvedDisputes : nat;
  closedDisputes : nat;
  averageResolutionTime : Js.number;
  disputesByType : gmap string nat;
  disputesByPriority : gmap string nat
}.

(** [Math.round(x * 100) / 100]: the product and the rounding are those
    of the doubles; the result is kept as the decimal [n / 100] of the
    integer [n] that [Math.round] returns, which denotes the double that
    the division returns. *)
Definition round2 (x : Double.t) : Js.number :=
  (Js.of_Z (Double.integer (Double.Math_round (Double.mul x (Double.of_Z 100))))
   / Js.of_Z 100)%Qc.

(** What [getStats] computes from the documents of the response. *)
Definition stats_of (disputes : list Dispute.t) : Stats :=
  let stats := Js.reduce stats_step (mkAcc 0 0 0 0 0 Double.zero 0 ∅ ∅) disputes in
  let average :=
    if (0 <? acc_resolvedCount stats)%nat
    then Double.div (acc_totalResolutionTime stats) (Double.of_nat (acc_resolvedCount stats))
    else Double.zero in
  mkStats (acc_totalDisputes stats) (acc_openDisputes stats)
          (acc_inReviewDisputes stats) (acc_resolvedDisputes stats)
          (acc_closedDisputes stats) (round2 average)
          (acc_disputesByType stats) (acc_disputesByPriority stats).

(** [dateRange?: {start, end}] adds the two range terms. *)
Definition range_queries (dateRange : option (Z * Z)) : list Query.t :=
  match dateRange with
  | Some (start, stop) =>
      [Query.greaterThanEqual "created_at" start; Query.lessThanEqual "created_at" stop]
  | None => []
  end.

Definition getStats (dateRange : option (Z * Z)) : Appwrite.M (ApiResponse Stats) :=
  Appwrite.try_catch
    (response <- Appwrite.listDocuments COLLECTION_IDS.DISPUTES Appwrite.disputes
                   ([Query.orderDesc "created_at"] ++ range_queries dateRange) ;;
     Appwrite.ret (Success (stats_of (Appwrite.documents response))))
    (failed "Failed to fetch dispute statistics").

(** The accumulator and the result of [getAdminWorkload]. *)
Record WorkloadAcc : Type := mkWAcc {
  wacc_totalAssigned : nat;
  wacc_inReview : nat;
  wacc_resolved : nat;
  wacc_totalResolutionTime : Double.t
}.

Definition workload_step (acc : WorkloadAcc) (dispute : Dispute.t) : WorkloadAcc :=
  let s := Dispute.status dispute in
  if String.eqb s "under_review" then
    mkWAcc (S (wacc_totalAssigned acc)) (S (wacc_inReview acc)) (wacc_resolved acc)
           (wacc_totalResolutionTime acc)
  else
    match (if String.eqb s "resolved_in_favor_of_seeker"
              || String.eqb s "resolved_in_favor_of_provider"
           then Dispute.resolved_at dispute else None) with
    | Some resolved_at =>
        mkWAcc (S (wacc_totalAssigned acc)) (wacc_inReview acc) (S (wacc_resolved acc))
               (Double.add (wacc_totalResolutionTime acc)
                           (resolutionHours dispute resolved_at))
    | None =>
        mkWAcc (S (wacc_totalAssigned acc)) (wacc_inReview acc) (wacc_resolved acc)
               (wacc_totalResolutionTime acc)
    end.

Record Workload : Type := mkWorkload {
  totalAssigned : nat;
  inReview : nat;
  resolved : nat;
  workload_averageResolutionTime : Js.number
}.

Definition workload_of (disputes : list Dispute.t) : Workload :=
  let stats := Js.reduce workload_step (mkWAcc 0 0 0 Double.zero) disputes in
  let average :=
    if (0 <? wacc_resolved stats)%nat
    then Double.div (wacc_totalResolutionTime stats) (Double.of_nat (wacc_resolved stats))
    else Double.zero in
  mkWorkload (wacc_totalAssigned stats) (wacc_inReview stats) (wacc_resolved stats)
             (round2 average).

Definition getAdminWorkload (adminId : string) : Appwrite.M (ApiResponse Workload) :=
  Appwrite.try_catch
    (response <- Appwrite.listDocuments COLLECTION_IDS.DISPUTES Appwrite.disputes
                   [Query.equal "assigned_admin_id" adminId; Query.orderDesc "created_at"] ;;
     Appwrite.ret (Success (workload_of (Appwrite.documents response))))
    (failed "Failed to fetch admin workload").

End DisputeService.

(** ** PaymentService ([payment.service.ts]) *)
Module PaymentService.

Definition create_data (paymentData : Js.obj) (now : Z) : Js.obj :=
  Js.literal
    [ ("job_id", Js.get paymentData "jobId");
      ("payer_id", Js.get paymentData "payerId");
      ("recipient_id", Js.get paymentData "recipientId");
      ("amount", Js.get paymentData "amount");
      ("currency", Js.or (Js.get paymentData "currency") (Js.VStr "BWP"));
      ("payment_method", Js.get paymentData "paymentMethod");
      ("status", Js.VStr "pending");
      ("escrow_status", Js.VStr "held");
      ("created_at", Js.VTime now) ]%string.

Definition create (paymentData : Js.obj) : Appwrite.M (ApiResponse Js.obj) :=
  Appwrite.try_catch
    (id <- Appwrite.ID_unique ;;
     now <- Appwrite.Date_now ;;
     payment <- Appwrite.createDocument_object COLLECTION_IDS.PAYMENTS id
                  (create_data paymentData now) ;;
     Appwrite.ret (Success payment))
    (failed "Failed to create payment").

Inductive Type_ : Type := sent | received | all.

(** The merge of [getUserPayments] for the type ['all']. *)
Definition merge_all (sentResponse receivedResponse : Appwrite.DocumentList Payment.t)
           (limit offset : nat) : PaginatedResponse Payment.t :=
  let allPayments :=
    Js.slice offset (offset + limit)
      (Js.sort by_created_at_desc
         (Appwrite.documents sentResponse ++ Appwrite.documents receivedResponse)) in
  mkPage allPayments (Appwrite.total sentResponse + Appwrite.total receivedResponse).

Definition getUserPayments (userId : string) (type : Type_) (limit offset : nat)
  : Appwrite.M (ApiResponse (PaginatedResponse Payment.t)) :=
  Appwrite.try_catch
    (let queries :=
       [Query.orderDesc "created_at"; Query.limit limit; Query.offset offset] in
     let single (queries : list Query.t) :=
       response <- Appwrite.listDocuments COLLECTION_IDS.PAYMENTS Appwrite.payments queries ;;
       Appwrite.ret (Success (mkPage (Appwrite.documents response) (Appwrite.total response))) in
     match type with
     | sent => single (queries ++ [Query.equal "payer_id" userId])
     | received => single (queries ++ [Query.equal "recipient_id" userId])
     | all =>
         both <- Appwrite.Promise_all
                   (Appwrite.listDocuments COLLECTION_IDS.PAYMENTS Appwrite.payments
                      [Query.equal "payer_id" userId; Query.orderDesc "created_at";
                       Query.limit limit; Query.offset offset])
                   (Appwrite.listDocuments COLLECTION_IDS.PAYMENTS Appwrite.payments
                      [Query.equal "recipient_id" userId; Query.orderDesc "created_at";
                       Query.limit limit; Query.offset offset]) ;;
         Appwrite.ret (Success (merge_all both.1 both.2 limit offset))
     end)
    (failed "Failed to fetch user payments").

(** The accumulator of [getStats], which is also its result. The amounts
    are doubles: [+=] adds them in double precision, in the order of the
    response. *)
Record Stats : Type := mkStats {
  totalTransactions : nat;
  totalAmount : Double.t;
  pendingAmount : Double.t;
  completedAmount : Double.t;
  refundedAmount : Double.t;
  averageTransactionValue : Double.t
}.

Definition stats_step (acc : Stats) (payment : Payment.t) : Stats :=
  let s := Payment.status payment in
  let a := Double.of_Qc (Payment.amount payment) in
  let arm : nat :=
    (if String.eqb s "pending" then 1
     else if String.eqb s "completed" then 2
     else if String.eqb s "refunded" then 3
     else 0)%nat in
  mkStats
    (S (totalTransactions acc))
    (Double.add (totalAmount acc) a)
    (if (arm =? 1)%nat then Double.add (pendingAmount acc) a else pendingAmount acc)
    (if (arm =? 2)%nat then Double.add (completedAmount acc) a else completedAmount acc)
    (if (arm =? 3)%nat then Double.add (refundedAmount acc) a else refundedAmount acc)
    (averageTransactionValue acc).

Definition stats_of (payments : list Payment.t) : Stats :=
  let stats :=
    Js.reduce stats_step
      (mkStats 0 Double.zero Double.zero Double.zero Double.zero Double.zero) payments in
  mkStats (totalTransactions stats) (totalAmount stats) (pendingAmount stats)
          (completedAmount stats) (refundedAmount stats)
          (if (0 <? totalTransactions stats)%nat
           then Double.div (totalAmount stats) (Double.of_nat (totalTransactions stats))
           else Double.zero).

Definition getStats (dateRange : option (Z * Z)) : Appwrite.M (ApiResponse Stats) :=
  Appwrite.try_catch
    (response <- Appwrite.listDocuments COLLECTION_IDS.PAYMENTS Appwrite.payments
                   ([Query.orderDesc "created_at"] ++ DisputeService.range_queries dateRange) ;;
     Appwrite.ret (Success (stats_of (Appwrite.documents response))))
    (failed "Failed to fetch payment statistics").

End PaymentService.

(** ** ApplicationService and JobService: the create paths *)
Module ApplicationService.

Definition create_data (applicationData : Js.obj) (now : Z) : Js.obj :=
  Js.literal
    [ ("job_id", Js.get applicationData "jobId");
      ("applicant_id", Js.get applicationData "applicantId");
      ("cover_letter", Js.get applicationData "coverLetter");
      ("proposed_price", Js.get applicationData "proposedPrice");
      ("estimated_completion", Js.get applicationData "estimatedCompletion");
      ("status", Js.VStr "pending");
      ("applied_at", Js.VTime now) ]%string.

Definition create (applicationData : Js.obj) : Appwrite.M (ApiResponse Js.obj) :=
  Appwrite.try_catch
    (id <- Appwrite.ID_unique ;;
     now <- Appwrite.Date_now ;;
     application <- Appwrite.createDocument_object COLLECTION_IDS.APPLICATIONS id
                      (create_data applicationData now) ;;
     Appwrite.ret (Success application))
    (failed "Failed to create application").

End ApplicationService.

Module JobService.

(** [{...jobData, status: 'open', postedAt: ..., isFeatured: false}]. *)
Definition createJob_data (jobData : Js.obj) (now : Z) : Js.obj :=
  Js.assign jobData
    [ ("status", Js.VStr "open");
      ("postedAt", Js.VTime now);
      ("isFeatured", Js.VBool false) ]%string.

Definition createJob (jobData : Js.obj) : Appwrite.M (ApiResponse Js.obj) :=
  Appwrite.try_catch
    (id <- Appwrite.ID_unique ;;
     now <- Appwrite.Date_now ;;
     job <- Appwrite.createDocument_object COLLECTION_IDS.JOBS id
              (createJob_data jobData now) ;;
     Appwrite.ret (Success job))
    (failed "Failed to create job").

End JobService.

(** ** ReviewService ([review.service.ts]) *)
Module ReviewService.

Record CreateReviewRequest : Type := mkCreate {
  jobId : string;
  reviewerId : string;
  revieweeId : string;
  rating : Js.number;
  comment : option string;
  reviewType : string
}.

(** [UpdateReviewRequest] is declared outside the sources at hand; these
    are the properties [update] reads or can write on a review. *)
Record UpdateReviewRequest : Type := mkUpdate {
  upd_rating : option Js.number;
  upd_comment : option string
}.

Definition getById (reviewId : string) : Appwrite.M (ApiResponse Review.t) :=
  Appwrite.try_catch
    (review <- Appwrite.getDocument COLLECTION_IDS.REVIEWS Appwrite.reviews reviewId ;;
     Appwrite.ret (Success review))
    (failed "Failed to fetch review").

Record RatingStats : Type := mkRatingStats {
  averageRating : Js.number;
  totalReviews : nat;
  ratingDistribution : gmap Qc nat;
  recentReviews : list Review.t
}.

(** [reviews.reduce((sum, review) => sum + review.rating, 0)]. *)
Definition totalRating (reviews : list Review.t) : Js.number :=
  Js.reduce (fun sum review => (sum + Review.rating review)%Qc) 0%Qc reviews.

(** [dist[review.rating] = (dist[review.rating] || 0) + 1]. *)
Definition distribution (reviews : list Review.t) : gmap Qc nat :=
  Js.reduce (fun dist review =>
               <[Review.rating review := (default 0 (dist !! Review.rating review) + 1)%nat]> dist)
            ∅ reviews.

(** [Math.round(x * 10) / 10]. *)
Definition round1 (x : Js.number) : Js.number :=
  (Js.Math_round (x * Js.of_Z 10) / Js.of_Z 10)%Qc.

(** What [getUserRatingStats] computes from the documents of the response. *)
Definition rating_stats_of (reviews : list Review.t) : RatingStats :=
  if (length reviews =? 0)%nat then mkRatingStats 0%Qc 0 ∅ []
  else
    let averageRating := (totalRating reviews / Js.of_nat (length reviews))%Qc in
    mkRatingStats (round1 averageRating) (length reviews) (distribution reviews)
                  (Js.slice 0 5 reviews).

Definition getUserRatingStats (userId : string) : Appwrite.M (ApiResponse RatingStats) :=
  Appwrite.try_catch
    (response <- Appwrite.listDocuments COLLECTION_IDS.REVIEWS Appwrite.reviews
                   [Query.equal "reviewee_id" userId; Query.orderDesc "created_at"] ;;
     Appwrite.ret (Success (rating_stats_of (Appwrite.documents response))))
    (failed "Failed to fetch user rating statistics").

(** The private [updateUserRating]: whatever is thrown inside is caught
    and sent to [console.error]. The trace notes that it was entered. *)
Definition updateUserRating (userId : string) : Appwrite.M unit :=
  fun w =>
    Appwrite.try_catch
      (stats <- getUserRatingStats userId ;;
       match stats with
       | Success d =>
           now <- Appwrite.Date_now ;;
           _ <- Appwrite.updateDocument_profile COLLECTION_IDS.PROFILES userId
                  (fun _ => Profile.mk (averageRating d) (totalReviews d) (Some now)) ;;
           Appwrite.ret tt
       | Failure _ => Appwrite.ret tt
       end)
      (fun error => Appwrite.console_error "Failed to update user rating:" error)
      (Appwrite.record (Appwrite.Entered "updateUserRating" userId) w).

Definition create (reviewData : CreateReviewRequest) : Appwrite.M (ApiResponse Review.t) :=
  Appwrite.try_catch
    (id <- Appwrite.ID_unique ;;
     now <- Appwrite.Date_now ;;
     review <- Appwrite.createDocument COLLECTION_IDS.REVIEWS Appwrite.reviews
                 Appwrite.set_reviews
                 (Review.mk id (jobId reviewData) (reviewerId reviewData)
                            (revieweeId reviewData) (rating reviewData)
                            (comment reviewData) (reviewType reviewData) now None) ;;
     _ <- updateUserRating (revieweeId reviewData) ;;
     Appwrite.ret (Success review))
    (failed "Failed to create review").

(** [{...updateData, updated_at: new Date().toISOString()}] applied to the
    stored review. *)
Definition update_data (updateData : UpdateReviewRequest) (now : Z) (r : Review.t) : Review.t :=
  Review.mk (Review.id r) (Review.job_id r) (Review.reviewer_id r) (Review.reviewee_id r)
            (default (Review.rating r) (upd_rating updateData))
            (match upd_comment updateData with Some c => Some c | None => Review.comment r end)
            (Review.review_type r) (Review.created_at r) (Some now).

(** [updateData.rating && updateData.rating !== currentReview.data!.rating]. *)
Definition rating_changed (updateData : UpdateReviewRequest) (current : Review.t) : bool :=
  match upd_rating updateData with
  | Some x => Js.truthy_number x && negb (bool_decide (x = Review.rating current))
  | None => false
  end.

Definition update (reviewId : string) (updateData : UpdateReviewRequest)
  : Appwrite.M (ApiResponse Review.t) :=
  Appwrite.try_catch
    (currentReview <- getById reviewId ;;
     match currentReview with
     | Failure _ => Appwrite.ret currentReview
     | Success current =>
         now <- Appwrite.Date_now ;;
         review <- Appwrite.updateDocument COLLECTION_IDS.REVIEWS Appwrite.reviews
                     Appwrite.set_reviews reviewId (update_data updateData now) ;;
         _ <- (if rating_changed updateData current
               then updateUserRating (Review.reviewee_id current)
               else Appwrite.ret tt) ;;
         Appwrite.ret (Success review)
     end)
    (failed "Failed to update review").

Definition delete (reviewId : string) : Appwrite.M (ApiResponse unit) :=
  Appwrite.try_catch
    (reviewResult <- getById reviewId ;;
     match reviewResult with
     | Failure e => Appwrite.ret (Failure e)
     | Success current =>
         _ <- Appwrite.deleteDocument COLLECTION_IDS.REVIEWS Appwrite.reviews
                Appwrite.set_reviews reviewId ;;
         _ <- updateUserRating (Review.reviewee_id current) ;;
         Appwrite.ret (Success tt)
     end)
    (failed "Failed to delete review").

Record PlatformStats : Type := mkPlatformStats {
  platform_totalReviews : nat;
  platform_averageRating : Js.number;
  platform_ratingDistribution : gmap Qc nat;
  reviewsByType : gmap string nat
}.

Definition platform_stats_of (reviews : list Review.t) : PlatformStats :=
  if (length reviews =? 0)%nat then mkPlatformStats 0 0%Qc ∅ ∅
  else
    let averageRating := (totalRating reviews / Js.of_nat (length reviews))%Qc in
    mkPlatformStats (length reviews) (round1 averageRating) (distribution reviews)
      (Js.reduce (fun types review =>
                    DisputeService.count_key (Review.review_type review) types)
                 ∅ reviews).

Definition getPlatformStats (dateRange : option (Z * Z))
  : Appwrite.M (ApiResponse PlatformStats) :=
  Appwrite.try_catch
    (response <- Appwrite.listDocuments COLLECTION_IDS.REVIEWS Appwrite.reviews
                   ([Query.orderDesc "created_at"] ++ DisputeService.range_queries dateRange) ;;
     Appwrite.ret (Success (platform_stats_of (Appwrite.documents response))))
    (failed "Failed to fetch platform review statistics").

End ReviewService.

(** ** Vocabulary of the statements *)

(** Adjacent documents of a page are in this relation when the page is
    ordered by [created_at] descending. *)
Definition newer_or_same {D : Type} `{Document D} (a b : D) : Prop :=
  doc_created_at b <= doc_created_at a.

Definition created_at_is {D : Type} `{Document D} (k : Z) (d : D) : bool :=
  doc_created_at d =? k.

(** The first occurrence of every [$id] of [l] that is not already among
    [seen], in the order of [l]. *)
Fixpoint first_occurrences (seen : list Dispute.t) (l : list Dispute.t) : list Dispute.t :=
  match l with
  | [] => []
  | x :: l' =>
      if existsb (fun d => DisputeService.same_id d x) seen
      then first_occurrences (seen ++ [x]) l'
      else x :: first_occurrences (seen ++ [x]) l'
  end.

(** The outcome of two concurrent list requests over the same content, by
    the faults planned for them. *)
Definition fan_out_outcome {D : Type} `{Document D} (content : Appwrite.World -> list D)
           (q1 q2 : list Query.t) (w : Appwrite.World)
  : Appwrite.Outcome (Appwrite.DocumentList D * Appwrite.DocumentList D) :=
  match Appwrite.fault_at 0 w, Appwrite.fault_at 1 w with
  | None, None =>
      Appwrite.Returned (Appwrite.select q1 (content w), Appwrite.select q2 (content w))
  | Some e, None => Appwrite.Thrown e
  | None, Some e => Appwrite.Thrown e
  | Some e1, Some e2 => Appwrite.Thrown (if Appwrite.race w then e2 else e1)
  end.

(** The documents of the page a call returned, none when it failed. *)
Definition page_documents {D : Type}
           (o : Appwrite.Outcome (ApiResponse (PaginatedResponse D))) : list D :=
  match o with
  | Appwrite.Returned (Success page) => documents page
  | _ => []
  end.

(** ** Concrete stores used by the examples *)
Module Examples.

Definition world (ds : list Dispute.t) (ps : list Payment.t) (rs : list Review.t)
           (pf : gmap string Profile.t) (fl : list (option Js.Error)) : Appwrite.World :=
  Appwrite.mkWorld ds ps rs pf [] [] fl false [] 1700000000000 0.

(** A dispute that user [U] raised against themselves, and a payment
    [U] made to themselves: each satisfies both predicates of its merge. *)
Definition self_dispute : Dispute.t :=
  Dispute.mk "d1" "j1" "U" "U" "quality" "open" "medium" 100 None None.
Definition self_payment : Payment.t :=
  Payment.mk "p1" "j1" "U" "U" (Js.of_Z 50) "pending" 100.

Definition only_userId (u : string) : DisputeService.Filters :=
  DisputeService.mkFilters None None None (Some u).

(** Two payments sent by [U], and two disputes raised by [U]. *)
Definition newer_payment : Payment.t :=
  Payment.mk "p1" "j1" "U" "V" (Js.of_Z 50) "pending" 200.
Definition older_payment : Payment.t :=
  Payment.mk "p2" "j2" "U" "V" (Js.of_Z 70) "pending" 100.
Definition newer_dispute : Dispute.t :=
  Dispute.mk "d1" "j1" "U" "V" "quality" "open" "medium" 200 None None.
Definition older_dispute : Dispute.t :=
  Dispute.mk "d2" "j2" "U" "V" "payment" "open" "high" 100 None None.

End Examples.

(** The order the specification asks of two adjacent documents: newest
    first and, at the same instant, the smaller [$id] first. *)
Definition newer_then_smaller_id {D : Type} `{Document D} (a b : D) : Prop :=
  newer_or_same a b
  /\ (doc_created_at a = doc_created_at b -> String.ltb (doc_id a) (doc_id b) = true).

Module Ties.
(** Two disputes of the same instant: [U] raised the one with the larger
    id and answers the one with the smaller id. *)
Definition raised : Dispute.t :=
  Dispute.mk "b" "j1" "U" "V" "quality" "open" "medium" 100 None None.
Definition answered : Dispute.t :=
  Dispute.mk "a" "j2" "V" "U" "payment" "open" "high" 100 None None.
End Ties.

Module Outage.
(** The rejection of a request the store could not serve. *)
Definition unavailable : Js.Error := Js.mkError (Some "Service unavailable"%string).
(** The first source request fails, or the second one does. *)
Definition first_fails : Appwrite.World :=
  Examples.world [] [Examples.self_payment] [] ∅ [Some unavailable; None].
Definition second_fails : Appwrite.World :=
  Examples.world [] [Examples.self_payment] [] ∅ [None; Some unavailable].
End Outage.

Module Reviews.
(** A review of [B] by [A], and a request for a second one. *)
Definition stored : Review.t :=
  Review.mk "r1" "j1" "A" "B" (Js.of_Z 4) None "seeker_to_provider" 10 None.
Definition request : ReviewService.CreateReviewRequest :=
  ReviewService.mkCreate "j2" "C" "B" (Js.of_Z 5) None "seeker_to_provider".
Definition profile : Profile.t := Profile.mk (Js.of_Z 4) 1 None.
(** A store in which [B] has a review but no profile document, so that
    writing the rating to the profile fails. *)
Definition without_profile : Appwrite.World := Examples.world [] [] [stored] ∅ [].
Definition with_profile : Appwrite.World :=
  Examples.world [] [] [stored] {[ "B"%string := profile ]} [].
End Reviews.

(** The update carries a rating that is truthy and is not the stored one. *)
Definition carries_new_rating (updateData : ReviewService.UpdateReviewRequest)
           (current : Review.t) : Prop :=
  exists x, ReviewService.upd_rating updateData = Some x
            /\ x <> 0%Qc /\ x <> Review.rating current.

Module Requests.
(** Requests that bring a [status] of their own. *)
Definition dispute : Js.obj :=
  {[ "jobId" := Js.VStr "j1"; "complainantId" := Js.VStr "U";
     "respondentId" := Js.VStr "V"; "disputeType" := Js.VStr "quality";
     "description" := Js.VStr "late"; "amountInDispute" := Js.VNum (Js.of_Z 50);
     "status" := Js.VStr "cancelled" ]}%string.
Definition job : Js.obj :=
  {[ "title" := Js.VStr "Fence"; "budget" := Js.VNum (Js.of_Z 300);
     "status" := Js.VStr "completed"; "isFeatured" := Js.VBool true ]}%string.
End Requests.

(** ** The averages as the specification words them *)

Definition spec_sum (values : list Qc) : Qc := foldr Qcplus 0%Qc values.

(** [sum(field) / count], and 0 when there is nothing to average. *)
Definition spec_mean (values : list Qc) : Qc :=
  if (length values =? 0)%nat then 0%Qc
  else (spec_sum values / Js.of_nat (length values))%Qc.

(** Rounding to [places] decimals with ties towards plus infinity, which
    is what [Math.round(x * 10^places) / 10^places] computes. *)
Definition round_half_up (places : nat) (x : Qc) : Qc :=
  (Js.of_Z (Qfloor (x * Js.of_Z (10 ^ Z.of_nat places) + Q2Qc (1 # 2))%Qc)
   / Js.of_Z (10 ^ Z.of_nat places))%Qc.


(** The statuses of a dispute ([DisputeStatus] of [database.types.ts]). *)
Definition DisputeStatus : list string :=
  ["open"; "under_review"; "resolved_in_favor_of_seeker";
   "resolved_in_favor_of_provider"; "cancelled"]%string.

(** The time from the creation of a dispute to [resolved_at], in hours. *)
Definition spec_hours (d : Dispute.t) (resolved_at : Z) : Qc :=
  (Js.of_Z (resolved_at - Dispute.created_at d) / Js.of_Z (1000 * 60 * 60))%Qc.

(** The resolution times, in hours, of the disputes that are resolved and
    carry [resolved_at]. *)
Definition spec_resolution_hours (disputes : list Dispute.t) : list Qc :=
  omap (fun d =>
          if String.eqb (Dispute.status d) "resolved_in_favor_of_seeker"
             || String.eqb (Dispute.status d) "resolved_in_favor_of_provider"
          then spec_hours d <$> Dispute.resolved_at d
          else None)
       disputes.

Definition spec_average_resolution_time (disputes : list Dispute.t) : Qc :=
  round_half_up 2 (spec_mean (spec_resolution_hours disputes)).

Module Resolved.
(** A dispute resolved two hours after it was raised, assigned to an
    admin, and one still open. *)
Definition in_two_hours : Dispute.t :=
  Dispute.mk "d1" "j1" "U" "V" "quality" "resolved_in_favor_of_seeker" "medium"
             1700000000000 (Some 1700007200000) (Some "admin"%string).
Definition still_open : Dispute.t :=
  Dispute.mk "d2" "j2" "U" "V" "payment" "open" "high" 1700000000000 None None.
End Resolved.

(** ** The sums and means the code computes on doubles *)

(** A sum accumulated from 0, left to right, in double precision. *)
Definition double_sum (values : list Double.t) : Double.t :=
  fold_left Double.add values Double.zero.

(** The quotient of that sum by the number of values, 0 when there is
    none. *)
Definition double_mean (values : list Double.t) : Double.t :=
  if (length values =? 0)%nat then Double.zero
  else Double.div (double_sum values) (Double.of_nat (length values)).

(** The amount of a payment, as the double the code reads. *)
Definition amount_of (payment : Payment.t) : Double.t :=
  Double.of_Qc (Payment.amount payment).

Module Decimals.
End Decimals.

Module Amounts.
End Amounts.

(** ** Vocabulary of the further properties *)

(** The sum, in double precision and in the order of the list, of the
    amounts of the payments that satisfy [p]. *)
Definition amount_where (p : Payment.t -> bool) (payments : list Payment.t) : Double.t :=
  double_sum (amount_of <$> List.filter p payments).

Definition has_status (s : string) (payment : Payment.t) : bool :=
  String.eqb (Payment.status payment) s.

(** The resolution times that [getAdminWorkload] adds up, in the order of
    the list: those of the disputes resolved for one of the parties that
    carry [resolved_at]. *)
Definition timed_hours (disputes : list Dispute.t) : list Double.t :=
  omap (fun d =>
          if String.eqb (Dispute.status d) "resolved_in_favor_of_seeker"
             || String.eqb (Dispute.status d) "resolved_in_favor_of_provider"
          then DisputeService.resolutionHours d <$> Dispute.resolved_at d
          else None)
       disputes.

(** How many elements of [l] have the key [k]. *)
Definition occurrences {A K : Type} `{EqDecision K} (key : A -> K) (k : K) (l : list A) : nat :=
  length (List.filter (fun d => bool_decide (key d = k)) l).

(** The entry of a distribution for a key that occurs [n] times: absent
    for a key that does not occur. *)
Definition tally (n : nat) : option nat := if (n =? 0)%nat then None else Some n.

(** ** ReviewService: the read methods *)
Module ReviewReads.

Definition page_of (queries : list Query.t) (fallback : string)
  : Appwrite.M (ApiResponse (PaginatedResponse Review.t)) :=
  Appwrite.try_catch
    (response <- Appwrite.listDocuments COLLECTION_IDS.REVIEWS Appwrite.reviews queries ;;
     Appwrite.ret (Success (mkPage (Appwrite.documents response) (Appwrite.total response))))
    (failed fallback).

(** [getUserReviews(userId, limit, offset)]: the reviews received. *)
Definition getUserReviews (userId : string) (limit offset : nat)
  : Appwrite.M (ApiResponse (PaginatedResponse Review.t)) :=
  page_of [Query.equal "reviewee_id" userId; Query.orderDesc "created_at";
           Query.limit limit; Query.offset offset]
          "Failed to fetch user reviews".

(** [getReviewsByUser(userId, limit, offset)]: the reviews written. *)
Definition getReviewsByUser (userId : string) (limit offset : nat)
  : Appwrite.M (ApiResponse (PaginatedResponse Review.t)) :=
  page_of [Query.equal "reviewer_id" userId; Query.orderDesc "created_at";
           Query.limit limit; Query.offset offset]
          "Failed to fetch reviews by user".

Definition getJobReviews (jobId : string) (limit offset : nat)
  : Appwrite.M (ApiResponse (PaginatedResponse Review.t)) :=
  page_of [Query.equal "job_id" jobId; Query.orderDesc "created_at";
           Query.limit limit; Query.offset offset]
          "Failed to fetch job reviews".

(** [canUserReview(userId, jobId, revieweeId)]: false once the user has
    reviewed that reviewee for that job. *)
Definition canUserReview (userId jobId revieweeId : string)
  : Appwrite.M (ApiResponse bool) :=
  Appwrite.try_catch
    (existingReview <-
       Appwrite.listDocuments COLLECTION_IDS.REVIEWS Appwrite.reviews
         [Query.equal "job_id" jobId; Query.equal "reviewer_id" userId;
          Query.equal "reviewee_id" revieweeId; Query.limit 1] ;;
     if (0 <? length (Appwrite.documents existingReview))%nat
     then Appwrite.ret (Success false)
     else Appwrite.ret (Success true))
    (failed "Failed to check review eligibility").

End ReviewReads.

(** The reviews of [l] that [userId] wrote about [revieweeId] for [jobId]. *)
Definition reviewed_by (userId jobId revieweeId : string) (review : Review.t) : Prop :=
  Review.job_id review = jobId /\ Review.reviewer_id review = userId
  /\ Review.reviewee_id review = revieweeId.

(** The reviews a user received. *)
Definition received_by (userId : string) (reviews : list Review.t) : list Review.t :=
  List.filter (fun r => String.eqb (Review.reviewee_id r) userId) reviews.

(** The rating fields a profile should carry for its reviews: the mean
    rating rounded to one decimal and the number of reviews. *)
Definition rating_of_reviews (reviews : list Review.t) : Qc * nat :=
  (round_half_up 1 (spec_mean (Review.rating <$> reviews)), length reviews).

(** The profile of [userId] carries the rating of the reviews they have
    received in the store. *)
Definition profile_in_sync (userId : string) (w : Appwrite.World) : Prop :=
  exists p, Appwrite.profiles w !! userId = Some p
            /\ (Profile.average_rating p, Profile.total_reviews p)
               = rating_of_reviews (received_by userId (Appwrite.reviews w)).

(** ** DisputeService and PaymentService: one document read and written *)

Definition set_disputes (x : list Dispute.t) (w : Appwrite.World) : Appwrite.World :=
  Appwrite.mkWorld x (Appwrite.payments w) (Appwrite.reviews w) (Appwrite.profiles w)
                   (Appwrite.created w) (Appwrite.console w) (Appwrite.faults w)
                   (Appwrite.race w) (Appwrite.trace w) (Appwrite.now w)
                   (Appwrite.next_id w).
Definition set_payments (x : list Payment.t) (w : Appwrite.World) : Appwrite.World :=
  Appwrite.mkWorld (Appwrite.disputes w) x (Appwrite.reviews w) (Appwrite.profiles w)
                   (Appwrite.created w) (Appwrite.console w) (Appwrite.faults w)
                   (Appwrite.race w) (Appwrite.trace w) (Appwrite.now w)
                   (Appwrite.next_id w).

Module DisputeWrites.

Definition getById (disputeId : string) : Appwrite.M (ApiResponse Dispute.t) :=
  Appwrite.try_catch
    (dispute <- Appwrite.getDocument COLLECTION_IDS.DISPUTES Appwrite.disputes disputeId ;;
     Appwrite.ret (Success dispute))
    (failed "Failed to fetch dispute").

Definition getByJobId (jobId : string) : Appwrite.M (ApiResponse (list Dispute.t)) :=
  Appwrite.try_catch
    (response <- Appwrite.listDocuments COLLECTION_IDS.DISPUTES Appwrite.disputes
                   [Query.equal "job_id" jobId; Query.orderDesc "created_at"] ;;
     Appwrite.ret (Success (Appwrite.documents response)))
    (failed "Failed to fetch job disputes").

(** The fields of a dispute that the updates write, among those the
    record keeps. *)
Definition with_status (s : string) (d : Dispute.t) : Dispute.t :=
  Dispute.mk (Dispute.id d) (Dispute.job_id d) (Dispute.complainant_id d)
             (Dispute.respondent_id d) (Dispute.dispute_type d) s (Dispute.priority d)
             (Dispute.created_at d) (Dispute.resolved_at d) (Dispute.assigned_admin_id d).
Definition with_priority (p : string) (d : Dispute.t) : Dispute.t :=
  Dispute.mk (Dispute.id d) (Dispute.job_id d) (Dispute.complainant_id d)
             (Dispute.respondent_id d) (Dispute.dispute_type d) (Dispute.status d) p
             (Dispute.created_at d) (Dispute.resolved_at d) (Dispute.assigned_admin_id d).
Definition with_resolved_at (t : Z) (d : Dispute.t) : Dispute.t :=
  Dispute.mk (Dispute.id d) (Dispute.job_id d) (Dispute.complainant_id d)
             (Dispute.respondent_id d) (Dispute.dispute_type d) (Dispute.status d)
             (Dispute.priority d) (Dispute.created_at d) (Some t)
             (Dispute.assigned_admin_id d).
Definition with_admin (a : string) (d : Dispute.t) : Dispute.t :=
  Dispute.mk (Dispute.id d) (Dispute.job_id d) (Dispute.complainant_id d)
             (Dispute.respondent_id d) (Dispute.dispute_type d) (Dispute.status d)
             (Dispute.priority d) (Dispute.created_at d) (Dispute.resolved_at d) (Some a).

(** [updateData] of [updateStatus], applied to the stored document:
    [status] always; the admin when the status is ['under_review'] and an
    admin is given; [resolved_at] when the status is one of the two
    resolved ones and a resolution is given. [updated_at],
    [review_started_at], [resolution] and [closed_at] are fields the
    record does not keep. *)
Definition updateStatus_data (status : string) (adminId resolution : option string)
           (now : Z) (d : Dispute.t) : Dispute.t :=
  let updated := with_status status d in
  if String.eqb status "under_review" && Js.truthy_opt_string adminId then
    with_admin (default "" adminId) updated
  else if (String.eqb status "resolved_in_favor_of_seeker"
           || String.eqb status "resolved_in_favor_of_provider")
          && Js.truthy_opt_string resolution then
    with_resolved_at now updated
  else if String.eqb status "cancelled" then updated
  else updated.

Definition updateStatus (disputeId status : string) (adminId resolution : option string)
  : Appwrite.M (ApiResponse Dispute.t) :=
  Appwrite.try_catch
    (now <- Appwrite.Date_now ;;
     dispute <- Appwrite.updateDocument COLLECTION_IDS.DISPUTES Appwrite.disputes
                  set_disputes disputeId (updateStatus_data status adminId resolution now) ;;
     Appwrite.ret (Success dispute))
    (failed "Failed to update dispute status").

Definition assignToAdmin (disputeId adminId : string) : Appwrite.M (ApiResponse Dispute.t) :=
  Appwrite.try_catch
    (dispute <- Appwrite.updateDocument COLLECTION_IDS.DISPUTES Appwrite.disputes
                  set_disputes disputeId
                  (fun d => with_status "under_review" (with_admin adminId d)) ;;
     Appwrite.ret (Success dispute))
    (failed "Failed to assign dispute to admin").

Definition updatePriority (disputeId priority : string)
  : Appwrite.M (ApiResponse Dispute.t) :=
  Appwrite.try_catch
    (dispute <- Appwrite.updateDocument COLLECTION_IDS.DISPUTES Appwrite.disputes
                  set_disputes disputeId (with_priority priority) ;;
     Appwrite.ret (Success dispute))
    (failed "Failed to update dispute priority").

Definition delete (disputeId : string) : Appwrite.M (ApiResponse unit) :=
  Appwrite.try_catch
    (_ <- Appwrite.deleteDocument COLLECTION_IDS.DISPUTES Appwrite.disputes
            set_disputes disputeId ;;
     Appwrite.ret (Success tt))
    (failed "Failed to delete dispute").

End DisputeWrites.

Module PaymentWrites.

Definition getById (paymentId : string) : Appwrite.M (ApiResponse Payment.t) :=
  Appwrite.try_catch
    (payment <- Appwrite.getDocument COLLECTION_IDS.PAYMENTS Appwrite.payments paymentId ;;
     Appwrite.ret (Success payment))
    (failed "Failed to fetch payment").

Definition getByJobId (jobId : string) : Appwrite.M (ApiResponse (list Payment.t)) :=
  Appwrite.try_catch
    (response <- Appwrite.listDocuments COLLECTION_IDS.PAYMENTS Appwrite.payments
                   [Query.equal "job_id" jobId; Query.orderDesc "created_at"] ;;
     Appwrite.ret (Success (Appwrite.documents response)))
    (failed "Failed to fetch job payments").

(** Of the fields the updates of a payment write ([status],
    [escrow_status], [refund_reason] and the timestamps), the record keeps
    [status]. *)
Definition with_status (s : string) (p : Payment.t) : Payment.t :=
  Payment.mk (Payment.id p) (Payment.job_id p) (Payment.payer_id p)
             (Payment.recipient_id p) (Payment.amount p) s (Payment.created_at p).

Definition updateStatus (paymentId status : string) : Appwrite.M (ApiResponse Payment.t) :=
  Appwrite.try_catch
    (payment <- Appwrite.updateDocument COLLECTION_IDS.PAYMENTS Appwrite.payments
                  set_payments paymentId (with_status status) ;;
     Appwrite.ret (Success payment))
    (failed "Failed to update payment status").

Definition releaseEscrow (paymentId : string) : Appwrite.M (ApiResponse Payment.t) :=
  Appwrite.try_catch
    (payment <- Appwrite.updateDocument COLLECTION_IDS.PAYMENTS Appwrite.payments
                  set_payments paymentId (with_status "completed") ;;
     Appwrite.ret (Success payment))
    (failed "Failed to release escrow payment").

Definition refundEscrow (paymentId : string) (reason : option string)
  : Appwrite.M (ApiResponse Payment.t) :=
  Appwrite.try_catch
    (payment <- Appwrite.updateDocument COLLECTION_IDS.PAYMENTS Appwrite.payments
                  set_payments paymentId (with_status "refunded") ;;
     Appwrite.ret (Success payment))
    (failed "Failed to refund escrow payment").

End PaymentWrites.

(** The documents of [l] other than the one with the id. *)
Definition other_than {D : Type} `{Document D} (id : string) (l : list D) : list D :=
  List.filter (fun x => negb (String.eqb (doc_id x) id)) l.

(** The disputes of [l] assigned to the admin. *)
Definition assigned_to (adminId : string) (l : list Dispute.t) : list Dispute.t :=
  List.filter (fun d => bool_decide (Dispute.assigned_admin_id d = Some adminId)) l.

(** The status says the dispute was resolved for one of the parties. *)
Definition resolved_for_a_party (status : string) : bool :=
  String.eqb status "resolved_in_favor_of_seeker"
  || String.eqb status "resolved_in_favor_of_provider".

(** [d'] is the same case as [d]: same id, job, parties, type and date. *)
Definition same_case (d d' : Dispute.t) : Prop :=
  Dispute.id d' = Dispute.id d /\ Dispute.job_id d' = Dispute.job_id d
  /\ Dispute.complainant_id d' = Dispute.complainant_id d
  /\ Dispute.respondent_id d' = Dispute.respondent_id d
  /\ Dispute.dispute_type d' = Dispute.dispute_type d
  /\ Dispute.created_at d' = Dispute.created_at d.

(** The write [run], started in [before], returned [d'], which a later
    [getById] returns too, and the other disputes read as before. *)
Definition dispute_written (before : Appwrite.World) (disputeId : string) (d' : Dispute.t)
           (run : Appwrite.Outcome (ApiResponse Dispute.t) * Appwrite.World) : Prop :=
  fst run = Appwrite.Returned (Success d')
  /\ fst (DisputeWrites.getById disputeId (snd run)) = Appwrite.Returned (Success d')
  /\ forall other, other <> disputeId ->
                   fst (DisputeWrites.getById other (snd run))
                   = fst (DisputeWrites.getById other before).

(** What [getStats] reports once a payment has become [p'], of status
    [status], the other payments being [others]: the statistics are sums
    over a response that holds [p'] and the other payments, newest first,
    and each amount is the sum, in double precision and in the order of
    the response, over the payments of its status; [p'] is among those
    of the status [status] and of no other. *)
Definition moved_to (status : string) (p' : Payment.t) (others response : list Payment.t)
           (stats : PaymentService.Stats) : Prop :=
  let counted (bucket : string) : Prop :=
    List.filter (has_status bucket) response
    ≡ₚ (if String.eqb status bucket then [p'] else [])
       ++ List.filter (has_status bucket) others in
  response ≡ₚ p' :: others
  /\ Sorted newer_or_same response
  /\ PaymentService.totalTransactions stats = S (length others)
  /\ PaymentService.totalAmount stats = double_sum (amount_of <$> response)
  /\ (PaymentService.pendingAmount stats = amount_where (has_status "pending") response
      /\ counted "pending"%string)
  /\ (PaymentService.completedAmount stats = amount_where (has_status "completed") response
      /\ counted "completed"%string)
  /\ (PaymentService.refundedAmount stats = amount_where (has_status "refunded") response
      /\ counted "refunded"%string).

(** The message of the store for a document that does not exist. *)
Definition not_found_message : string :=
  "Document with the requested ID could not be found.".

(** How a method on the document [id] of a collection answers: a
    rejected request and a missing document come back as a failure, with
    the message of the error or else [fallback], and leave the collection
    as it was; otherwise the method succeeds. It never throws. *)
Definition answers_like {D A : Type} `{Document D} (content : Appwrite.World -> list D)
           (id fallback : string) (before : Appwrite.World)
           (run : Appwrite.Outcome (ApiResponse A) * Appwrite.World) : Prop :=
  match Appwrite.fault_at 0 before with
  | Some e =>
      fst run = Appwrite.Returned (Failure (Js.or_string (Js.message e) fallback))
      /\ content (snd run) = content before
  | None =>
      match List.find (fun d => String.eqb (doc_id d) id) (content before) with
      | None =>
          fst run = Appwrite.Returned (Failure not_found_message)
          /\ content (snd run) = content before
      | Some _ => exists a, fst run = Appwrite.Returned (Success a)
      end
  end.

(** A filter of [getAll] that is set and not empty asks for that value. *)
Definition wanted (filter : option string) (value : string) : bool :=
  match filter with
  | Some x => if Js.truthy_string x then String.eqb value x else true
  | None => true
  end.

(** The dispute passes the status, priority and type filters. *)
Definition passes (filters : DisputeService.Filters) (d : Dispute.t) : bool :=
  wanted (DisputeService.status filters) (Dispute.status d)
  && wanted (DisputeService.priority filters) (Dispute.priority d)
  && wanted (DisputeService.disputeType filters) (Dispute.dispute_type d).

(** The document was created within the range, both ends included; every
    document is within a missing range. *)
Definition created_within {D : Type} `{Document D} (dateRange : option (Z * Z)) (d : D)
  : bool :=
  match dateRange with
  | Some (start, stop) => (start <=? doc_created_at d) && (doc_created_at d <=? stop)
  | None => true
  end.

Module Lifecycle.
(** A store with a payment held in escrow and a dispute raised on it. *)
Definition held : Payment.t := Payment.mk "p1" "j1" "U" "V" (Js.of_Z 250) "pending" 100.
Definition settled : Payment.t := Payment.mk "p2" "j2" "U" "V" (Js.of_Z 40) "completed" 200.
Definition raised : Dispute.t :=
  Dispute.mk "d1" "j1" "U" "V" "payment" "open" "medium" 1700000000000 None None.
Definition started : Appwrite.World := Examples.world [raised] [held; settled] [] ∅ [].
End Lifecycle.

(** * Properties *)

#[local] Set Warnings "-clear-no-such-hyp,-level-tolerance".

(** ** The stable sort by [created_at], newest first *)
Section SortByCreatedAt.
Context {D : Type} `{Document D}.

Lemma sort_insert_HdRel (x y : D) (l : list D) :
  newer_or_same y x -> HdRel newer_or_same y l ->
  HdRel newer_or_same y (Js.sort_insert by_created_at_desc x l).
Proof.
  intros Hyx Hl. destruct l as [|z l]; simpl.
  - constructor. exact Hyx.
  - destruct (by_created_at_desc x z <=? 0); constructor.
    + exact Hyx.
    + inversion Hl; subst. assumption.
Qed.

Lemma sort_insert_Sorted (x : D) (l : list D) :
  Sorted newer_or_same l -> Sorted newer_or_same (Js.sort_insert by_created_at_desc x l).
Proof.
  induction 1 as [|y l Hs IH Hhd]; simpl.
  - repeat constructor.
  - destruct (Z.leb_spec (by_created_at_desc x y) 0) as [Hle|Hgt].
    + constructor; [constructor; assumption|].
      constructor. unfold newer_or_same, by_created_at_desc in *. lia.
    + constructor; [exact IH|].
      apply sort_insert_HdRel; [|exact Hhd].
      unfold newer_or_same, by_created_at_desc in *. lia.
Qed.

Lemma sort_Sorted (l : list D) : Sorted newer_or_same (Js.sort by_created_at_desc l).
Proof.
  induction l as [|x l IH]; simpl; [constructor|].
  apply sort_insert_Sorted, IH.
Qed.

Lemma sort_insert_Permutation (x : D) (l : list D) :
  Js.sort_insert by_created_at_desc x l ≡ₚ x :: l.
Proof.
  induction l as [|y l IH]; simpl; [reflexivity|].
  destruct (by_created_at_desc x y <=? 0); [reflexivity|].
  rewrite IH. apply Permutation_swap.
Qed.

Lemma sort_Permutation (l : list D) : Js.sort by_created_at_desc l ≡ₚ l.
Proof.
  induction l as [|x l IH]; simpl; [reflexivity|].
  rewrite sort_insert_Permutation, IH. reflexivity.
Qed.

(** Stability: the documents of one instant keep their relative order. *)
Lemma sort_insert_stable (k : Z) (x : D) (l : list D) :
  List.filter (created_at_is k) (Js.sort_insert by_created_at_desc x l)
  = List.filter (created_at_is k) (x :: l).
Proof.
  induction l as [|y l IH]; [reflexivity|].
  cbn [Js.sort_insert].
  destruct (Z.leb_spec (by_created_at_desc x y) 0) as [Hle|Hgt]; [reflexivity|].
  cbn [List.filter] in *. rewrite IH.
  unfold created_at_is, by_created_at_desc in *.
  destruct (Z.eqb_spec (doc_created_at x) k), (Z.eqb_spec (doc_created_at y) k);
    try reflexivity; lia.
Qed.

Lemma sort_stable (k : Z) (l : list D) :
  List.filter (created_at_is k) (Js.sort by_created_at_desc l)
  = List.filter (created_at_is k) l.
Proof.
  induction l as [|x l IH]; [reflexivity|].
  cbn [Js.sort]. rewrite sort_insert_stable. cbn [List.filter]. rewrite IH. reflexivity.
Qed.

Lemma Sorted_drop (n : nat) (l : list D) :
  Sorted newer_or_same l -> Sorted newer_or_same (drop n l).
Proof.
  revert l. induction n as [|n IH]; intros l Hl; [exact Hl|].
  destruct l as [|x l]; [constructor|].
  simpl. apply IH. inversion Hl; assumption.
Qed.

Lemma Sorted_take (n : nat) (l : list D) :
  Sorted newer_or_same l -> Sorted newer_or_same (take n l).
Proof.
  revert n. induction l as [|x l IH]; intros n Hl; [destruct n; constructor|].
  destruct n as [|n]; [constructor|].
  simpl. inversion Hl as [|? ? Hs Hhd]; subst.
  constructor; [apply IH, Hs|].
  destruct l as [|y l]; [destruct n; constructor|].
  destruct n; simpl; constructor. inversion Hhd; assumption.
Qed.

Lemma slice_Sorted (start stop : nat) (l : list D) :
  Sorted newer_or_same l -> Sorted newer_or_same (Js.slice start stop l).
Proof. intros Hl. unfold Js.slice. apply Sorted_drop, Sorted_take, Hl. Qed.

Lemma list_filter_sublist (p : D -> bool) (l1 l2 : list D) :
  l1 `sublist_of` l2 -> List.filter p l1 `sublist_of` List.filter p l2.
Proof.
  induction 1 as [|x l1 l2 _ IH|x l1 l2 _ IH]; simpl.
  - constructor.
  - destruct (p x); [constructor|]; exact IH.
  - destruct (p x); [constructor|]; exact IH.
Qed.

(** A page cut out of the sorted concatenation: ordered newest first, and
    the documents of any one instant in the order they had before the
    sort. *)
Lemma sorted_page (start stop : nat) (l : list D) :
  let page := Js.slice start stop (Js.sort by_created_at_desc l) in
  Sorted newer_or_same page
  /\ forall k, List.filter (created_at_is k) page `sublist_of` List.filter (created_at_is k) l.
Proof.
  intros page. split.
  - apply slice_Sorted, sort_Sorted.
  - intros k. rewrite <- (sort_stable k l). apply list_filter_sublist.
    unfold page, Js.slice.
    etransitivity; [apply sublist_drop | apply sublist_take].
Qed.

End SortByCreatedAt.

(** ** The duplicate filter of [getAll] *)
Section UniqueDisputes.

Lemma findIndex_from_miss (p : Dispute.t -> bool) (i : Z) (pre l : list Dispute.t) :
  existsb p pre = false ->
  Js.findIndex_from p i (pre ++ l) = Js.findIndex_from p (i + Z.of_nat (length pre)) l.
Proof.
  revert i. induction pre as [|y pre IH]; intros i Hpre; simpl in *.
  - f_equal. lia.
  - apply orb_false_iff in Hpre as [Hy Hpre]. rewrite Hy, IH by assumption.
    f_equal. lia.
Qed.

Lemma findIndex_from_hit (p : Dispute.t -> bool) (i : Z) (pre l : list Dispute.t) :
  existsb p pre = true ->
  Js.findIndex_from p i (pre ++ l) < i + Z.of_nat (length pre).
Proof.
  revert i. induction pre as [|y pre IH]; intros i Hpre; simpl in *; [discriminate|].
  destruct (p y); simpl in Hpre; [lia|].
  specialize (IH (i + 1) Hpre). lia.
Qed.

Lemma same_id_refl (x : Dispute.t) : DisputeService.same_id x x = true.
Proof. apply String.eqb_refl. Qed.

Lemma filter_from_first_occurrences (pre l : list Dispute.t) :
  Js.filter_from
    (fun dispute index self =>
       index =? Js.findIndex (fun d => DisputeService.same_id d dispute) self)
    (pre ++ l) (Z.of_nat (length pre)) l
  = first_occurrences pre l.
Proof.
  revert pre. induction l as [|x l IH]; intros pre; [reflexivity|].
  cbn [Js.filter_from first_occurrences].
  assert (Hnext : Js.filter_from
            (fun dispute index self =>
               index =? Js.findIndex (fun d => DisputeService.same_id d dispute) self)
            (pre ++ x :: l) (Z.of_nat (length pre) + 1) l
          = first_occurrences (pre ++ [x]) l).
  { rewrite <- IH. rewrite <- app_assoc. simpl. f_equal.
    rewrite length_app. simpl. lia. }
  rewrite Hnext. unfold Js.findIndex.
  destruct (existsb (fun d => DisputeService.same_id d x) pre) eqn:Hseen.
  - pose proof (findIndex_from_hit _ 0 pre (x :: l) Hseen) as Hlt.
    destruct (Z.eqb_spec (Z.of_nat (length pre))
                (Js.findIndex_from (fun d => DisputeService.same_id d x) 0 (pre ++ x :: l)));
      [lia | reflexivity].
  - rewrite findIndex_from_miss by assumption. simpl.
    rewrite same_id_refl, Z.eqb_refl. reflexivity.
Qed.

Lemma uniqueDisputes_first_occurrences (l : list Dispute.t) :
  DisputeService.uniqueDisputes l = first_occurrences [] l.
Proof. exact (filter_from_first_occurrences [] l). Qed.

Lemma seen_iff (x : Dispute.t) (seen : list Dispute.t) :
  existsb (fun d => DisputeService.same_id d x) seen = true
  <-> Dispute.id x ∈ Dispute.id <$> seen.
Proof.
  rewrite existsb_exists, list_elem_of_fmap. unfold DisputeService.same_id.
  split.
  - intros (d & Hin & Heq). apply String.eqb_eq in Heq.
    exists d. split; [congruence | apply list_elem_of_In, Hin].
  - intros (d & Heq & Hin). exists d. split; [apply list_elem_of_In, Hin|].
    apply String.eqb_eq. congruence.
Qed.

Lemma first_occurrences_ids (seen l : list Dispute.t) :
  NoDup (Dispute.id <$> first_occurrences seen l)
  /\ forall i, i ∈ Dispute.id <$> first_occurrences seen l
               <-> i ∈ Dispute.id <$> l /\ i ∉ Dispute.id <$> seen.
Proof.
  revert seen. induction l as [|x l IH]; intros seen.
  - simpl. split; [constructor | set_solver].
  - cbn [first_occurrences]. destruct (IH (seen ++ [x])) as [Hnd Hin].
    assert (Hin' : forall i, i ∈ Dispute.id <$> first_occurrences (seen ++ [x]) l
                     <-> i ∈ Dispute.id <$> l /\ i ∉ Dispute.id <$> seen /\ i <> Dispute.id x).
    { intros i. rewrite Hin, fmap_app. set_solver. }
    destruct (existsb (fun d => DisputeService.same_id d x) seen) eqn:Hseen.
    + apply seen_iff in Hseen. split; [exact Hnd|].
      intros i. rewrite Hin', fmap_cons. set_solver.
    + assert (Hfresh : Dispute.id x ∉ Dispute.id <$> seen).
      { intros Hx. apply seen_iff in Hx. congruence. }
      split.
      * rewrite fmap_cons. constructor; [|exact Hnd].
        intros Hx. apply Hin' in Hx. tauto.
      * intros i. rewrite !fmap_cons, elem_of_cons, Hin'.
        destruct (decide (i = Dispute.id x)) as [->|Hne]; set_solver.
Qed.

(** The filter keeps one document per [$id], so its length is the number
    of distinct ids. *)
Lemma uniqueDisputes_length (l : list Dispute.t) :
  length (DisputeService.uniqueDisputes l)
  = size (list_to_set (Dispute.id <$> l) : gset string).
Proof.
  rewrite uniqueDisputes_first_occurrences.
  destruct (first_occurrences_ids [] l) as [Hnd Hin].
  rewrite <- (length_fmap Dispute.id), <- (size_list_to_set (C := gset string)) by exact Hnd.
  f_equal. apply set_eq. intros i. rewrite !elem_of_list_to_set, Hin. set_solver.
Qed.

End UniqueDisputes.

(** ** Runs of the fan-out *)
Section FanOut.
Context {D : Type} `{Document D}.
Variable collection : string.
Variable content : Appwrite.World -> list D.
Hypothesis content_faults : forall fs w, content (Appwrite.set_faults fs w) = content w.
Hypothesis content_record : forall e w, content (Appwrite.record e w) = content w.

Lemma listDocuments_run (q : list Query.t) (w : Appwrite.World) :
  Appwrite.listDocuments collection content q w
  = match Appwrite.fault_at 0 w with
    | Some e =>
        (Appwrite.Thrown e,
         Appwrite.record (Appwrite.Requested Appwrite.ListDocuments collection false)
           (Appwrite.set_faults (tail (Appwrite.faults w)) w))
    | None =>
        (Appwrite.Returned (Appwrite.select q (content w)),
         Appwrite.record (Appwrite.Requested Appwrite.ListDocuments collection true)
           (Appwrite.set_faults (tail (Appwrite.faults w)) w))
    end.
Proof.
  unfold Appwrite.listDocuments, Appwrite.request, Appwrite.fault_at.
  rewrite <- head_lookup.
  destruct (head (Appwrite.faults w)) as [[e|]|]; cbn [Appwrite.is_returned];
    rewrite ?content_record, ?content_faults; reflexivity.
Qed.

Lemma fault_at_next (n : nat) (e : Appwrite.Event) (w : Appwrite.World) :
  Appwrite.fault_at n (Appwrite.record e (Appwrite.set_faults (tail (Appwrite.faults w)) w))
  = Appwrite.fault_at (S n) w.
Proof. unfold Appwrite.fault_at. cbn. rewrite lookup_tail. reflexivity. Qed.

Lemma fan_out_run (q1 q2 : list Query.t) (w : Appwrite.World) :
  exists w',
    Appwrite.Promise_all (Appwrite.listDocuments collection content q1)
                         (Appwrite.listDocuments collection content q2) w
    = (fan_out_outcome content q1 q2 w, w').
Proof.
  unfold Appwrite.Promise_all, fan_out_outcome.
  rewrite (listDocuments_run q1 w).
  destruct (Appwrite.fault_at 0 w) as [e1|];
    rewrite listDocuments_run, fault_at_next;
    destruct (Appwrite.fault_at 1 w) as [e2|];
    rewrite ?content_record, ?content_faults; eexists; reflexivity.
Qed.

End FanOut.

(** ** What the three fan-out merges return *)
Section Merges.

Lemma disputes_faults fs w :
  Appwrite.disputes (Appwrite.set_faults fs w) = Appwrite.disputes w.
Proof. reflexivity. Qed.
Lemma disputes_record e w :
  Appwrite.disputes (Appwrite.record e w) = Appwrite.disputes w.
Proof. reflexivity. Qed.
Lemma payments_faults fs w :
  Appwrite.payments (Appwrite.set_faults fs w) = Appwrite.payments w.
Proof. reflexivity. Qed.
Lemma payments_record e w :
  Appwrite.payments (Appwrite.record e w) = Appwrite.payments w.
Proof. reflexivity. Qed.

Lemma getAll_fan_out_run (filters : DisputeService.Filters) (u : string)
      (limit offset : nat) (w : Appwrite.World) :
  DisputeService.userId filters = Some u -> Js.truthy_string u = true ->
  fst (DisputeService.getAll filters limit offset w)
  = Appwrite.Returned
      match fan_out_outcome Appwrite.disputes
              (DisputeService.getAll_queries filters limit offset
               ++ [Query.equal "complainant_id" u])
              (DisputeService.getAll_queries filters limit offset
               ++ [Query.equal "respondent_id" u]) w with
      | Appwrite.Returned both =>
          let merged := DisputeService.merge_unique both.1 both.2 limit offset in
          Success (mkPage (Appwrite.documents merged) (Appwrite.total merged))
      | Appwrite.Thrown e =>
          Failure (Js.or_string (Js.message e) "Failed to fetch disputes")
      end.
Proof.
  intros Hu Htruthy.
  unfold DisputeService.getAll, Appwrite.try_catch.
  rewrite Hu. cbn [Js.truthy_opt_string default from_option id]. rewrite Htruthy.
  cbv zeta. unfold Appwrite.bind.
  destruct (fan_out_run COLLECTION_IDS.DISPUTES Appwrite.disputes
              disputes_faults disputes_record
              (DisputeService.getAll_queries filters limit offset
               ++ [Query.equal "complainant_id" u])
              (DisputeService.getAll_queries filters limit offset
               ++ [Query.equal "respondent_id" u]) w) as [w' ->].
  destruct (fan_out_outcome _ _ _ w) as [both|e]; reflexivity.
Qed.

Lemma getUserDisputes_all_run (u : string) (limit offset : nat) (w : Appwrite.World) :
  fst (DisputeService.getUserDisputes u DisputeService.all limit offset w)
  = Appwrite.Returned
      match fan_out_outcome Appwrite.disputes
              ([Query.orderDesc "created_at"; Query.limit limit; Query.offset offset]
               ++ [Query.equal "complainant_id" u])
              ([Query.orderDesc "created_at"; Query.limit limit; Query.offset offset]
               ++ [Query.equal "respondent_id" u]) w with
      | Appwrite.Returned both =>
          let merged := DisputeService.merge_all both.1 both.2 limit offset in
          Success (mkPage (Appwrite.documents merged) (Appwrite.total merged))
      | Appwrite.Thrown e =>
          Failure (Js.or_string (Js.message e) "Failed to fetch user disputes")
      end.
Proof.
  unfold DisputeService.getUserDisputes, Appwrite.try_catch, Appwrite.bind.
  destruct (fan_out_run COLLECTION_IDS.DISPUTES Appwrite.disputes
              disputes_faults disputes_record
              ([Query.orderDesc "created_at"; Query.limit limit; Query.offset offset]
               ++ [Query.equal "complainant_id" u])
              ([Query.orderDesc "created_at"; Query.limit limit; Query.offset offset]
               ++ [Query.equal "respondent_id" u]) w) as [w' ->].
  destruct (fan_out_outcome _ _ _ w) as [both|e]; reflexivity.
Qed.

Lemma getUserPayments_all_run (u : string) (limit offset : nat) (w : Appwrite.World) :
  fst (PaymentService.getUserPayments u PaymentService.all limit offset w)
  = Appwrite.Returned
      match fan_out_outcome Appwrite.payments
              [Query.equal "payer_id" u; Query.orderDesc "created_at";
               Query.limit limit; Query.offset offset]
              [Query.equal "recipient_id" u; Query.orderDesc "created_at";
               Query.limit limit; Query.offset offset] w with
      | Appwrite.Returned both =>
          Success (PaymentService.merge_all both.1 both.2 limit offset)
      | Appwrite.Thrown e =>
          Failure (Js.or_string (Js.message e) "Failed to fetch user payments")
      end.
Proof.
  unfold PaymentService.getUserPayments, Appwrite.try_catch, Appwrite.bind.
  destruct (fan_out_run COLLECTION_IDS.PAYMENTS Appwrite.payments
              payments_faults payments_record
              [Query.equal "payer_id" u; Query.orderDesc "created_at";
               Query.limit limit; Query.offset offset]
              [Query.equal "recipient_id" u; Query.orderDesc "created_at";
               Query.limit limit; Query.offset offset] w) as [w' ->].
  destruct (fan_out_outcome _ _ _ w) as [both|e]; reflexivity.
Qed.

End Merges.

(** ** C1: duplicates across the two source results *)

(** C1. A document that satisfies both predicates of a merge is returned
    twice by [getUserDisputes] (role ['all']) and by [getUserPayments]
    (type ['all']), which concatenate the two results without filtering;
    [getAll], on the same store, returns it once. *)
Theorem C1_merge_without_filter_returns_both_copies :
  fst (DisputeService.getUserDisputes "U" DisputeService.all 20 0
         (Examples.world [Examples.self_dispute] [] [] ∅ []))
  = Appwrite.Returned
      (Success (mkPage [Examples.self_dispute; Examples.self_dispute] 2))
  /\ fst (PaymentService.getUserPayments "U" PaymentService.all 20 0
            (Examples.world [] [Examples.self_payment] [] ∅ []))
     = Appwrite.Returned
         (Success (mkPage [Examples.self_payment; Examples.self_payment] 2))
  /\ fst (DisputeService.getAll (Examples.only_userId "U") 20 0
            (Examples.world [Examples.self_dispute] [] [] ∅ []))
     = Appwrite.Returned (Success (mkPage [Examples.self_dispute] 1)).
Proof. repeat split; vm_compute; reflexivity. Qed.

(** ** C7: the window over the merged set *)

(** C7. With two payments sent by [U] and pages of one document, the
    source queries already skip [offset] documents and the merged list is
    sliced from [offset] again: the pages at offsets 0, 1, 2 hold the newer
    payment only, while the merged set read in one page holds both. The
    two dispute merges lose the older dispute in the same way. *)
Theorem C7_pages_skip_documents :
  let pw := Examples.world [] [Examples.newer_payment; Examples.older_payment] [] ∅ [] in
  let dw := Examples.world [Examples.newer_dispute; Examples.older_dispute] [] [] ∅ [] in
  (page_documents (fst (PaymentService.getUserPayments "U" PaymentService.all 20 0 pw))
   = [Examples.newer_payment; Examples.older_payment]
   /\ page_documents (fst (PaymentService.getUserPayments "U" PaymentService.all 1 0 pw))
      ++ page_documents (fst (PaymentService.getUserPayments "U" PaymentService.all 1 1 pw))
      ++ page_documents (fst (PaymentService.getUserPayments "U" PaymentService.all 1 2 pw))
      = [Examples.newer_payment])
  /\ (page_documents (fst (DisputeService.getUserDisputes "U" DisputeService.all 20 0 dw))
      = [Examples.newer_dispute; Examples.older_dispute]
      /\ page_documents (fst (DisputeService.getUserDisputes "U" DisputeService.all 1 0 dw))
         ++ page_documents (fst (DisputeService.getUserDisputes "U" DisputeService.all 1 1 dw))
         ++ page_documents (fst (DisputeService.getUserDisputes "U" DisputeService.all 1 2 dw))
         = [Examples.newer_dispute])
  /\ (page_documents (fst (DisputeService.getAll (Examples.only_userId "U") 20 0 dw))
      = [Examples.newer_dispute; Examples.older_dispute]
      /\ page_documents (fst (DisputeService.getAll (Examples.only_userId "U") 1 0 dw))
         ++ page_documents (fst (DisputeService.getAll (Examples.only_userId "U") 1 1 dw))
         ++ page_documents (fst (DisputeService.getAll (Examples.only_userId "U") 1 2 dw))
         = [Examples.newer_dispute]).
Proof. repeat split; vm_compute; reflexivity. Qed.

(** ** C2: the reported total *)

Lemma first_occurrences_sublist (seen l : list Dispute.t) :
  first_occurrences seen l `sublist_of` l.
Proof.
  revert seen. induction l as [|x l IH]; intros seen; simpl; [constructor|].
  destruct (existsb _ seen); [apply sublist_cons | apply sublist_skip]; apply IH.
Qed.

(** C2 as stated fails on [getAll]: for the dispute [U] raised against
    themselves each source query counts one document, and the reported
    total is 1, not 2. *)
Lemma C2_getAll_total_is_not_the_sum :
  ~ (forall (w : Appwrite.World) (filters : DisputeService.Filters) (u : string)
            (limit offset : nat) (page : PaginatedResponse Dispute.t),
        DisputeService.userId filters = Some u -> Js.truthy_string u = true ->
        fst (DisputeService.getAll filters limit offset w)
        = Appwrite.Returned (Success page) ->
        total page
        = (Appwrite.total
             (Appwrite.select (DisputeService.getAll_queries filters limit offset
                               ++ [Query.equal "complainant_id" u]) (Appwrite.disputes w))
           + Appwrite.total
               (Appwrite.select (DisputeService.getAll_queries filters limit offset
                                 ++ [Query.equal "respondent_id" u]) (Appwrite.disputes w)))%nat).
Proof.
  intros Hspec.
  specialize (Hspec (Examples.world [Examples.self_dispute] [] [] ∅ [])
                     (Examples.only_userId "U") "U"%string 20%nat 0%nat
                     (mkPage [Examples.self_dispute] 1) eq_refl eq_refl eq_refl).
  vm_compute in Hspec. discriminate.
Qed.

(** C2, amended. When neither source request fails, [getUserDisputes]
    (role ['all']) and [getUserPayments] (type ['all']) report the sum of
    the totals of their two source queries, and [getAll] with a user
    filter reports the number of distinct ids among the documents the two
    source queries returned. *)
Theorem C2_reported_total (w : Appwrite.World) (u : string) (limit offset : nat) :
  Appwrite.fault_at 0 w = None -> Appwrite.fault_at 1 w = None ->
  (exists page,
      fst (DisputeService.getUserDisputes u DisputeService.all limit offset w)
      = Appwrite.Returned (Success page)
      /\ total page
         = (Appwrite.total
              (Appwrite.select
                 [Query.orderDesc "created_at"; Query.limit limit; Query.offset offset;
                  Query.equal "complainant_id" u] (Appwrite.disputes w))
            + Appwrite.total
                (Appwrite.select
                   [Query.orderDesc "created_at"; Query.limit limit; Query.offset offset;
                    Query.equal "respondent_id" u] (Appwrite.disputes w)))%nat)
  /\ (exists page,
         fst (PaymentService.getUserPayments u PaymentService.all limit offset w)
         = Appwrite.Returned (Success page)
         /\ total page
            = (Appwrite.total
                 (Appwrite.select
                    [Query.equal "payer_id" u; Query.orderDesc "created_at";
                     Query.limit limit; Query.offset offset] (Appwrite.payments w))
               + Appwrite.total
                   (Appwrite.select
                      [Query.equal "recipient_id" u; Query.orderDesc "created_at";
                       Query.limit limit; Query.offset offset] (Appwrite.payments w)))%nat)
  /\ (forall filters,
         DisputeService.userId filters = Some u -> Js.truthy_string u = true ->
         exists page,
           fst (DisputeService.getAll filters limit offset w)
           = Appwrite.Returned (Success page)
           /\ total page
              = size (list_to_set
                        (Dispute.id <$>
                           (Appwrite.documents
                              (Appwrite.select
                                 (DisputeService.getAll_queries filters limit offset
                                  ++ [Query.equal "complainant_id" u]) (Appwrite.disputes w))
                            ++ Appwrite.documents
                                 (Appwrite.select
                                    (DisputeService.getAll_queries filters limit offset
                                     ++ [Query.equal "respondent_id" u]) (Appwrite.disputes w))))
                      : gset string)).
Proof.
  intros H0 H1. repeat split.
  - eexists. split.
    + rewrite getUserDisputes_all_run. unfold fan_out_outcome. rewrite H0, H1. reflexivity.
    + reflexivity.
  - eexists. split.
    + rewrite getUserPayments_all_run. unfold fan_out_outcome. rewrite H0, H1. reflexivity.
    + reflexivity.
  - intros filters Hu Htruthy. eexists. split.
    + rewrite (getAll_fan_out_run filters u) by assumption.
      unfold fan_out_outcome. rewrite H0, H1. reflexivity.
    + cbn [total DisputeService.merge_unique Appwrite.total fst snd].
      apply uniqueDisputes_length.
Qed.

Lemma C2_reported_total_witness :
  exists page,
    fst (PaymentService.getUserPayments "U" PaymentService.all 20 0
           (Examples.world [] [Examples.self_payment] [] ∅ []))
    = Appwrite.Returned (Success page)
    /\ total page = 2%nat.
Proof.
  destruct (C2_reported_total (Examples.world [] [Examples.self_payment] [] ∅ [])
              "U" 20 0 eq_refl eq_refl) as (_ & (page & Hrun & Htotal) & _).
  exists page. split; [exact Hrun | exact Htotal].
Defined.

(** ** C6: the order of a merged page *)

(** C6 as stated fails on ties: two disputes of the same instant come out
    in the order of the two source results, here id ["b"] before id ["a"]. *)
Lemma C6_ties_are_not_ordered_by_id :
  ~ (forall (w : Appwrite.World) (u : string) (limit offset : nat)
            (page : PaginatedResponse Dispute.t),
        fst (DisputeService.getUserDisputes u DisputeService.all limit offset w)
        = Appwrite.Returned (Success page) ->
        Sorted newer_then_smaller_id (documents page)).
Proof.
  intros Hspec.
  specialize (Hspec (Examples.world [Ties.answered; Ties.raised] [] [] ∅ [])
                     "U"%string 20%nat 0%nat
                     (mkPage [Ties.raised; Ties.answered] 2) eq_refl).
  cbn [documents] in Hspec.
  apply Sorted_inv in Hspec as [_ Hhd]. apply HdRel_inv in Hhd as [_ Hid].
  specialize (Hid eq_refl). vm_compute in Hid. discriminate.
Qed.

(** C6, amended. When neither source request fails, each of the three
    merges returns a page whose adjacent documents are ordered by
    [created_at] descending, and in which the documents of any one instant
    stand in the order they have in the concatenation of the two source
    results (first source first); no order by id is imposed. *)
Theorem C6_page_newest_first_ties_in_source_order
        (w : Appwrite.World) (u : string) (limit offset : nat) :
  Appwrite.fault_at 0 w = None -> Appwrite.fault_at 1 w = None ->
  (exists page,
      fst (DisputeService.getUserDisputes u DisputeService.all limit offset w)
      = Appwrite.Returned (Success page)
      /\ Sorted newer_or_same (documents page)
      /\ forall k,
          List.filter (created_at_is k) (documents page)
          `sublist_of`
          List.filter (created_at_is k)
            (Appwrite.documents
               (Appwrite.select
                  [Query.orderDesc "created_at"; Query.limit limit; Query.offset offset;
                   Query.equal "complainant_id" u] (Appwrite.disputes w))
             ++ Appwrite.documents
                  (Appwrite.select
                     [Query.orderDesc "created_at"; Query.limit limit; Query.offset offset;
                      Query.equal "respondent_id" u] (Appwrite.disputes w))))
  /\ (exists page,
         fst (PaymentService.getUserPayments u PaymentService.all limit offset w)
         = Appwrite.Returned (Success page)
         /\ Sorted newer_or_same (documents page)
         /\ forall k,
             List.filter (created_at_is k) (documents page)
             `sublist_of`
             List.filter (created_at_is k)
               (Appwrite.documents
                  (Appwrite.select
                     [Query.equal "payer_id" u; Query.orderDesc "created_at";
                      Query.limit limit; Query.offset offset] (Appwrite.payments w))
                ++ Appwrite.documents
                     (Appwrite.select
                        [Query.equal "recipient_id" u; Query.orderDesc "created_at";
                         Query.limit limit; Query.offset offset] (Appwrite.payments w))))
  /\ (forall filters,
         DisputeService.userId filters = Some u -> Js.truthy_string u = true ->
         exists page,
           fst (DisputeService.getAll filters limit offset w)
           = Appwrite.Returned (Success page)
           /\ Sorted newer_or_same (documents page)
           /\ forall k,
               List.filter (created_at_is k) (documents page)
               `sublist_of`
               List.filter (created_at_is k)
                 (Appwrite.documents
                    (Appwrite.select
                       (DisputeService.getAll_queries filters limit offset
                        ++ [Query.equal "complainant_id" u]) (Appwrite.disputes w))
                  ++ Appwrite.documents
                       (Appwrite.select
                          (DisputeService.getAll_queries filters limit offset
                           ++ [Query.equal "respondent_id" u]) (Appwrite.disputes w)))).
Proof.
  intros H0 H1. repeat apply conj.
  - eexists. split.
    + rewrite getUserDisputes_all_run. unfold fan_out_outcome. rewrite H0, H1. reflexivity.
    + apply sorted_page.
  - eexists. split.
    + rewrite getUserPayments_all_run. unfold fan_out_outcome. rewrite H0, H1. reflexivity.
    + apply sorted_page.
  - intros filters Hu Htruthy. eexists. split.
    + rewrite (getAll_fan_out_run filters u) by assumption.
      unfold fan_out_outcome. rewrite H0, H1. reflexivity.
    + cbn [documents DisputeService.merge_unique Appwrite.documents fst snd].
      split; [apply sorted_page|].
      intros k. etransitivity; [apply sorted_page|].
      apply list_filter_sublist.
      rewrite uniqueDisputes_first_occurrences. apply first_occurrences_sublist.
Qed.

Lemma C6_page_newest_first_ties_in_source_order_witness :
  exists page,
    fst (DisputeService.getUserDisputes "U" DisputeService.all 20 0
           (Examples.world [Ties.answered; Ties.raised] [] [] ∅ []))
    = Appwrite.Returned (Success page)
    /\ Sorted newer_or_same (documents page).
Proof.
  destruct (C6_page_newest_first_ties_in_source_order
              (Examples.world [Ties.answered; Ties.raised] [] [] ∅ [])
              "U" 20 0 eq_refl eq_refl) as ((page & Hrun & Hsorted & _) & _).
  exists page. split; [exact Hrun | exact Hsorted].
Defined.

(** ** C8: a failing source request *)

(** C8 as stated fails on its last part: whether the first or the second
    source request is the one that fails, the caller gets the same
    envelope, so nothing read from it can name the failed source. *)
Lemma C8_failure_does_not_name_the_source :
  ~ exists which : ApiResponse (PaginatedResponse Payment.t) -> nat,
      forall (w : Appwrite.World) (r : ApiResponse (PaginatedResponse Payment.t)),
        fst (PaymentService.getUserPayments "U" PaymentService.all 20 0 w)
        = Appwrite.Returned r ->
        (Appwrite.fault_at 0 w <> None -> Appwrite.fault_at 1 w = None -> which r = 0%nat)
        /\ (Appwrite.fault_at 0 w = None -> Appwrite.fault_at 1 w <> None -> which r = 1%nat).
Proof.
  intros [which Hwhich].
  destruct (Hwhich Outage.first_fails (Failure "Service unavailable") eq_refl) as [Hfirst _].
  destruct (Hwhich Outage.second_fails (Failure "Service unavailable") eq_refl) as [_ Hsecond].
  assert (H0 : which (Failure "Service unavailable") = 0%nat)
    by (apply Hfirst; [discriminate | reflexivity]).
  assert (H1 : which (Failure "Service unavailable") = 1%nat)
    by (apply Hsecond; [reflexivity | discriminate]).
  congruence.
Qed.

Lemma fan_out_outcome_fails {D : Type} `{Document D}
      (content : Appwrite.World -> list D) (q1 q2 : list Query.t) (w : Appwrite.World) :
  Appwrite.fault_at 0 w <> None \/ Appwrite.fault_at 1 w <> None ->
  exists e,
    (Appwrite.fault_at 0 w = Some e \/ Appwrite.fault_at 1 w = Some e)
    /\ fan_out_outcome content q1 q2 w = Appwrite.Thrown e.
Proof.
  unfold fan_out_outcome. intros Hfault.
  destruct (Appwrite.fault_at 0 w) as [e1|], (Appwrite.fault_at 1 w) as [e2|].
  - destruct (Appwrite.race w); eauto.
  - eauto.
  - eauto.
  - destruct Hfault; congruence.
Qed.

(** C8, amended. If a source request of a merge fails, the call returns
    the failure envelope alone, no document of the other source in it; its
    [error] is the message of a failed request, or the fixed text of the
    method when that message is empty or missing. The envelope does not
    say which source failed. *)
Theorem C8_failing_source_fails_the_merge
        (w : Appwrite.World) (u : string) (limit offset : nat) :
  Appwrite.fault_at 0 w <> None \/ Appwrite.fault_at 1 w <> None ->
  (exists e,
      (Appwrite.fault_at 0 w = Some e \/ Appwrite.fault_at 1 w = Some e)
      /\ fst (DisputeService.getUserDisputes u DisputeService.all limit offset w)
         = Appwrite.Returned
             (Failure (Js.or_string (Js.message e) "Failed to fetch user disputes")))
  /\ (exists e,
         (Appwrite.fault_at 0 w = Some e \/ Appwrite.fault_at 1 w = Some e)
         /\ fst (PaymentService.getUserPayments u PaymentService.all limit offset w)
            = Appwrite.Returned
                (Failure (Js.or_string (Js.message e) "Failed to fetch user payments")))
  /\ (forall filters,
         DisputeService.userId filters = Some u -> Js.truthy_string u = true ->
         exists e,
           (Appwrite.fault_at 0 w = Some e \/ Appwrite.fault_at 1 w = Some e)
           /\ fst (DisputeService.getAll filters limit offset w)
              = Appwrite.Returned
                  (Failure (Js.or_string (Js.message e) "Failed to fetch disputes"))).
Proof.
  intros Hfault. repeat apply conj.
  - rewrite getUserDisputes_all_run.
    destruct (fan_out_outcome_fails Appwrite.disputes
                ([Query.orderDesc "created_at"; Query.limit limit; Query.offset offset]
                 ++ [Query.equal "complainant_id" u])
                ([Query.orderDesc "created_at"; Query.limit limit; Query.offset offset]
                 ++ [Query.equal "respondent_id" u]) w Hfault) as (e & He & ->).
    exists e. split; [exact He | reflexivity].
  - rewrite getUserPayments_all_run.
    destruct (fan_out_outcome_fails Appwrite.payments
                [Query.equal "payer_id" u; Query.orderDesc "created_at";
                 Query.limit limit; Query.offset offset]
                [Query.equal "recipient_id" u; Query.orderDesc "created_at";
                 Query.limit limit; Query.offset offset] w Hfault) as (e & He & ->).
    exists e. split; [exact He | reflexivity].
  - intros filters Hu Htruthy. rewrite (getAll_fan_out_run filters u) by assumption.
    destruct (fan_out_outcome_fails Appwrite.disputes
                (DisputeService.getAll_queries filters limit offset
                 ++ [Query.equal "complainant_id" u])
                (DisputeService.getAll_queries filters limit offset
                 ++ [Query.equal "respondent_id" u]) w Hfault) as (e & He & ->).
    exists e. split; [exact He | reflexivity].
Qed.

Lemma C8_failing_source_fails_the_merge_witness :
  exists e,
    (Appwrite.fault_at 0 Outage.second_fails = Some e
     \/ Appwrite.fault_at 1 Outage.second_fails = Some e)
    /\ fst (PaymentService.getUserPayments "U" PaymentService.all 20 0 Outage.second_fails)
       = Appwrite.Returned
           (Failure (Js.or_string (Js.message e) "Failed to fetch user payments")).
Proof.
  refine (proj1 (proj2 (C8_failing_source_fails_the_merge
                          Outage.second_fails "U" 20 0 _))).
  right. vm_compute. discriminate.
Defined.

(** ** C3: the rating write after a review mutation *)

(** Runs a review method on a world given by its fields. *)
Ltac run_services :=
  cbv [ReviewService.create ReviewService.update ReviewService.delete
       ReviewService.updateUserRating ReviewService.getUserRatingStats ReviewService.getById
       Appwrite.try_catch Appwrite.bind Appwrite.ret Appwrite.throw failed
       Appwrite.ID_unique Appwrite.Date_now Appwrite.console_error
       Appwrite.listDocuments Appwrite.createDocument Appwrite.updateDocument
       Appwrite.updateDocument_profile Appwrite.deleteDocument Appwrite.getDocument
       Appwrite.request Appwrite.record Appwrite.is_returned
       Appwrite.set_faults Appwrite.set_trace Appwrite.set_console Appwrite.set_profiles
       Appwrite.set_reviews Appwrite.set_next_id
       Appwrite.faults Appwrite.trace Appwrite.console Appwrite.profiles Appwrite.reviews
       Appwrite.disputes Appwrite.payments Appwrite.created Appwrite.race Appwrite.now
       Appwrite.next_id Appwrite.new_events head tail fst snd].

(** Reads the events a run added off the trace. *)
Ltac read_events :=
  cbv beta iota; rewrite <- ?app_assoc, ?drop_app_length; cbn [app In].

(** Settles a goal whose hypotheses say which events occurred. *)
Ltac by_events :=
  intros;
  repeat match goal with
         | H : _ \/ _ |- _ => destruct H
         | H : False |- _ => destruct H
         | H : Appwrite.Entered _ _ = Appwrite.Requested _ _ _ |- _ => discriminate H
         | H : Appwrite.Requested _ _ _ = Appwrite.Entered _ _ |- _ => discriminate H
         | H : Appwrite.Requested _ _ _ = Appwrite.Requested _ _ _ |- _ =>
             first [discriminate H | clear H]
         end;
  repeat split; eauto.

Lemma create_isolates_rating_failure (w : Appwrite.World)
      (reviewData : ReviewService.CreateReviewRequest) :
  In (Appwrite.Requested Appwrite.CreateDocument COLLECTION_IDS.REVIEWS true)
     (Appwrite.new_events w (snd (ReviewService.create reviewData w))) ->
  In (Appwrite.Requested Appwrite.UpdateDocument COLLECTION_IDS.PROFILES false)
     (Appwrite.new_events w (snd (ReviewService.create reviewData w))) ->
  (exists review,
      fst (ReviewService.create reviewData w) = Appwrite.Returned (Success review))
  /\ Appwrite.profiles (snd (ReviewService.create reviewData w)) = Appwrite.profiles w
  /\ exists e, Appwrite.console (snd (ReviewService.create reviewData w))
               = Appwrite.console w ++ [("Failed to update user rating:"%string, e)].
Proof.
  destruct w as [ds ps rs pf cr co fl rc tr nw ni].
  destruct fl as [|[e0|] [|[e1|] [|[e2|] fl]]]; run_services;
    try (destruct (pf !! ReviewService.revieweeId reviewData) as [p|] eqn:Hp);
    read_events; by_events.
Qed.

Lemma update_isolates_rating_failure (w : Appwrite.World) (reviewId : string)
      (updateData : ReviewService.UpdateReviewRequest) :
  In (Appwrite.Requested Appwrite.UpdateDocument COLLECTION_IDS.REVIEWS true)
     (Appwrite.new_events w (snd (ReviewService.update reviewId updateData w))) ->
  In (Appwrite.Requested Appwrite.UpdateDocument COLLECTION_IDS.PROFILES false)
     (Appwrite.new_events w (snd (ReviewService.update reviewId updateData w))) ->
  (exists review,
      fst (ReviewService.update reviewId updateData w) = Appwrite.Returned (Success review))
  /\ Appwrite.profiles (snd (ReviewService.update reviewId updateData w))
     = Appwrite.profiles w
  /\ exists e, Appwrite.console (snd (ReviewService.update reviewId updateData w))
               = Appwrite.console w ++ [("Failed to update user rating:"%string, e)].
Proof.
  destruct w as [ds ps rs pf cr co fl rc tr nw ni].
  destruct fl as [|[e0|] [|[e1|] [|[e2|] [|[e3|] fl]]]]; run_services;
    try (destruct (List.find (fun d => String.eqb (doc_id d) reviewId) rs)
           as [current|] eqn:Hfind);
    run_services; rewrite ?Hfind; run_services;
    try (destruct (ReviewService.rating_changed updateData current) eqn:Hchanged);
    run_services;
    try (destruct (pf !! Review.reviewee_id current) as [p|] eqn:Hp);
    read_events; by_events.
Qed.

Lemma delete_isolates_rating_failure (w : Appwrite.World) (reviewId : string) :
  In (Appwrite.Requested Appwrite.DeleteDocument COLLECTION_IDS.REVIEWS true)
     (Appwrite.new_events w (snd (ReviewService.delete reviewId w))) ->
  In (Appwrite.Requested Appwrite.UpdateDocument COLLECTION_IDS.PROFILES false)
     (Appwrite.new_events w (snd (ReviewService.delete reviewId w))) ->
  (exists done,
      fst (ReviewService.delete reviewId w) = Appwrite.Returned (Success done))
  /\ Appwrite.profiles (snd (ReviewService.delete reviewId w)) = Appwrite.profiles w
  /\ exists e, Appwrite.console (snd (ReviewService.delete reviewId w))
               = Appwrite.console w ++ [("Failed to update user rating:"%string, e)].
Proof.
  destruct w as [ds ps rs pf cr co fl rc tr nw ni].
  destruct fl as [|[e0|] [|[e1|] [|[e2|] [|[e3|] fl]]]]; run_services;
    try (destruct (List.find (fun d => String.eqb (doc_id d) reviewId) rs)
           as [current|] eqn:Hfind);
    run_services; rewrite ?Hfind; run_services;
    try (destruct (pf !! Review.reviewee_id current) as [p|] eqn:Hp);
    read_events; by_events.
Qed.

(** C3. In a run of [create], [update] or [delete] in which the write of
    the review succeeded and the write of the rating to the reviewee's
    profile failed, the method returns [{success: true, ...}], the
    profiles are as before, and the failure is in one new entry of
    [console.error]. *)
Theorem C3_rating_failure_is_logged_not_returned
        (w : Appwrite.World) (reviewData : ReviewService.CreateReviewRequest)
        (reviewId : string) (updateData : ReviewService.UpdateReviewRequest) :
  (In (Appwrite.Requested Appwrite.CreateDocument COLLECTION_IDS.REVIEWS true)
      (Appwrite.new_events w (snd (ReviewService.create reviewData w))) ->
   In (Appwrite.Requested Appwrite.UpdateDocument COLLECTION_IDS.PROFILES false)
      (Appwrite.new_events w (snd (ReviewService.create reviewData w))) ->
   (exists review,
       fst (ReviewService.create reviewData w) = Appwrite.Returned (Success review))
   /\ Appwrite.profiles (snd (ReviewService.create reviewData w)) = Appwrite.profiles w
   /\ exists e, Appwrite.console (snd (ReviewService.create reviewData w))
                = Appwrite.console w ++ [("Failed to update user rating:"%string, e)])
  /\ (In (Appwrite.Requested Appwrite.UpdateDocument COLLECTION_IDS.REVIEWS true)
         (Appwrite.new_events w (snd (ReviewService.update reviewId updateData w))) ->
      In (Appwrite.Requested Appwrite.UpdateDocument COLLECTION_IDS.PROFILES false)
         (Appwrite.new_events w (snd (ReviewService.update reviewId updateData w))) ->
      (exists review,
          fst (ReviewService.update reviewId updateData w)
          = Appwrite.Returned (Success review))
      /\ Appwrite.profiles (snd (ReviewService.update reviewId updateData w))
         = Appwrite.profiles w
      /\ exists e, Appwrite.console (snd (ReviewService.update reviewId updateData w))
                   = Appwrite.console w ++ [("Failed to update user rating:"%string, e)])
  /\ (In (Appwrite.Requested Appwrite.DeleteDocument COLLECTION_IDS.REVIEWS true)
         (Appwrite.new_events w (snd (ReviewService.delete reviewId w))) ->
      In (Appwrite.Requested Appwrite.UpdateDocument COLLECTION_IDS.PROFILES false)
         (Appwrite.new_events w (snd (ReviewService.delete reviewId w))) ->
      (exists done,
          fst (ReviewService.delete reviewId w) = Appwrite.Returned (Success done))
      /\ Appwrite.profiles (snd (ReviewService.delete reviewId w)) = Appwrite.profiles w
      /\ exists e, Appwrite.console (snd (ReviewService.delete reviewId w))
                   = Appwrite.console w ++ [("Failed to update user rating:"%string, e)]).
Proof.
  split; [|split].
  - apply create_isolates_rating_failure.
  - apply update_isolates_rating_failure.
  - apply delete_isolates_rating_failure.
Qed.

Lemma C3_rating_failure_is_logged_not_returned_witness :
  (exists review,
      fst (ReviewService.create Reviews.request Reviews.without_profile)
      = Appwrite.Returned (Success review))
  /\ Appwrite.profiles (snd (ReviewService.create Reviews.request Reviews.without_profile))
     = Appwrite.profiles Reviews.without_profile
  /\ exists e,
      Appwrite.console (snd (ReviewService.create Reviews.request Reviews.without_profile))
      = Appwrite.console Reviews.without_profile
        ++ [("Failed to update user rating:"%string, e)].
Proof.
  apply (proj1 (C3_rating_failure_is_logged_not_returned
                  Reviews.without_profile Reviews.request "r1"
                  (ReviewService.mkUpdate None None))).
  - vm_compute. auto.
  - vm_compute. auto 10.
Defined.

(** ** C10: when an update recomputes the rating *)

Lemma rating_changed_spec (updateData : ReviewService.UpdateReviewRequest)
      (current : Review.t) :
  ReviewService.rating_changed updateData current = true
  <-> carries_new_rating updateData current.
Proof.
  unfold ReviewService.rating_changed, carries_new_rating, Js.truthy_number.
  destruct (ReviewService.upd_rating updateData) as [x|].
  - rewrite andb_true_iff, !negb_true_iff, !bool_decide_eq_false. split.
    + intros [Hnz Hne]. exists x. auto.
    + intros (y & Hy & Hnz & Hne). injection Hy as ->. auto.
  - split; [discriminate|]. intros (y & Hy & _). discriminate.
Qed.

(** C10 as stated fails when the write of the review is rejected: the
    rating of the update is truthy and differs from the stored one, and
    [updateUserRating] is not entered. *)
Lemma C10_rejected_write_recomputes_nothing :
  ~ (forall (w : Appwrite.World) (reviewId : string)
            (updateData : ReviewService.UpdateReviewRequest) (current : Review.t),
        List.find (fun d => String.eqb (doc_id d) reviewId) (Appwrite.reviews w)
        = Some current ->
        (In (Appwrite.Entered "updateUserRating" (Review.reviewee_id current))
            (Appwrite.new_events w (snd (ReviewService.update reviewId updateData w)))
         <-> carries_new_rating updateData current)).
Proof.
  intros Hclaim.
  specialize (Hclaim (Examples.world [] [] [Reviews.stored] {[ "B"%string := Reviews.profile ]}
                                     [None; Some Outage.unavailable])
                     "r1"%string (ReviewService.mkUpdate (Some (Js.of_Z 5)) None)
                     Reviews.stored eq_refl).
  destruct Hclaim as [_ Hentered].
  assert (Hnew : carries_new_rating (ReviewService.mkUpdate (Some (Js.of_Z 5)) None)
                                    Reviews.stored).
  { apply rating_changed_spec. vm_compute. reflexivity. }
  specialize (Hentered Hnew). vm_compute in Hentered.
  repeat (destruct Hentered as [Hentered|Hentered]; [discriminate Hentered|]).
  exact Hentered.
Qed.

(** C10, amended. For an update of a stored review, [updateUserRating]
    is entered, for the reviewee, exactly when [updateData.rating] is
    truthy and differs from the stored rating and both the fetch and the
    write of the review are answered, which are the runs in which the
    update returns success; and whenever the rating condition fails
    (rating omitted, equal to the stored one, or 0) it is not entered and
    the profiles are left as they were. *)
Theorem C10_update_recomputes_only_on_new_rating
        (w : Appwrite.World) (reviewId : string)
        (updateData : ReviewService.UpdateReviewRequest) (current : Review.t) :
  List.find (fun d => String.eqb (doc_id d) reviewId) (Appwrite.reviews w) = Some current ->
  (In (Appwrite.Entered "updateUserRating" (Review.reviewee_id current))
      (Appwrite.new_events w (snd (ReviewService.update reviewId updateData w)))
   <-> carries_new_rating updateData current
       /\ Appwrite.fault_at 0 w = None /\ Appwrite.fault_at 1 w = None)
  /\ ((exists review,
          fst (ReviewService.update reviewId updateData w)
          = Appwrite.Returned (Success review))
      <-> Appwrite.fault_at 0 w = None /\ Appwrite.fault_at 1 w = None)
  /\ (~ carries_new_rating updateData current ->
      (forall method u,
          ~ In (Appwrite.Entered method u)
               (Appwrite.new_events w (snd (ReviewService.update reviewId updateData w))))
      /\ Appwrite.profiles (snd (ReviewService.update reviewId updateData w))
         = Appwrite.profiles w).
Proof.
  intros Hfind. rewrite <- rating_changed_spec.
  destruct w as [ds ps rs pf cr co fl rc tr nw ni]. cbn [Appwrite.reviews] in Hfind.
  destruct (ReviewService.rating_changed updateData current) eqn:Hchanged.
  - split; [|split; [|intros Hno; exfalso; apply Hno; reflexivity]].
    + destruct fl as [|[e0|] [|[e1|] [|[e2|] [|[e3|] fl]]]]; run_services;
        rewrite ?Hfind; run_services; rewrite ?Hfind; run_services;
        rewrite ?Hchanged; run_services;
        try (destruct (pf !! Review.reviewee_id current) as [p|] eqn:Hp);
        read_events; unfold Appwrite.fault_at; cbn [Appwrite.faults lookup list_lookup];
        (split; [intros Hin | intros (_ & H0 & H1)]);
        try discriminate; by_events.
    + destruct fl as [|[e0|] [|[e1|] [|[e2|] [|[e3|] fl]]]]; run_services;
        rewrite ?Hfind; run_services; rewrite ?Hfind; run_services;
        rewrite ?Hchanged; run_services;
        try (destruct (pf !! Review.reviewee_id current) as [p|] eqn:Hp);
        unfold Appwrite.fault_at; cbn [Appwrite.faults lookup list_lookup];
        (split; [intros [review Hrun] | intros (H0 & H1)]);
        try discriminate; try (split; reflexivity); try (eexists; reflexivity).
  - split; [|split].
    + split; [|intros (Hno & _); discriminate Hno].
      destruct fl as [|[e0|] [|[e1|] fl]]; run_services;
        rewrite ?Hfind; run_services; rewrite ?Hfind; run_services;
        rewrite ?Hchanged; read_events; by_events.
    + destruct fl as [|[e0|] [|[e1|] fl]]; run_services;
        rewrite ?Hfind; run_services; rewrite ?Hfind; run_services;
        rewrite ?Hchanged; run_services;
        unfold Appwrite.fault_at; cbn [Appwrite.faults lookup list_lookup];
        (split; [intros [review Hrun] | intros (H0 & H1)]);
        try discriminate; try (split; reflexivity); try (eexists; reflexivity).
    + intros _.
      destruct fl as [|[e0|] [|[e1|] fl]]; run_services;
        rewrite ?Hfind; run_services; rewrite ?Hfind; run_services;
        rewrite ?Hchanged; read_events; split; try reflexivity;
        intros method u Hin; by_events.
Qed.

Lemma C10_update_recomputes_only_on_new_rating_witness :
  In (Appwrite.Entered "updateUserRating" "B")
     (Appwrite.new_events Reviews.with_profile
        (snd (ReviewService.update "r1" (ReviewService.mkUpdate (Some (Js.of_Z 5)) None)
                Reviews.with_profile)))
  <-> carries_new_rating (ReviewService.mkUpdate (Some (Js.of_Z 5)) None) Reviews.stored
      /\ Appwrite.fault_at 0 Reviews.with_profile = None
      /\ Appwrite.fault_at 1 Reviews.with_profile = None.
Proof.
  exact (proj1 (C10_update_recomputes_only_on_new_rating
                  Reviews.with_profile "r1"
                  (ReviewService.mkUpdate (Some (Js.of_Z 5)) None)
                  Reviews.stored eq_refl)).
Defined.

(** ** C9: the status a create method writes *)

Ltac run_create :=
  cbv [DisputeService.create PaymentService.create ApplicationService.create
       JobService.createJob
       Appwrite.try_catch Appwrite.bind Appwrite.ret failed
       Appwrite.ID_unique Appwrite.Date_now Appwrite.createDocument_object
       Appwrite.request Appwrite.record Appwrite.is_returned
       Appwrite.set_faults Appwrite.set_trace Appwrite.set_created Appwrite.set_next_id
       Appwrite.faults Appwrite.trace Appwrite.created Appwrite.now Appwrite.next_id
       Appwrite.disputes Appwrite.payments Appwrite.reviews Appwrite.profiles
       Appwrite.console Appwrite.race head tail fst snd].

Lemma create_data_status (disputeData paymentData applicationData jobData : Js.obj)
      (now : Z) (id : string) :
  (<["$id"%string := Js.VStr id]> (DisputeService.create_data disputeData now)
     !! "status"%string = Some (Js.VStr "open")
   /\ <["$id"%string := Js.VStr id]> (DisputeService.create_data disputeData now)
        !! "priority"%string
      = Some (Js.or (Js.get disputeData "priority") (Js.VStr "medium")))
  /\ (<["$id"%string := Js.VStr id]> (PaymentService.create_data paymentData now)
        !! "status"%string = Some (Js.VStr "pending")
      /\ <["$id"%string := Js.VStr id]> (PaymentService.create_data paymentData now)
           !! "escrow_status"%string = Some (Js.VStr "held"))
  /\ <["$id"%string := Js.VStr id]> (ApplicationService.create_data applicationData now)
       !! "status"%string = Some (Js.VStr "pending")
  /\ (<["$id"%string := Js.VStr id]> (JobService.createJob_data jobData now)
        !! "status"%string = Some (Js.VStr "open")
      /\ <["$id"%string := Js.VStr id]> (JobService.createJob_data jobData now)
           !! "isFeatured"%string = Some (Js.VBool false)).
Proof.
  unfold DisputeService.create_data, PaymentService.create_data,
    ApplicationService.create_data, JobService.createJob_data, Js.literal, Js.assign.
  cbn [fold_left fst snd].
  repeat split; simplify_map_eq; reflexivity.
Qed.

(** C9. Whatever the request holds, its own [status] included, a create
    call that the store accepts returns and stores a document whose status
    is the initial one of its entity: ['open'] for a dispute, with the
    priority of the request or ['medium'] when it has none; ['pending']
    and escrow ['held'] for a payment; ['pending'] for an application;
    ['open'] and not featured for a job. *)
Theorem C9_create_initial_status (w : Appwrite.World) (request : Js.obj) :
  Appwrite.fault_at 0 w = None ->
  (exists doc,
      fst (DisputeService.create request w) = Appwrite.Returned (Success doc)
      /\ last (Appwrite.created (snd (DisputeService.create request w)))
         = Some (COLLECTION_IDS.DISPUTES, doc)
      /\ doc !! "status"%string = Some (Js.VStr "open")
      /\ doc !! "priority"%string
         = Some (Js.or (Js.get request "priority") (Js.VStr "medium")))
  /\ (exists doc,
         fst (PaymentService.create request w) = Appwrite.Returned (Success doc)
         /\ last (Appwrite.created (snd (PaymentService.create request w)))
            = Some (COLLECTION_IDS.PAYMENTS, doc)
         /\ doc !! "status"%string = Some (Js.VStr "pending")
         /\ doc !! "escrow_status"%string = Some (Js.VStr "held"))
  /\ (exists doc,
         fst (ApplicationService.create request w) = Appwrite.Returned (Success doc)
         /\ last (Appwrite.created (snd (ApplicationService.create request w)))
            = Some (COLLECTION_IDS.APPLICATIONS, doc)
         /\ doc !! "status"%string = Some (Js.VStr "pending"))
  /\ (exists doc,
         fst (JobService.createJob request w) = Appwrite.Returned (Success doc)
         /\ last (Appwrite.created (snd (JobService.createJob request w)))
            = Some (COLLECTION_IDS.JOBS, doc)
         /\ doc !! "status"%string = Some (Js.VStr "open")
         /\ doc !! "isFeatured"%string = Some (Js.VBool false)).
Proof.
  intros Hfault.
  destruct w as [ds ps rs pf cr co fl rc tr nw ni].
  destruct fl as [|[e|] fl]; [|discriminate Hfault|];
    (repeat apply conj; run_create; eexists;
     (split; [reflexivity|]); (split; [apply last_snoc|]);
     apply (create_data_status request request request request nw)).
Qed.

Lemma C9_create_initial_status_witness :
  exists doc,
    fst (JobService.createJob Requests.job (Examples.world [] [] [] ∅ []))
    = Appwrite.Returned (Success doc)
    /\ last (Appwrite.created
               (snd (JobService.createJob Requests.job (Examples.world [] [] [] ∅ []))))
       = Some (COLLECTION_IDS.JOBS, doc)
    /\ doc !! "status"%string = Some (Js.VStr "open")
    /\ doc !! "isFeatured"%string = Some (Js.VBool false).
Proof.
  apply (proj2 (proj2 (proj2 (C9_create_initial_status
                                (Examples.world [] [] [] ∅ []) Requests.job eq_refl)))).
Defined.

(** ** C5: the average resolution time *)

Lemma stats_step_never_times (disputes : list Dispute.t) (acc : DisputeService.StatsAcc) :
  Forall (fun d => Dispute.status d ∈ DisputeStatus) disputes ->
  DisputeService.acc_resolvedCount (Js.reduce DisputeService.stats_step acc disputes)
  = DisputeService.acc_resolvedCount acc.
Proof.
  unfold Js.reduce. intros Hvalid. revert acc.
  induction Hvalid as [|d disputes Hd _ IH]; intros acc; [reflexivity|].
  cbn [fold_left]. rewrite IH.
  unfold DisputeService.stats_step. cbn [DisputeService.acc_resolvedCount].
  unfold DisputeStatus in Hd.
  repeat (apply elem_of_cons in Hd as [->|Hd]; [reflexivity|]).
  apply elem_of_nil in Hd. destruct Hd.
Qed.

(** Over disputes whose status is one of [DisputeStatus], [getStats]
    times none of them. *)
Lemma getStats_average_is_zero (disputes : list Dispute.t) :
  Forall (fun d => Dispute.status d ∈ DisputeStatus) disputes ->
  DisputeService.averageResolutionTime (DisputeService.stats_of disputes) = 0%Qc.
Proof.
  intros Hvalid. unfold DisputeService.stats_of.
  cbn [DisputeService.averageResolutionTime].
  rewrite stats_step_never_times by exact Hvalid.
  apply Qc_is_canon. vm_compute. reflexivity.
Qed.

(** C5. For a store holding one dispute resolved two hours after it was
    raised and one open dispute, the mean resolution time over the
    resolved disputes is 2 hours, which [getAdminWorkload] reports;
    [getStats] tests the status against ['resolved'], which no dispute
    has, and reports 0. *)
Theorem C5_getStats_times_no_dispute :
  let w := Examples.world [Resolved.in_two_hours; Resolved.still_open] [] [] ∅ [] in
  spec_average_resolution_time (Appwrite.disputes w) = Js.of_Z 2
  /\ (exists stats,
         fst (DisputeService.getStats None w) = Appwrite.Returned (Success stats)
         /\ DisputeService.averageResolutionTime stats = 0%Qc
         /\ DisputeService.resolvedDisputes stats = 1%nat)
  /\ (exists workload,
         fst (DisputeService.getAdminWorkload "admin" w)
         = Appwrite.Returned (Success workload)
         /\ DisputeService.workload_averageResolutionTime workload = Js.of_Z 2).
Proof.
  cbv zeta. split; [apply Qc_is_canon; vm_compute; reflexivity|]. split.
  - eexists. split; [reflexivity|].
    split; [apply Qc_is_canon; vm_compute; reflexivity | vm_compute; reflexivity].
  - eexists. split; [reflexivity|]. apply Qc_is_canon. vm_compute. reflexivity.
Qed.

(** ** C4: the averages and their rounding *)

Lemma round1_half_up (x : Qc) : ReviewService.round1 x = round_half_up 1 x.
Proof. reflexivity. Qed.

Lemma totalRating_from (reviews : list Review.t) (start : Qc) :
  fold_left (fun sum review => (sum + Review.rating review)%Qc) reviews start
  = (start + spec_sum (Review.rating <$> reviews))%Qc.
Proof.
  revert start. induction reviews as [|r reviews IH]; intros start; cbn.
  - symmetry. apply Qcplus_0_r.
  - rewrite IH. symmetry. apply Qcplus_assoc.
Qed.

Lemma totalRating_sum (reviews : list Review.t) :
  ReviewService.totalRating reviews = spec_sum (Review.rating <$> reviews).
Proof.
  unfold ReviewService.totalRating, Js.reduce.
  rewrite totalRating_from. apply Qcplus_0_l.
Qed.

Lemma payment_stats_from (payments : list Payment.t) (acc : PaymentService.Stats) :
  PaymentService.totalTransactions (fold_left PaymentService.stats_step payments acc)
  = (PaymentService.totalTransactions acc + length payments)%nat
  /\ PaymentService.totalAmount (fold_left PaymentService.stats_step payments acc)
     = fold_left Double.add (amount_of <$> payments) (PaymentService.totalAmount acc).
Proof.
  revert acc. induction payments as [|p payments IH]; intros acc; cbn [fold_left].
  - split; [cbn; lia | reflexivity].
  - destruct (IH (PaymentService.stats_step acc p)) as [-> ->].
    cbn. split; [lia | reflexivity].
Qed.

Lemma workload_from (disputes : list Dispute.t) (acc : DisputeService.WorkloadAcc) :
  DisputeService.wacc_resolved (fold_left DisputeService.workload_step disputes acc)
  = (DisputeService.wacc_resolved acc + length (spec_resolution_hours disputes))%nat
  /\ DisputeService.wacc_totalResolutionTime
       (fold_left DisputeService.workload_step disputes acc)
     = fold_left Double.add (timed_hours disputes)
                 (DisputeService.wacc_totalResolutionTime acc).
Proof.
  revert acc. induction disputes as [|d disputes IH]; intros acc; cbn [fold_left].
  - split; [cbn; lia | reflexivity].
  - destruct (IH (DisputeService.workload_step acc d)) as [-> ->].
    unfold DisputeService.workload_step, spec_resolution_hours, timed_hours. cbv zeta.
    cbn [omap list_omap].
    destruct (String.eqb_spec (Dispute.status d) "under_review") as [Hs|_].
    + rewrite Hs. cbn. split; reflexivity.
    + destruct (String.eqb (Dispute.status d) "resolved_in_favor_of_seeker"
                || String.eqb (Dispute.status d) "resolved_in_favor_of_provider");
        [destruct (Dispute.resolved_at d) as [t|]|]; cbn.
      * split; [lia | reflexivity].
      * split; reflexivity.
      * split; reflexivity.
Qed.

Lemma timed_hours_length (disputes : list Dispute.t) :
  length (timed_hours disputes) = length (spec_resolution_hours disputes).
Proof.
  unfold timed_hours, spec_resolution_hours.
  induction disputes as [|d disputes IH]; [reflexivity|]. cbn [omap list_omap].
  destruct (String.eqb (Dispute.status d) "resolved_in_favor_of_seeker"
            || String.eqb (Dispute.status d) "resolved_in_favor_of_provider");
    [destruct (Dispute.resolved_at d)|]; cbn; rewrite ?IH; reflexivity.
Qed.

(** [getAdminWorkload] reports, rounded to two decimals, the quotient by
    their number of the sum, in double precision and in the order of the
    response, of the resolution times of the resolved disputes that
    carry [resolved_at]. *)
Lemma workload_average_is_double_mean (disputes : list Dispute.t) :
  DisputeService.workload_averageResolutionTime (DisputeService.workload_of disputes)
  = DisputeService.round2 (double_mean (timed_hours disputes)).
Proof.
  unfold DisputeService.workload_of, double_mean, double_sum, Js.reduce.
  cbn [DisputeService.workload_averageResolutionTime].
  destruct (workload_from disputes (DisputeService.mkWAcc 0 0 0 Double.zero)) as [-> ->].
  cbn [DisputeService.wacc_resolved DisputeService.wacc_totalResolutionTime Nat.add].
  rewrite timed_hours_length.
  destruct (length (spec_resolution_hours disputes)); reflexivity.
Qed.

Lemma of_nat_pos (n : nat) : (0 < Js.of_nat (S n))%Qc.
Proof.
  unfold Qclt. change (0 < Qred (inject_Z (Z.of_nat (S n))))%Q.
  rewrite Qred_correct. unfold Qlt. cbn. lia.
Qed.






(** * Further properties of the services *)

From Stdlib Require Import Lqa.

(** ** PaymentService.getStats *)

Lemma payment_buckets_from (payments : list Payment.t) (acc : PaymentService.Stats) :
  let s := fold_left PaymentService.stats_step payments acc in
  PaymentService.pendingAmount s
  = fold_left Double.add (amount_of <$> List.filter (has_status "pending") payments)
              (PaymentService.pendingAmount acc)
  /\ PaymentService.completedAmount s
     = fold_left Double.add (amount_of <$> List.filter (has_status "completed") payments)
                 (PaymentService.completedAmount acc)
  /\ PaymentService.refundedAmount s
     = fold_left Double.add (amount_of <$> List.filter (has_status "refunded") payments)
                 (PaymentService.refundedAmount acc).
Proof.
  revert acc. induction payments as [|p payments IH]; intros acc; cbn [fold_left].
  - cbn. auto.
  - destruct (IH (PaymentService.stats_step acc p)) as (-> & -> & ->).
    unfold has_status, PaymentService.stats_step. cbv zeta.
    cbn [List.filter PaymentService.pendingAmount PaymentService.completedAmount
         PaymentService.refundedAmount].
    destruct (String.eqb_spec (Payment.status p) "pending") as [Hs|_].
    + try rewrite Hs. cbn. repeat split.
    + destruct (String.eqb_spec (Payment.status p) "completed") as [Hs|_].
      * try rewrite Hs. cbn. repeat split.
      * destruct (String.eqb_spec (Payment.status p) "refunded") as [Hs|_].
        -- try rewrite Hs. cbn. repeat split.
        -- cbn. repeat split.
Qed.

Lemma payment_stats_of_fields (payments : list Payment.t) :
  let s := PaymentService.stats_of payments in
  PaymentService.totalTransactions s = length payments
  /\ PaymentService.totalAmount s = double_sum (amount_of <$> payments)
  /\ PaymentService.pendingAmount s = amount_where (has_status "pending") payments
  /\ PaymentService.completedAmount s = amount_where (has_status "completed") payments
  /\ PaymentService.refundedAmount s = amount_where (has_status "refunded") payments.
Proof.
  cbv zeta. unfold PaymentService.stats_of, Js.reduce, amount_where, double_sum.
  cbn [PaymentService.totalTransactions PaymentService.pendingAmount
       PaymentService.completedAmount PaymentService.refundedAmount
       PaymentService.totalAmount].
  destruct (payment_stats_from payments
              (PaymentService.mkStats 0 Double.zero Double.zero Double.zero
                                      Double.zero Double.zero)) as [-> ->].
  destruct (payment_buckets_from payments
              (PaymentService.mkStats 0 Double.zero Double.zero Double.zero
                                      Double.zero Double.zero)) as (-> & -> & ->).
  repeat apply conj; reflexivity.
Qed.

(** [getStats] counts every payment of the response; its total amount
    is the sum of all the amounts, and each of its three other amounts is
    the sum of the amounts of the pending, the completed or the refunded
    payments, each sum being accumulated from 0 in double precision in
    the order of the response, over these payments only. A payment of any
    other status (a failed one) is in the total only. *)
Theorem payment_stats_buckets (payments : list Payment.t) :
  let s := PaymentService.stats_of payments in
  PaymentService.totalTransactions s = length payments
  /\ PaymentService.totalAmount s = double_sum (amount_of <$> payments)
  /\ PaymentService.pendingAmount s = amount_where (has_status "pending") payments
  /\ PaymentService.completedAmount s = amount_where (has_status "completed") payments
  /\ PaymentService.refundedAmount s = amount_where (has_status "refunded") payments.
Proof. exact (payment_stats_of_fields payments). Qed.

(** ** Folds over reordered lists *)






(** ** Counters and distributions *)

Lemma tally_lookup {A K : Type} `{Countable K} (key : A -> K) (k : K)
      (l : list A) (m : gmap K nat) :
  fold_left (fun m d => <[key d := (default 0 (m !! key d) + 1)%nat]> m) l m !! k
  = if (occurrences key k l =? 0)%nat then m !! k
    else Some (default 0 (m !! k) + occurrences key k l)%nat.
Proof.
  revert m. unfold occurrences.
  induction l as [|x l IH]; intros m; [reflexivity|].
  cbn [fold_left List.filter]. rewrite IH.
  destruct (decide (key x = k)) as [Hk|Hk].
  - rewrite (bool_decide_eq_true_2 _ Hk). subst k. rewrite lookup_insert_eq.
    cbn [length default from_option id Nat.eqb].
    destruct (length (List.filter (fun d => bool_decide (key d = key x)) l));
      cbn [Nat.eqb]; f_equal; lia.
  - rewrite (bool_decide_eq_false_2 _ Hk), lookup_insert_ne by exact Hk. reflexivity.
Qed.

Lemma tally_from_empty {A K : Type} `{Countable K} (key : A -> K) (k : K) (l : list A) :
  fold_left (fun m d => <[key d := (default 0 (m !! key d) + 1)%nat]> m) l
            (∅ : gmap K nat) !! k
  = tally (occurrences key k l).
Proof.
  rewrite tally_lookup, lookup_empty. unfold tally.
  destruct (occurrences key k l =? 0)%nat; reflexivity.
Qed.

Lemma dispute_maps_from (disputes : list Dispute.t) (acc : DisputeService.StatsAcc) :
  DisputeService.acc_disputesByType (fold_left DisputeService.stats_step disputes acc)
  = fold_left (fun m d => <[Dispute.dispute_type d
                            := (default 0 (m !! Dispute.dispute_type d) + 1)%nat]> m)
              disputes (DisputeService.acc_disputesByType acc)
  /\ DisputeService.acc_disputesByPriority
       (fold_left DisputeService.stats_step disputes acc)
     = fold_left (fun m d => <[Dispute.priority d
                               := (default 0 (m !! Dispute.priority d) + 1)%nat]> m)
                 disputes (DisputeService.acc_disputesByPriority acc).
Proof.
  revert acc. induction disputes as [|d disputes IH]; intros acc; [split; reflexivity|].
  cbn [fold_left]. destruct (IH (DisputeService.stats_step acc d)) as [-> ->].
  split; reflexivity.
Qed.

(** A distribution holds, for each key, the number of documents with
    that key, and no entry for a key that no document has: the disputes
    by type and by priority of [getStats], the ratings of
    [getUserRatingStats] and [getPlatformStats], and the reviews by type. *)
Theorem distributions_count_without_zero_entries :
  (forall (disputes : list Dispute.t) (k : string),
      DisputeService.disputesByType (DisputeService.stats_of disputes) !! k
      = tally (occurrences Dispute.dispute_type k disputes)
      /\ DisputeService.disputesByPriority (DisputeService.stats_of disputes) !! k
         = tally (occurrences Dispute.priority k disputes))
  /\ (forall (reviews : list Review.t) (k : Qc),
         ReviewService.ratingDistribution (ReviewService.rating_stats_of reviews) !! k
         = tally (occurrences Review.rating k reviews)
         /\ ReviewService.platform_ratingDistribution
              (ReviewService.platform_stats_of reviews) !! k
            = tally (occurrences Review.rating k reviews))
  /\ (forall (reviews : list Review.t) (k : string),
         ReviewService.reviewsByType (ReviewService.platform_stats_of reviews) !! k
         = tally (occurrences Review.review_type k reviews)).
Proof.
  repeat apply conj.
  - intros disputes k. unfold DisputeService.stats_of, Js.reduce.
    cbn [DisputeService.disputesByType DisputeService.disputesByPriority].
    destruct (dispute_maps_from disputes
                (DisputeService.mkAcc 0 0 0 0 0 Double.zero 0 ∅ ∅)) as [-> ->].
    cbn [DisputeService.acc_disputesByType DisputeService.acc_disputesByPriority].
    split; apply tally_from_empty.
  - intros reviews k.
    unfold ReviewService.rating_stats_of, ReviewService.platform_stats_of.
    destruct reviews as [|r reviews]; [split; reflexivity|].
    cbn [length Nat.eqb ReviewService.ratingDistribution
         ReviewService.platform_ratingDistribution].
    unfold ReviewService.distribution, Js.reduce. split; apply tally_from_empty.
  - intros reviews k. unfold ReviewService.platform_stats_of.
    destruct reviews as [|r reviews]; [reflexivity|].
    cbn [length Nat.eqb ReviewService.reviewsByType].
    unfold Js.reduce, DisputeService.count_key. apply tally_from_empty.
Qed.

Lemma bool_decide_string (s k : string) : bool_decide (s = k) = String.eqb s k.
Proof.
  destruct (String.eqb_spec s k) as [->|Hne];
    [apply bool_decide_eq_true_2; reflexivity | apply bool_decide_eq_false_2, Hne].
Qed.

(** Splits on which of the five statuses of a dispute [s] is, if any. *)
Ltac case_status s :=
  let Hs := fresh "Hs" in
  destruct (String.eqb_spec s "open") as [Hs|?];
  [try rewrite Hs
  |destruct (String.eqb_spec s "under_review") as [Hs|?];
   [try rewrite Hs
   |destruct (String.eqb_spec s "resolved_in_favor_of_seeker") as [Hs|?];
    [try rewrite Hs
    |destruct (String.eqb_spec s "resolved_in_favor_of_provider") as [Hs|?];
     [try rewrite Hs
     |destruct (String.eqb_spec s "cancelled") as [Hs|?]; [try rewrite Hs|]]]]].

Lemma dispute_counters_from (disputes : list Dispute.t) (acc : DisputeService.StatsAcc) :
  let s := fold_left DisputeService.stats_step disputes acc in
  DisputeService.acc_totalDisputes s
  = (DisputeService.acc_totalDisputes acc + length disputes)%nat
  /\ DisputeService.acc_openDisputes s
     = (DisputeService.acc_openDisputes acc
        + occurrences Dispute.status "open"%string disputes)%nat
  /\ DisputeService.acc_inReviewDisputes s
     = (DisputeService.acc_inReviewDisputes acc
        + occurrences Dispute.status "under_review"%string disputes)%nat
  /\ DisputeService.acc_resolvedDisputes s
     = (DisputeService.acc_resolvedDisputes acc
        + (occurrences Dispute.status "resolved_in_favor_of_seeker"%string disputes
           + occurrences Dispute.status "resolved_in_favor_of_provider"%string disputes))%nat
  /\ DisputeService.acc_closedDisputes s
     = (DisputeService.acc_closedDisputes acc
        + occurrences Dispute.status "cancelled"%string disputes)%nat.
Proof.
  revert acc. induction disputes as [|d disputes IH]; intros acc; cbn [fold_left].
  - unfold occurrences. cbn. repeat apply conj; lia.
  - destruct (IH (DisputeService.stats_step acc d)) as (-> & -> & -> & -> & ->).
    unfold occurrences, DisputeService.stats_step, DisputeService.status_arm,
      DisputeService.bump.
    cbn [List.filter DisputeService.acc_totalDisputes DisputeService.acc_openDisputes
         DisputeService.acc_inReviewDisputes DisputeService.acc_resolvedDisputes
         DisputeService.acc_closedDisputes].
    rewrite !bool_decide_string.
    case_status (Dispute.status d); cbn;
      repeat match goal with
             | H : ?s <> ?k |- context [String.eqb ?s ?k] =>
                 rewrite (proj2 (String.eqb_neq s k) H)
             end; cbn; repeat apply conj; lia.
Qed.

Lemma status_occurrences_bound (disputes : list Dispute.t) :
  (occurrences Dispute.status "open"%string disputes
   + occurrences Dispute.status "under_review"%string disputes
   + (occurrences Dispute.status "resolved_in_favor_of_seeker"%string disputes
      + occurrences Dispute.status "resolved_in_favor_of_provider"%string disputes)
   + occurrences Dispute.status "cancelled"%string disputes <= length disputes)%nat
  /\ (Forall (fun d => Dispute.status d ∈ DisputeStatus) disputes ->
      (occurrences Dispute.status "open"%string disputes
       + occurrences Dispute.status "under_review"%string disputes
       + (occurrences Dispute.status "resolved_in_favor_of_seeker"%string disputes
          + occurrences Dispute.status "resolved_in_favor_of_provider"%string disputes)
       + occurrences Dispute.status "cancelled"%string disputes = length disputes)%nat).
Proof.
  unfold occurrences. induction disputes as [|d disputes [IHle IHeq]]; [cbn; auto|].
  cbn [List.filter length]. rewrite !bool_decide_string. split.
  - case_status (Dispute.status d); cbn;
      repeat match goal with
             | H : ?s <> ?k |- context [String.eqb ?s ?k] =>
                 rewrite (proj2 (String.eqb_neq s k) H)
             end; cbn; lia.
  - intros Hvalid. apply Forall_cons in Hvalid as [Hd Hvalid].
    specialize (IHeq Hvalid). unfold DisputeStatus in Hd.
    repeat (apply elem_of_cons in Hd as [->|Hd]; [cbn; lia|]).
    apply elem_of_nil in Hd. destruct Hd.
Qed.

(** [getStats] counts every dispute in [totalDisputes] and each dispute
    in at most one of the four status counters, by its status; a dispute
    whose status is none of the five of [DisputeStatus] is in the total
    only, and when all statuses are among the five the counters add up to
    the total. *)
Theorem dispute_stats_counters (disputes : list Dispute.t) :
  let s := DisputeService.stats_of disputes in
  DisputeService.totalDisputes s = length disputes
  /\ DisputeService.openDisputes s = occurrences Dispute.status "open"%string disputes
  /\ DisputeService.inReviewDisputes s
     = occurrences Dispute.status "under_review"%string disputes
  /\ DisputeService.resolvedDisputes s
     = (occurrences Dispute.status "resolved_in_favor_of_seeker"%string disputes
        + occurrences Dispute.status "resolved_in_favor_of_provider"%string disputes)%nat
  /\ DisputeService.closedDisputes s
     = occurrences Dispute.status "cancelled"%string disputes
  /\ (DisputeService.openDisputes s + DisputeService.inReviewDisputes s
      + DisputeService.resolvedDisputes s + DisputeService.closedDisputes s
      <= DisputeService.totalDisputes s)%nat
  /\ (Forall (fun d => Dispute.status d ∈ DisputeStatus) disputes ->
      (DisputeService.openDisputes s + DisputeService.inReviewDisputes s
       + DisputeService.resolvedDisputes s + DisputeService.closedDisputes s
       = DisputeService.totalDisputes s)%nat).
Proof.
  cbv zeta. unfold DisputeService.stats_of, Js.reduce.
  cbn [DisputeService.totalDisputes DisputeService.openDisputes
       DisputeService.inReviewDisputes DisputeService.resolvedDisputes
       DisputeService.closedDisputes].
  destruct (dispute_counters_from disputes
              (DisputeService.mkAcc 0 0 0 0 0 Double.zero 0 ∅ ∅))
    as (-> & -> & -> & -> & ->).
  cbn [DisputeService.acc_totalDisputes DisputeService.acc_openDisputes
       DisputeService.acc_inReviewDisputes DisputeService.acc_resolvedDisputes
       DisputeService.acc_closedDisputes Nat.add].
  destruct (status_occurrences_bound disputes) as [Hle Heq].
  repeat apply conj; try reflexivity; [exact Hle | exact Heq].
Qed.

Lemma dispute_stats_counters_witness :
  Forall (fun d => Dispute.status d ∈ DisputeStatus)
         [Resolved.in_two_hours; Resolved.still_open]
  /\ (DisputeService.openDisputes
        (DisputeService.stats_of [Resolved.in_two_hours; Resolved.still_open])
      + DisputeService.inReviewDisputes
          (DisputeService.stats_of [Resolved.in_two_hours; Resolved.still_open])
      + DisputeService.resolvedDisputes
          (DisputeService.stats_of [Resolved.in_two_hours; Resolved.still_open])
      + DisputeService.closedDisputes
          (DisputeService.stats_of [Resolved.in_two_hours; Resolved.still_open])
      = DisputeService.totalDisputes
          (DisputeService.stats_of [Resolved.in_two_hours; Resolved.still_open]))%nat.
Proof.
  assert (Hvalid : Forall (fun d => Dispute.status d ∈ DisputeStatus)
                          [Resolved.in_two_hours; Resolved.still_open]).
  { repeat constructor; unfold DisputeStatus; cbn; set_solver. }
  split; [exact Hvalid|].
  apply (dispute_stats_counters [Resolved.in_two_hours; Resolved.still_open]), Hvalid.
Defined.

Lemma workload_counters_from (disputes : list Dispute.t) (acc : DisputeService.WorkloadAcc) :
  DisputeService.wacc_totalAssigned (fold_left DisputeService.workload_step disputes acc)
  = (DisputeService.wacc_totalAssigned acc + length disputes)%nat
  /\ DisputeService.wacc_inReview (fold_left DisputeService.workload_step disputes acc)
     = (DisputeService.wacc_inReview acc
        + occurrences Dispute.status "under_review"%string disputes)%nat.
Proof.
  revert acc. induction disputes as [|d disputes IH]; intros acc; cbn [fold_left].
  - unfold occurrences. cbn. split; lia.
  - destruct (IH (DisputeService.workload_step acc d)) as [-> ->].
    unfold occurrences, DisputeService.workload_step. cbv zeta.
    cbn [List.filter]. rewrite bool_decide_string.
    destruct (String.eqb (Dispute.status d) "under_review");
      [|destruct (if String.eqb (Dispute.status d) "resolved_in_favor_of_seeker"
                     || String.eqb (Dispute.status d) "resolved_in_favor_of_provider"
                  then Dispute.resolved_at d else None)];
      cbn; split; lia.
Qed.

Lemma workload_occurrences_bound (disputes : list Dispute.t) :
  (occurrences Dispute.status "under_review"%string disputes
   + length (spec_resolution_hours disputes) <= length disputes)%nat.
Proof.
  unfold occurrences, spec_resolution_hours.
  induction disputes as [|d disputes IH]; [cbn; lia|].
  cbn [List.filter omap list_omap length]. rewrite bool_decide_string.
  destruct (String.eqb_spec (Dispute.status d) "under_review") as [Hs|_].
  - rewrite Hs. cbn. lia.
  - destruct (String.eqb (Dispute.status d) "resolved_in_favor_of_seeker"
              || String.eqb (Dispute.status d) "resolved_in_favor_of_provider");
      [destruct (Dispute.resolved_at d)|]; cbn; lia.
Qed.

Lemma workload_of_fields (disputes : list Dispute.t) :
  DisputeService.totalAssigned (DisputeService.workload_of disputes) = length disputes
  /\ DisputeService.inReview (DisputeService.workload_of disputes)
     = occurrences Dispute.status "under_review"%string disputes
  /\ DisputeService.resolved (DisputeService.workload_of disputes)
     = length (spec_resolution_hours disputes)
  /\ DisputeService.workload_averageResolutionTime (DisputeService.workload_of disputes)
     = DisputeService.round2 (double_mean (timed_hours disputes)).
Proof.
  split; [|split; [|split]]; [| | |apply workload_average_is_double_mean];
    unfold DisputeService.workload_of, Js.reduce;
    cbn [DisputeService.totalAssigned DisputeService.inReview DisputeService.resolved].
  - destruct (workload_counters_from disputes (DisputeService.mkWAcc 0 0 0 Double.zero))
      as [-> _]. reflexivity.
  - destruct (workload_counters_from disputes (DisputeService.mkWAcc 0 0 0 Double.zero))
      as [_ ->]. reflexivity.
  - destruct (workload_from disputes (DisputeService.mkWAcc 0 0 0 Double.zero)) as [-> _].
    reflexivity.
Qed.

(** [getAdminWorkload] counts every dispute of the response in
    [totalAssigned], those under review in [inReview], and in [resolved]
    the disputes resolved for either party that carry [resolved_at]. Its
    [averageResolutionTime] is, rounded to two decimals by [Math.round],
    the quotient by their number of the sum of their resolution times in
    hours, each time, the sum and the quotient being computed in double
    precision in the order of the response; it is 0 when there is none.
    A resolved dispute without [resolved_at] is in [totalAssigned] only. *)
Theorem workload_counts_timed_resolutions (disputes : list Dispute.t) :
  let s := DisputeService.workload_of disputes in
  DisputeService.totalAssigned s = length disputes
  /\ DisputeService.inReview s = occurrences Dispute.status "under_review"%string disputes
  /\ DisputeService.resolved s = length (spec_resolution_hours disputes)
  /\ length (timed_hours disputes) = length (spec_resolution_hours disputes)
  /\ DisputeService.workload_averageResolutionTime s
     = DisputeService.round2 (double_mean (timed_hours disputes))
  /\ (spec_resolution_hours disputes = [] ->
      DisputeService.workload_averageResolutionTime s = 0%Qc)
  /\ (DisputeService.inReview s + DisputeService.resolved s
      <= DisputeService.totalAssigned s)%nat.
Proof.
  cbv zeta.
  destruct (workload_of_fields disputes) as (-> & -> & -> & ->).
  repeat apply conj; try reflexivity.
  - apply timed_hours_length.
  - intros Hnone. unfold double_mean.
    rewrite timed_hours_length, Hnone. apply Qc_is_canon. vm_compute. reflexivity.
  - apply workload_occurrences_bound.
Qed.

Lemma workload_counts_timed_resolutions_witness :
  spec_resolution_hours [Resolved.still_open] = []
  /\ DisputeService.workload_averageResolutionTime
       (DisputeService.workload_of [Resolved.still_open]) = 0%Qc.
Proof.
  split; [reflexivity|].
  exact (proj1 (proj2 (proj2 (proj2 (proj2 (proj2
           (workload_counts_timed_resolutions [Resolved.still_open]))))))
           eq_refl).
Defined.

(** ** Statistics and the order of the documents *)

Lemma filter_keeps_Permutation {A : Type} (f : A -> bool) (l l' : list A) :
  l ≡ₚ l' -> List.filter f l ≡ₚ List.filter f l'.
Proof.
  induction 1 as [|x l l' _ IH|x y l|l l' l'' _ IH1 _ IH2]; cbn [List.filter].
  - reflexivity.
  - destruct (f x); [constructor|]; exact IH.
  - destruct (f x), (f y); try reflexivity. apply Permutation_swap.
  - etransitivity; eassumption.
Qed.

Lemma occurrences_Permutation {A K : Type} `{EqDecision K} (key : A -> K) (k : K)
      (l l' : list A) :
  l ≡ₚ l' -> occurrences key k l = occurrences key k l'.
Proof.
  intros Hperm. unfold occurrences.
  apply Permutation_length, filter_keeps_Permutation, Hperm.
Qed.

Lemma spec_resolution_hours_Permutation (l l' : list Dispute.t) :
  l ≡ₚ l' -> length (spec_resolution_hours l) = length (spec_resolution_hours l').
Proof.
  intros Hperm. unfold spec_resolution_hours. rewrite Hperm. reflexivity.
Qed.





(** ** The rounded average stays on the rating scale *)

Lemma this_of_Z (z : Z) : (this (Js.of_Z z) == inject_Z z)%Q.
Proof. unfold Js.of_Z. cbn. apply Qred_correct. Qed.

Lemma of_nat_succ (n : nat) : Js.of_nat (S n) = (1 + Js.of_nat n)%Qc.
Proof.
  apply Qc_is_canon. unfold Js.of_nat, Js.of_Z.
  cbn [this Qcplus Q2Qc]. rewrite !Qred_correct.
  rewrite Nat2Z.inj_succ, <- Z.add_1_l, inject_Z_plus. reflexivity.
Qed.

Lemma spec_sum_bounds (lo hi : Qc) (values : list Qc) :
  Forall (fun x => (lo <= x)%Qc /\ (x <= hi)%Qc) values ->
  (Js.of_nat (length values) * lo <= spec_sum values)%Qc
  /\ (spec_sum values <= Js.of_nat (length values) * hi)%Qc.
Proof.
  induction 1 as [|x values [Hlo Hhi] _ [IHlo IHhi]].
  - cbn. change (Js.of_nat 0) with 0%Qc. rewrite !Qcmult_0_l. split; apply Qcle_refl.
  - cbn [length spec_sum foldr]. rewrite of_nat_succ.
    rewrite !Qcmult_plus_distr_l, !Qcmult_1_l.
    split; apply Qcplus_le_compat; assumption.
Qed.

Lemma spec_mean_bounds (lo hi : Qc) (values : list Qc) :
  values <> [] ->
  Forall (fun x => (lo <= x)%Qc /\ (x <= hi)%Qc) values ->
  (lo <= spec_mean values)%Qc /\ (spec_mean values <= hi)%Qc.
Proof.
  intros Hne Hvalues. destruct (spec_sum_bounds lo hi values Hvalues) as [Hlo Hhi].
  unfold spec_mean. destruct values as [|x values]; [congruence|].
  cbn [length Nat.eqb] in *.
  pose proof (of_nat_pos (length values)) as Hpos.
  assert (Hnz : Js.of_nat (S (length values)) <> 0%Qc).
  { intros Hz. rewrite Hz in Hpos. exact (Qclt_not_eq _ _ Hpos eq_refl). }
  split.
  - apply (Qcmult_le_mono_pos_r _ _ _ Hpos).
    replace (spec_sum (x :: values) / Js.of_nat (S (length values))
             * Js.of_nat (S (length values)))%Qc
      with (spec_sum (x :: values)) by (unfold Js.number in *; field; exact Hnz).
    rewrite (Qcmult_comm lo). exact Hlo.
  - apply (Qcmult_le_mono_pos_r _ _ _ Hpos).
    replace (spec_sum (x :: values) / Js.of_nat (S (length values))
             * Js.of_nat (S (length values)))%Qc
      with (spec_sum (x :: values)) by (unfold Js.number in *; field; exact Hnz).
    rewrite (Qcmult_comm hi). exact Hhi.
Qed.

Lemma round_half_up_bounds (lo hi : Z) (x : Qc) :
  (Js.of_Z lo <= x)%Qc -> (x <= Js.of_Z hi)%Qc ->
  (Js.of_Z lo <= round_half_up 1 x)%Qc /\ (round_half_up 1 x <= Js.of_Z hi)%Qc.
Proof.
  unfold Qcle. intros Hlo Hhi. rewrite this_of_Z in Hlo, Hhi.
  unfold round_half_up.
  set (y := (x * Js.of_Z (10 ^ Z.of_nat 1) + Q2Qc (1 # 2))%Qc).
  assert (Hy : (this y == this x * 10 + (1#2))%Q).
  { unfold y, Js.of_Z. cbn [this Qcplus Qcmult Q2Qc]. rewrite !Qred_correct.
    cbn. reflexivity. }
  pose proof (Qfloor_le y) as Hfl. pose proof (Qlt_floor y) as Hfu.
  rewrite inject_Z_plus in Hfu. change (inject_Z 1) with 1%Q in Hfu.
  assert (Hz : 10 * lo <= Qfloor y <= 10 * hi).
  { split.
    - apply Z.le_ngt. intros Hlt.
      assert (H1 : (inject_Z (Qfloor y) + 1 <= 10 * inject_Z lo)%Q).
      { change 1%Q with (inject_Z 1). rewrite <- inject_Z_plus.
        change 10%Q with (inject_Z 10).
        rewrite <- inject_Z_mult. rewrite <- Zle_Qle. lia. }
      lra.
    - apply Z.le_ngt. intros Hlt.
      assert (H1 : (10 * inject_Z hi + 1 <= inject_Z (Qfloor y))%Q).
      { change 10%Q with (inject_Z 10). rewrite <- inject_Z_mult.
        change 1%Q with (inject_Z 1). rewrite <- inject_Z_plus.
        rewrite <- Zle_Qle. lia. }
      lra. }
  assert (Hr : (this (Js.of_Z (Qfloor y) / Js.of_Z (10 ^ Z.of_nat 1))%Qc
                == inject_Z (Qfloor y) * (1#10))%Q).
  { unfold Js.of_Z. cbn [this Qcdiv Qcmult Qcinv Q2Qc]. rewrite !Qred_correct.
    cbn. reflexivity. }
  rewrite !this_of_Z, Hr.
  destruct Hz as [Hz1 Hz2]. rewrite Zle_Qle in Hz1, Hz2.
  rewrite inject_Z_mult in Hz1, Hz2. change (inject_Z 10) with 10%Q in *.
  split; lra.
Qed.

(** When the response is not empty and every rating lies between two
    whole numbers (1 and 5, say), the average rating that
    [getUserRatingStats] and [getPlatformStats] report, rounded to one
    decimal, lies between them too. *)
Theorem average_rating_stays_on_scale (lo hi : Z) (reviews : list Review.t) :
  reviews <> [] ->
  Forall (fun r => (Js.of_Z lo <= Review.rating r)%Qc
                   /\ (Review.rating r <= Js.of_Z hi)%Qc) reviews ->
  ((Js.of_Z lo <= ReviewService.averageRating (ReviewService.rating_stats_of reviews))%Qc
   /\ (ReviewService.averageRating (ReviewService.rating_stats_of reviews)
       <= Js.of_Z hi)%Qc)
  /\ ((Js.of_Z lo <= ReviewService.platform_averageRating
                       (ReviewService.platform_stats_of reviews))%Qc
      /\ (ReviewService.platform_averageRating (ReviewService.platform_stats_of reviews)
          <= Js.of_Z hi)%Qc).
Proof.
  intros Hne Hscale.
  assert (Hmean : (Js.of_Z lo <= spec_mean (Review.rating <$> reviews))%Qc
                  /\ (spec_mean (Review.rating <$> reviews) <= Js.of_Z hi)%Qc).
  { apply spec_mean_bounds.
    - destruct reviews; [congruence | discriminate].
    - apply Forall_fmap. exact Hscale. }
  assert (Hround := round_half_up_bounds lo hi _ (proj1 Hmean) (proj2 Hmean)).
  assert (Huser : ReviewService.averageRating (ReviewService.rating_stats_of reviews)
                  = round_half_up 1 (spec_mean (Review.rating <$> reviews))).
  { unfold ReviewService.rating_stats_of, spec_mean. rewrite length_fmap.
    destruct reviews as [|r reviews]; [congruence|].
    cbn [length Nat.eqb ReviewService.averageRating].
    rewrite totalRating_sum, round1_half_up. reflexivity. }
  assert (Hplatform :
            ReviewService.platform_averageRating (ReviewService.platform_stats_of reviews)
            = round_half_up 1 (spec_mean (Review.rating <$> reviews))).
  { unfold ReviewService.platform_stats_of, spec_mean. rewrite length_fmap.
    destruct reviews as [|r reviews]; [congruence|].
    cbn [length Nat.eqb ReviewService.platform_averageRating].
    rewrite totalRating_sum, round1_half_up. reflexivity. }
  rewrite Huser, Hplatform. split; exact Hround.
Qed.

Lemma average_rating_stays_on_scale_witness :
  (Js.of_Z 1 <= ReviewService.averageRating (ReviewService.rating_stats_of [Reviews.stored]))%Qc
  /\ (ReviewService.averageRating (ReviewService.rating_stats_of [Reviews.stored])
      <= Js.of_Z 5)%Qc.
Proof.
  refine (proj1 (average_rating_stays_on_scale 1 5 [Reviews.stored] _ _)).
  - discriminate.
  - repeat constructor; vm_compute; discriminate.
Defined.

(** ** What a page can hold *)

Section SelectFacts.
Context {D : Type} `{Document D}.

Lemma sort_elem (d : D) (l : list D) :
  d ∈ Js.sort by_created_at_desc l <-> d ∈ l.
Proof. rewrite (sort_Permutation l). reflexivity. Qed.

Lemma slice_elem (start stop : nat) (d : D) (l : list D) :
  d ∈ Js.slice start stop l -> d ∈ l.
Proof.
  unfold Js.slice. intros Hin.
  apply (elem_of_sublist _ _ _ Hin). etransitivity; [apply sublist_drop | apply sublist_take].
Qed.

Lemma slice_length (start len : nat) (l : list D) :
  (length (Js.slice start (start + len) l) <= len)%nat.
Proof. unfold Js.slice. rewrite length_drop, length_take. lia. Qed.

Lemma select_elem (qs : list Query.t) (content : list D) (d : D) :
  d ∈ Appwrite.documents (Appwrite.select qs content) ->
  d ∈ content /\ Appwrite.matches qs d = true.
Proof.
  unfold Appwrite.select. cbn [Appwrite.documents]. intros Hin.
  assert (Hdrop : d ∈ drop (Appwrite.offset_of qs)
                    (if Appwrite.ordered_desc qs
                     then Js.sort by_created_at_desc (List.filter (Appwrite.matches qs) content)
                     else List.filter (Appwrite.matches qs) content)).
  { destruct (Appwrite.limit_of qs); [|exact Hin].
    exact (elem_of_sublist _ _ _ Hin (sublist_take _ _)). }
  apply (fun H => elem_of_sublist _ _ _ H (sublist_drop _ _)) in Hdrop.
  assert (Hmatched : d ∈ List.filter (Appwrite.matches qs) content).
  { destruct (Appwrite.ordered_desc qs); [apply sort_elem|]; exact Hdrop. }
  apply list_elem_of_In, filter_In in Hmatched as [Hcontent Hmatch].
  split; [apply list_elem_of_In, Hcontent | exact Hmatch].
Qed.

Lemma select_length (qs : list Query.t) (content : list D) (n : nat) :
  Appwrite.limit_of qs = Some n ->
  (length (Appwrite.documents (Appwrite.select qs content)) <= n)%nat.
Proof.
  unfold Appwrite.select. cbn [Appwrite.documents]. intros ->.
  rewrite length_take. lia.
Qed.

Lemma matches_equal (qs : list Query.t) (a v : string) (d : D) :
  Appwrite.matches qs d = true -> In (Query.equal a v) qs -> doc_attribute d a = Some v.
Proof.
  unfold Appwrite.matches. rewrite forallb_forall. intros Hall Hin.
  specialize (Hall _ Hin). cbn in Hall. apply bool_decide_eq_true in Hall. exact Hall.
Qed.

End SelectFacts.

Lemma getUserPayments_single_run (u : string) (type : PaymentService.Type_)
      (limit offset : nat) (w : Appwrite.World) :
  type <> PaymentService.all ->
  fst (PaymentService.getUserPayments u type limit offset w)
  = Appwrite.Returned
      match Appwrite.fault_at 0 w with
      | Some e => Failure (Js.or_string (Js.message e) "Failed to fetch user payments")
      | None =>
          let response :=
            Appwrite.select
              ([Query.orderDesc "created_at"; Query.limit limit; Query.offset offset]
               ++ [Query.equal (match type with
                                | PaymentService.sent => "payer_id"
                                | _ => "recipient_id"
                                end) u])
              (Appwrite.payments w) in
          Success (mkPage (Appwrite.documents response) (Appwrite.total response))
      end.
Proof.
  intros Htype.
  unfold PaymentService.getUserPayments, Appwrite.try_catch, Appwrite.bind.
  destruct type; [| |congruence];
    rewrite (listDocuments_run COLLECTION_IDS.PAYMENTS Appwrite.payments
               payments_faults);
    destruct (Appwrite.fault_at 0 w); reflexivity.
Qed.

Lemma getUserDisputes_single_run (u : string) (role : DisputeService.Role)
      (limit offset : nat) (w : Appwrite.World) :
  role <> DisputeService.all ->
  fst (DisputeService.getUserDisputes u role limit offset w)
  = Appwrite.Returned
      match Appwrite.fault_at 0 w with
      | Some e => Failure (Js.or_string (Js.message e) "Failed to fetch user disputes")
      | None =>
          let response :=
            Appwrite.select
              ([Query.orderDesc "created_at"; Query.limit limit; Query.offset offset]
               ++ [Query.equal (match role with
                                | DisputeService.complainant => "complainant_id"
                                | _ => "respondent_id"
                                end) u])
              (Appwrite.disputes w) in
          Success (mkPage (Appwrite.documents response) (Appwrite.total response))
      end.
Proof.
  intros Hrole.
  unfold DisputeService.getUserDisputes, Appwrite.try_catch, Appwrite.bind.
  destruct role; [| |congruence];
    rewrite (listDocuments_run COLLECTION_IDS.DISPUTES Appwrite.disputes
               disputes_faults);
    destruct (Appwrite.fault_at 0 w); reflexivity.
Qed.

Lemma payer_of_match (qs : list Query.t) (u : string) (d : Payment.t) (content : list Payment.t) :
  In (Query.equal "payer_id" u) qs ->
  d ∈ Appwrite.documents (Appwrite.select qs content) -> Payment.payer_id d = u.
Proof.
  intros Hq Hd. apply select_elem in Hd as [_ Hmatch].
  pose proof (matches_equal _ _ _ _ Hmatch Hq) as Hattr.
  cbn in Hattr. congruence.
Qed.

Lemma recipient_of_match (qs : list Query.t) (u : string) (d : Payment.t)
      (content : list Payment.t) :
  In (Query.equal "recipient_id" u) qs ->
  d ∈ Appwrite.documents (Appwrite.select qs content) -> Payment.recipient_id d = u.
Proof.
  intros Hq Hd. apply select_elem in Hd as [_ Hmatch].
  pose proof (matches_equal _ _ _ _ Hmatch Hq) as Hattr.
  cbn in Hattr. congruence.
Qed.

Lemma complainant_of_match (qs : list Query.t) (u : string) (d : Dispute.t)
      (content : list Dispute.t) :
  In (Query.equal "complainant_id" u) qs ->
  d ∈ Appwrite.documents (Appwrite.select qs content) -> Dispute.complainant_id d = u.
Proof.
  intros Hq Hd. apply select_elem in Hd as [_ Hmatch].
  pose proof (matches_equal _ _ _ _ Hmatch Hq) as Hattr.
  cbn in Hattr. congruence.
Qed.

Lemma respondent_of_match (qs : list Query.t) (u : string) (d : Dispute.t)
      (content : list Dispute.t) :
  In (Query.equal "respondent_id" u) qs ->
  d ∈ Appwrite.documents (Appwrite.select qs content) -> Dispute.respondent_id d = u.
Proof.
  intros Hq Hd. apply select_elem in Hd as [_ Hmatch].
  pose proof (matches_equal _ _ _ _ Hmatch Hq) as Hattr.
  cbn in Hattr. congruence.
Qed.

(** Whatever the store holds and whichever requests fail, a page of
    [getUserPayments] has at most [limit] payments and only payments the
    user sent (type ['sent']), received (['received']) or either
    (['all']). *)
Theorem user_payments_are_the_users
        (w : Appwrite.World) (u : string) (type : PaymentService.Type_)
        (limit offset : nat) :
  (length (page_documents (fst (PaymentService.getUserPayments u type limit offset w)))
   <= limit)%nat
  /\ forall d,
      d ∈ page_documents (fst (PaymentService.getUserPayments u type limit offset w)) ->
      match type with
      | PaymentService.sent => Payment.payer_id d = u
      | PaymentService.received => Payment.recipient_id d = u
      | PaymentService.all => Payment.payer_id d = u \/ Payment.recipient_id d = u
      end.
Proof.
  destruct type.
  - rewrite getUserPayments_single_run by discriminate.
    destruct (Appwrite.fault_at 0 w);
      cbn [page_documents documents length];
      [split; [lia | intros d Hd; apply elem_of_nil in Hd; destruct Hd]|].
    split; [apply select_length; reflexivity|].
    intros d. apply payer_of_match. cbn. auto.
  - rewrite getUserPayments_single_run by discriminate.
    destruct (Appwrite.fault_at 0 w);
      cbn [page_documents documents length];
      [split; [lia | intros d Hd; apply elem_of_nil in Hd; destruct Hd]|].
    split; [apply select_length; reflexivity|].
    intros d. apply recipient_of_match. cbn. auto.
  - rewrite getUserPayments_all_run. unfold fan_out_outcome.
    destruct (Appwrite.fault_at 0 w), (Appwrite.fault_at 1 w);
      cbn [page_documents documents PaymentService.merge_all fst snd length];
      try (split; [lia | intros d Hd; apply elem_of_nil in Hd; destruct Hd]).
    split; [apply slice_length|].
    intros d Hd. apply slice_elem, sort_elem, elem_of_app in Hd as [Hd|Hd].
    + left. revert Hd. apply payer_of_match. cbn. auto.
    + right. revert Hd. apply recipient_of_match. cbn. auto.
Qed.

Lemma user_payments_are_the_users_witness :
  Examples.self_payment
    ∈ page_documents (fst (PaymentService.getUserPayments "U" PaymentService.sent 20 0
                             (Examples.world [] [Examples.self_payment] [] ∅ [])))
  /\ Payment.payer_id Examples.self_payment = "U"%string.
Proof.
  assert (Hin : Examples.self_payment
                  ∈ page_documents
                      (fst (PaymentService.getUserPayments "U" PaymentService.sent 20 0
                              (Examples.world [] [Examples.self_payment] [] ∅ []))))
    by (vm_compute; constructor).
  split; [exact Hin|].
  exact (proj2 (user_payments_are_the_users
                  (Examples.world [] [Examples.self_payment] [] ∅ [])
                  "U" PaymentService.sent 20 0) _ Hin).
Defined.

(** Whatever the store holds and whichever requests fail, a page of
    [getUserDisputes] has at most [limit] disputes and only disputes the
    user raised (role ['complainant']), answers (['respondent']) or either
    (['all']). *)
Theorem user_disputes_are_the_users
        (w : Appwrite.World) (u : string) (role : DisputeService.Role)
        (limit offset : nat) :
  (length (page_documents (fst (DisputeService.getUserDisputes u role limit offset w)))
   <= limit)%nat
  /\ forall d,
      d ∈ page_documents (fst (DisputeService.getUserDisputes u role limit offset w)) ->
      match role with
      | DisputeService.complainant => Dispute.complainant_id d = u
      | DisputeService.respondent => Dispute.respondent_id d = u
      | DisputeService.all => Dispute.complainant_id d = u \/ Dispute.respondent_id d = u
      end.
Proof.
  destruct role.
  - rewrite getUserDisputes_single_run by discriminate.
    destruct (Appwrite.fault_at 0 w);
      cbn [page_documents documents length];
      [split; [lia | intros d Hd; apply elem_of_nil in Hd; destruct Hd]|].
    split; [apply select_length; reflexivity|].
    intros d. apply complainant_of_match. cbn. auto.
  - rewrite getUserDisputes_single_run by discriminate.
    destruct (Appwrite.fault_at 0 w);
      cbn [page_documents documents length];
      [split; [lia | intros d Hd; apply elem_of_nil in Hd; destruct Hd]|].
    split; [apply select_length; reflexivity|].
    intros d. apply respondent_of_match. cbn. auto.
  - rewrite getUserDisputes_all_run. unfold fan_out_outcome.
    destruct (Appwrite.fault_at 0 w), (Appwrite.fault_at 1 w);
      cbn [page_documents documents DisputeService.merge_all Appwrite.documents
           fst snd length];
      try (split; [lia | intros d Hd; apply elem_of_nil in Hd; destruct Hd]).
    split; [apply slice_length|].
    intros d Hd. apply slice_elem, sort_elem, elem_of_app in Hd as [Hd|Hd].
    + left. revert Hd. apply complainant_of_match. cbn. auto.
    + right. revert Hd. apply respondent_of_match. cbn. auto.
Qed.

Lemma user_disputes_are_the_users_witness :
  Ties.raised
    ∈ page_documents (fst (DisputeService.getUserDisputes "U" DisputeService.all 20 0
                             (Examples.world [Ties.answered; Ties.raised] [] [] ∅ [])))
  /\ (Dispute.complainant_id Ties.raised = "U"%string
      \/ Dispute.respondent_id Ties.raised = "U"%string).
Proof.
  assert (Hin : Ties.raised
                  ∈ page_documents
                      (fst (DisputeService.getUserDisputes "U" DisputeService.all 20 0
                              (Examples.world [Ties.answered; Ties.raised] [] [] ∅ []))))
    by (vm_compute; constructor).
  split; [exact Hin|].
  exact (proj2 (user_disputes_are_the_users
                  (Examples.world [Ties.answered; Ties.raised] [] [] ∅ [])
                  "U" DisputeService.all 20 0) _ Hin).
Defined.

Lemma push_if_In (x : option string) (s : string) (q : string -> Query.t) :
  x = Some s -> Js.truthy_string s = true -> In (q s) (DisputeService.push_if x q).
Proof. intros -> Hs. cbn. rewrite Hs. left. reflexivity. Qed.

Lemma status_of_match (qs : list Query.t) (s : string) (d : Dispute.t)
      (content : list Dispute.t) :
  In (Query.equal "status" s) qs ->
  d ∈ Appwrite.documents (Appwrite.select qs content) -> Dispute.status d = s.
Proof.
  intros Hq Hd. apply select_elem in Hd as [_ Hmatch].
  pose proof (matches_equal _ _ _ _ Hmatch Hq) as Hattr.
  cbn in Hattr. congruence.
Qed.

Lemma merge_unique_bounds (c r : Appwrite.DocumentList Dispute.t) (limit offset : nat) :
  (length (Appwrite.documents c) <= limit)%nat ->
  (length (Appwrite.documents r) <= limit)%nat ->
  (length (Appwrite.documents (DisputeService.merge_unique c r limit offset)) <= limit)%nat
  /\ NoDup (Dispute.id <$> Appwrite.documents (DisputeService.merge_unique c r limit offset))
  /\ (Appwrite.total (DisputeService.merge_unique c r limit offset) <= 2 * limit)%nat
  /\ forall d,
      d ∈ Appwrite.documents (DisputeService.merge_unique c r limit offset) ->
      d ∈ Appwrite.documents c \/ d ∈ Appwrite.documents r.
Proof.
  intros Hc Hr. unfold DisputeService.merge_unique.
  cbn [Appwrite.documents Appwrite.total].
  pose proof (first_occurrences_ids [] (Appwrite.documents c ++ Appwrite.documents r))
    as [Hnodup _].
  pose proof (first_occurrences_sublist [] (Appwrite.documents c ++ Appwrite.documents r))
    as Hsub.
  rewrite <- uniqueDisputes_first_occurrences in Hnodup, Hsub.
  repeat apply conj.
  - apply slice_length.
  - assert (Hsorted : NoDup (Dispute.id <$>
                               Js.sort by_created_at_desc
                                 (DisputeService.uniqueDisputes
                                    (Appwrite.documents c ++ Appwrite.documents r))))
      by (rewrite sort_Permutation; exact Hnodup).
    refine (sublist_NoDup _ _ Hsorted _).
    apply fmap_sublist. unfold Js.slice.
    etransitivity; [apply sublist_drop | apply sublist_take].
  - apply sublist_length in Hsub. rewrite length_app in Hsub. lia.
  - intros d Hd. apply slice_elem in Hd. apply (proj1 (sort_elem _ _)) in Hd.
    apply (fun H => elem_of_sublist _ _ _ H Hsub), elem_of_app in Hd. exact Hd.
Qed.

(** For [getAll] with a user filter: the page has at most [limit]
    disputes, no two with the same [$id], each raised or answered by the
    user and, when a status filter is set, of that status; and the
    [total] it reports is at most twice [limit], however many disputes
    match. *)
Theorem getAll_user_page_bounds
        (w : Appwrite.World) (filters : DisputeService.Filters) (u : string)
        (limit offset : nat) (page : PaginatedResponse Dispute.t) :
  DisputeService.userId filters = Some u -> Js.truthy_string u = true ->
  fst (DisputeService.getAll filters limit offset w) = Appwrite.Returned (Success page) ->
  (length (documents page) <= limit)%nat
  /\ NoDup (Dispute.id <$> documents page)
  /\ (total page <= 2 * limit)%nat
  /\ forall d,
      d ∈ documents page ->
      (Dispute.complainant_id d = u \/ Dispute.respondent_id d = u)
      /\ forall s, DisputeService.status filters = Some s -> Js.truthy_string s = true ->
                   Dispute.status d = s.
Proof.
  intros Hu Htruthy. rewrite (getAll_fan_out_run filters u) by assumption.
  unfold fan_out_outcome.
  destruct (Appwrite.fault_at 0 w), (Appwrite.fault_at 1 w); try discriminate.
  intros Hpage. injection Hpage as <-.
  cbn [documents total fst snd].
  destruct (merge_unique_bounds
              (Appwrite.select
                 (DisputeService.getAll_queries filters limit offset
                  ++ [Query.equal "complainant_id" u]) (Appwrite.disputes w))
              (Appwrite.select
                 (DisputeService.getAll_queries filters limit offset
                  ++ [Query.equal "respondent_id" u]) (Appwrite.disputes w))
              limit offset)
    as (Hlen & Hnodup & Htotal & Hfrom);
    [apply select_length; reflexivity | apply select_length; reflexivity |].
  repeat apply conj; [exact Hlen | exact Hnodup | exact Htotal |].
  intros d Hd. apply Hfrom in Hd. split.
  - destruct Hd as [Hd|Hd].
    + left. revert Hd. apply complainant_of_match. apply in_or_app. right. cbn. auto.
    + right. revert Hd. apply respondent_of_match. apply in_or_app. right. cbn. auto.
  - intros s Hs Hstruthy.
    assert (Hq : In (Query.equal "status" s)
                    (DisputeService.getAll_queries filters limit offset)).
    { unfold DisputeService.getAll_queries. apply in_or_app. right.
      apply in_or_app. left. apply push_if_In; assumption. }
    destruct Hd as [Hd|Hd]; revert Hd; apply status_of_match;
      apply in_or_app; left; exact Hq.
Qed.

Lemma getAll_user_page_bounds_witness :
  (length [Examples.self_dispute] <= 20)%nat
  /\ NoDup (Dispute.id <$> [Examples.self_dispute])
  /\ (1 <= 2 * 20)%nat.
Proof.
  destruct (getAll_user_page_bounds
              (Examples.world [Examples.self_dispute] [] [] ∅ [])
              (Examples.only_userId "U") "U" 20 0
              (mkPage [Examples.self_dispute] 1) eq_refl eq_refl eq_refl)
    as (Hlen & Hnodup & Htotal & _).
  exact (conj Hlen (conj Hnodup Htotal)).
Defined.

(** ** ReviewService: reading reviews *)

Lemma reviews_faults fs w :
  Appwrite.reviews (Appwrite.set_faults fs w) = Appwrite.reviews w.
Proof. reflexivity. Qed.

Lemma page_of_run (queries : list Query.t) (fallback : string) (w : Appwrite.World) :
  fst (ReviewReads.page_of queries fallback w)
  = Appwrite.Returned
      match Appwrite.fault_at 0 w with
      | Some e => Failure (Js.or_string (Js.message e) fallback)
      | None =>
          Success (mkPage (Appwrite.documents (Appwrite.select queries (Appwrite.reviews w)))
                          (Appwrite.total (Appwrite.select queries (Appwrite.reviews w))))
      end.
Proof.
  unfold ReviewReads.page_of, Appwrite.try_catch, Appwrite.bind.
  rewrite (listDocuments_run COLLECTION_IDS.REVIEWS Appwrite.reviews reviews_faults).
  destruct (Appwrite.fault_at 0 w); reflexivity.
Qed.

Lemma select_Sorted {D : Type} `{Document D} (qs : list Query.t) (content : list D) :
  Appwrite.ordered_desc qs = true ->
  Sorted newer_or_same (Appwrite.documents (Appwrite.select qs content)).
Proof.
  intros Hordered. unfold Appwrite.select. cbn [Appwrite.documents]. rewrite Hordered.
  destruct (Appwrite.limit_of qs); [apply Sorted_take|]; apply Sorted_drop, sort_Sorted.
Qed.

Lemma canUserReview_run (userId jobId revieweeId : string) (w : Appwrite.World) :
  fst (ReviewReads.canUserReview userId jobId revieweeId w)
  = Appwrite.Returned
      match Appwrite.fault_at 0 w with
      | Some e => Failure (Js.or_string (Js.message e) "Failed to check review eligibility")
      | None =>
          Success (negb (0 <? length
                           (Appwrite.documents
                              (Appwrite.select
                                 [Query.equal "job_id" jobId;
                                  Query.equal "reviewer_id" userId;
                                  Query.equal "reviewee_id" revieweeId; Query.limit 1]
                                 (Appwrite.reviews w))))%nat)
      end.
Proof.
  unfold ReviewReads.canUserReview, Appwrite.try_catch, Appwrite.bind.
  rewrite (listDocuments_run COLLECTION_IDS.REVIEWS Appwrite.reviews reviews_faults).
  destruct (Appwrite.fault_at 0 w); [reflexivity|].
  cbn -[Appwrite.select].
  destruct (length (Appwrite.documents
                      (Appwrite.select
                         [Query.equal "job_id" jobId; Query.equal "reviewer_id" userId;
                          Query.equal "reviewee_id" revieweeId; Query.limit 1]
                         (Appwrite.reviews w)))); reflexivity.
Qed.

Lemma reviewed_by_matches (userId jobId revieweeId : string) (review : Review.t) :
  Appwrite.matches [Query.equal "job_id" jobId; Query.equal "reviewer_id" userId;
                    Query.equal "reviewee_id" revieweeId; Query.limit 1] review = true
  <-> reviewed_by userId jobId revieweeId review.
Proof.
  unfold reviewed_by. cbn. rewrite !andb_true_iff, !bool_decide_eq_true.
  split.
  - intros (Hj & Hr & He & _). repeat split; congruence.
  - intros (Hj & Hr & He). repeat split; congruence.
Qed.

(** When its request is answered, [canUserReview] says [false] exactly
    when the store holds a review by that user of that reviewee for that
    job, and [true] otherwise. *)
Theorem canUserReview_false_iff_reviewed
        (w : Appwrite.World) (userId jobId revieweeId : string) :
  Appwrite.fault_at 0 w = None ->
  exists answer,
    fst (ReviewReads.canUserReview userId jobId revieweeId w)
    = Appwrite.Returned (Success answer)
    /\ (answer = false
        <-> exists review, review ∈ Appwrite.reviews w
                           /\ reviewed_by userId jobId revieweeId review).
Proof.
  intros Hfault. rewrite canUserReview_run, Hfault. eexists. split; [reflexivity|].
  rewrite negb_false_iff, Nat.ltb_lt.
  unfold Appwrite.select. cbn [Appwrite.documents Appwrite.limit_of Appwrite.offset_of
                               Appwrite.ordered_desc existsb orb].
  rewrite drop_0.
  set (matched := List.filter _ (Appwrite.reviews w)).
  assert (Hmatched : forall review,
             review ∈ matched
             <-> review ∈ Appwrite.reviews w /\ reviewed_by userId jobId revieweeId review).
  { intros review. unfold matched. rewrite !list_elem_of_In, filter_In, reviewed_by_matches.
    reflexivity. }
  split.
  - intros Hlen. destruct matched as [|review rest]; [cbn in Hlen; lia|].
    exists review. apply Hmatched. left.
  - intros (review & Hreview). apply Hmatched in Hreview.
    destruct matched as [|first rest]; [apply elem_of_nil in Hreview; destruct Hreview|].
    cbn. lia.
Qed.

Lemma canUserReview_false_iff_reviewed_witness :
  exists answer,
    fst (ReviewReads.canUserReview "A" "j1" "B" Reviews.with_profile)
    = Appwrite.Returned (Success answer)
    /\ (answer = false
        <-> exists review, review ∈ Appwrite.reviews Reviews.with_profile
                           /\ reviewed_by "A" "j1" "B" review).
Proof.
  exact (canUserReview_false_iff_reviewed Reviews.with_profile "A" "j1" "B" eq_refl).
Defined.

Lemma reviewee_of_match (qs : list Query.t) (u : string) (d : Review.t)
      (content : list Review.t) :
  In (Query.equal "reviewee_id" u) qs ->
  d ∈ Appwrite.documents (Appwrite.select qs content) -> Review.reviewee_id d = u.
Proof.
  intros Hq Hd. apply select_elem in Hd as [_ Hmatch].
  pose proof (matches_equal _ _ _ _ Hmatch Hq) as Hattr.
  cbn in Hattr. congruence.
Qed.

Lemma reviewer_of_match (qs : list Query.t) (u : string) (d : Review.t)
      (content : list Review.t) :
  In (Query.equal "reviewer_id" u) qs ->
  d ∈ Appwrite.documents (Appwrite.select qs content) -> Review.reviewer_id d = u.
Proof.
  intros Hq Hd. apply select_elem in Hd as [_ Hmatch].
  pose proof (matches_equal _ _ _ _ Hmatch Hq) as Hattr.
  cbn in Hattr. congruence.
Qed.

Lemma job_of_match (qs : list Query.t) (j : string) (d : Review.t)
      (content : list Review.t) :
  In (Query.equal "job_id" j) qs ->
  d ∈ Appwrite.documents (Appwrite.select qs content) -> Review.job_id d = j.
Proof.
  intros Hq Hd. apply select_elem in Hd as [_ Hmatch].
  pose proof (matches_equal _ _ _ _ Hmatch Hq) as Hattr.
  cbn in Hattr. congruence.
Qed.

(** Whatever the store holds and whether or not the request fails, a
    page of [getUserReviews], [getReviewsByUser] or [getJobReviews] has at
    most [limit] reviews, newest first, all of them received by the user,
    written by the user, or about the job, respectively. *)
Theorem review_pages_hold_what_was_asked
        (w : Appwrite.World) (key : string) (limit offset : nat) :
  let received := page_documents (fst (ReviewReads.getUserReviews key limit offset w)) in
  let written := page_documents (fst (ReviewReads.getReviewsByUser key limit offset w)) in
  let about := page_documents (fst (ReviewReads.getJobReviews key limit offset w)) in
  ((length received <= limit)%nat /\ Sorted newer_or_same received
   /\ forall d, d ∈ received -> Review.reviewee_id d = key)
  /\ ((length written <= limit)%nat /\ Sorted newer_or_same written
      /\ forall d, d ∈ written -> Review.reviewer_id d = key)
  /\ ((length about <= limit)%nat /\ Sorted newer_or_same about
      /\ forall d, d ∈ about -> Review.job_id d = key).
Proof.
  cbv zeta.
  unfold ReviewReads.getUserReviews, ReviewReads.getReviewsByUser,
    ReviewReads.getJobReviews.
  rewrite !page_of_run.
  destruct (Appwrite.fault_at 0 w); cbn [page_documents documents length].
  - repeat apply conj; try lia; try constructor;
      intros d Hd; apply elem_of_nil in Hd; destruct Hd.
  - repeat apply conj;
      try (apply select_length; reflexivity);
      try (apply select_Sorted; reflexivity).
    + intros d. apply reviewee_of_match. cbn. auto.
    + intros d. apply reviewer_of_match. cbn. auto.
    + intros d. apply job_of_match. cbn. auto.
Qed.

Lemma review_pages_hold_what_was_asked_witness :
  Reviews.stored
    ∈ page_documents (fst (ReviewReads.getUserReviews "B" 20 0 Reviews.with_profile))
  /\ Review.reviewee_id Reviews.stored = "B"%string.
Proof.
  assert (Hin : Reviews.stored
                  ∈ page_documents
                      (fst (ReviewReads.getUserReviews "B" 20 0 Reviews.with_profile)))
    by (vm_compute; constructor).
  split; [exact Hin|].
  exact (proj2 (proj2 (proj1 (review_pages_hold_what_was_asked
                                Reviews.with_profile "B" 20 0))) _ Hin).
Defined.

Lemma getUserRatingStats_run (userId : string) (w : Appwrite.World) :
  fst (ReviewService.getUserRatingStats userId w)
  = Appwrite.Returned
      match Appwrite.fault_at 0 w with
      | Some e =>
          Failure (Js.or_string (Js.message e) "Failed to fetch user rating statistics")
      | None =>
          Success (ReviewService.rating_stats_of
                     (Appwrite.documents
                        (Appwrite.select
                           [Query.equal "reviewee_id" userId; Query.orderDesc "created_at"]
                           (Appwrite.reviews w))))
      end.
Proof.
  unfold ReviewService.getUserRatingStats, Appwrite.try_catch, Appwrite.bind.
  rewrite (listDocuments_run COLLECTION_IDS.REVIEWS Appwrite.reviews reviews_faults).
  destruct (Appwrite.fault_at 0 w); reflexivity.
Qed.

Lemma recentReviews_take (reviews : list Review.t) :
  ReviewService.recentReviews (ReviewService.rating_stats_of reviews) = take 5 reviews.
Proof.
  unfold ReviewService.rating_stats_of. destruct reviews; reflexivity.
Qed.

Lemma newer_or_same_trans {D : Type} `{Document D} : Transitive (newer_or_same (D := D)).
Proof. intros a b c. unfold newer_or_same. lia. Qed.

Lemma Sorted_prefix_newer {D : Type} `{Document D} (n : nat) (l : list D) :
  Sorted newer_or_same l ->
  forall a b, a ∈ take n l -> b ∈ drop n l -> newer_or_same a b.
Proof.
  intros Hsorted. apply (Sorted_StronglySorted newer_or_same_trans) in Hsorted.
  revert n. induction Hsorted as [|x l Hl IH Hx]; intros n a b Ha Hb.
  - rewrite take_nil in Ha. apply elem_of_nil in Ha. destruct Ha.
  - destruct n as [|n]; [apply elem_of_nil in Ha; destruct Ha|].
    cbn in Ha, Hb. apply elem_of_cons in Ha as [->|Ha].
    + rewrite List.Forall_forall in Hx. apply Hx, list_elem_of_In.
      exact (elem_of_sublist _ _ _ Hb (sublist_drop _ _)).
    + exact (IH n a b Ha Hb).
Qed.

(** The [recentReviews] of [getUserRatingStats] are at most five reviews
    the user received, newest first, and no review the user received that
    is left out is newer than one of them. *)
Theorem recent_reviews_are_the_newest (w : Appwrite.World) (userId : string) :
  Appwrite.fault_at 0 w = None ->
  exists stats,
    fst (ReviewService.getUserRatingStats userId w) = Appwrite.Returned (Success stats)
    /\ (length (ReviewService.recentReviews stats) <= 5)%nat
    /\ Sorted newer_or_same (ReviewService.recentReviews stats)
    /\ (forall r, r ∈ ReviewService.recentReviews stats ->
                  r ∈ Appwrite.reviews w /\ Review.reviewee_id r = userId)
    /\ (forall r r',
           r ∈ Appwrite.reviews w -> Review.reviewee_id r = userId ->
           r ∉ ReviewService.recentReviews stats ->
           r' ∈ ReviewService.recentReviews stats ->
           Review.created_at r <= Review.created_at r').
Proof.
  intros Hfault. rewrite getUserRatingStats_run, Hfault. eexists. split; [reflexivity|].
  rewrite recentReviews_take.
  set (qs := [Query.equal "reviewee_id" userId; Query.orderDesc "created_at"]).
  assert (Hsorted : Sorted newer_or_same
                           (Appwrite.documents (Appwrite.select qs (Appwrite.reviews w))))
    by (apply select_Sorted; reflexivity).
  repeat apply conj.
  - rewrite length_take. lia.
  - apply Sorted_take, Hsorted.
  - intros r Hr. apply (fun H => elem_of_sublist _ _ _ H (sublist_take _ _)) in Hr.
    split; [apply (select_elem qs _ _ Hr)|].
    revert Hr. apply reviewee_of_match. cbn. auto.
  - intros r r' Hr Hreviewee Hout Hin.
    assert (Hall : r ∈ Appwrite.documents (Appwrite.select qs (Appwrite.reviews w))).
    { unfold Appwrite.select, qs.
      cbn [Appwrite.documents Appwrite.limit_of Appwrite.offset_of Appwrite.ordered_desc
           existsb orb String.eqb Ascii.eqb Bool.eqb andb].
      rewrite drop_0. apply sort_elem, list_elem_of_In, filter_In.
      split; [apply list_elem_of_In, Hr|].
      cbn. rewrite Hreviewee. rewrite bool_decide_eq_true_2 by reflexivity. reflexivity. }
    rewrite <- (take_drop 5) in Hall. apply elem_of_app in Hall as [Hall|Hall];
      [contradiction|].
    exact (Sorted_prefix_newer 5 _ Hsorted r' r Hin Hall).
Qed.

Lemma recent_reviews_are_the_newest_witness :
  exists stats,
    fst (ReviewService.getUserRatingStats "B" Reviews.with_profile)
    = Appwrite.Returned (Success stats)
    /\ (length (ReviewService.recentReviews stats) <= 5)%nat.
Proof.
  destruct (recent_reviews_are_the_newest Reviews.with_profile "B" eq_refl)
    as (stats & Hrun & Hlen & _).
  exists stats. split; [exact Hrun | exact Hlen].
Defined.

(** ** ReviewService: failures of the review write *)

(** When the review cannot be fetched because no review has that id,
    [update] and [delete] return the failure of the fetch, with the store's
    message and not their own, after this one request: no review, profile
    or log entry is written. *)
Theorem missing_review_is_not_written
        (w : Appwrite.World) (reviewId : string)
        (updateData : ReviewService.UpdateReviewRequest) :
  List.find (fun d => String.eqb (doc_id d) reviewId) (Appwrite.reviews w) = None ->
  Appwrite.fault_at 0 w = None ->
  (fst (ReviewService.update reviewId updateData w)
   = Appwrite.Returned (Failure "Document with the requested ID could not be found.")
   /\ Appwrite.new_events w (snd (ReviewService.update reviewId updateData w))
      = [Appwrite.Requested Appwrite.GetDocument COLLECTION_IDS.REVIEWS false]
   /\ Appwrite.reviews (snd (ReviewService.update reviewId updateData w))
      = Appwrite.reviews w
   /\ Appwrite.profiles (snd (ReviewService.update reviewId updateData w))
      = Appwrite.profiles w
   /\ Appwrite.console (snd (ReviewService.update reviewId updateData w))
      = Appwrite.console w)
  /\ (fst (ReviewService.delete reviewId w)
      = Appwrite.Returned (Failure "Document with the requested ID could not be found.")
      /\ Appwrite.new_events w (snd (ReviewService.delete reviewId w))
         = [Appwrite.Requested Appwrite.GetDocument COLLECTION_IDS.REVIEWS false]
      /\ Appwrite.reviews (snd (ReviewService.delete reviewId w)) = Appwrite.reviews w
      /\ Appwrite.profiles (snd (ReviewService.delete reviewId w)) = Appwrite.profiles w
      /\ Appwrite.console (snd (ReviewService.delete reviewId w)) = Appwrite.console w).
Proof.
  intros Hfind Hfault.
  destruct w as [ds ps rs pf cr co fl rc tr nw ni]. cbn [Appwrite.reviews] in Hfind.
  destruct fl as [|[e|] fl]; [|discriminate Hfault|];
    (split; run_services; rewrite ?Hfind; run_services; read_events;
     repeat apply conj; reflexivity).
Qed.

Lemma missing_review_is_not_written_witness :
  fst (ReviewService.delete "r9" Reviews.with_profile)
  = Appwrite.Returned (Failure "Document with the requested ID could not be found.")
  /\ Appwrite.reviews (snd (ReviewService.delete "r9" Reviews.with_profile))
     = Appwrite.reviews Reviews.with_profile.
Proof.
  destruct (proj2 (missing_review_is_not_written
                     Reviews.with_profile "r9" (ReviewService.mkUpdate None None)
                     eq_refl eq_refl)) as (Hrun & _ & Hreviews & _).
  exact (conj Hrun Hreviews).
Defined.

(** When the write of the review itself fails, [create], [update] and
    [delete] return the failure with the message of the rejection, or
    their own text when it has none; the rating is not recomputed and the
    reviews, the profiles and the log are as before. *)
Theorem failed_review_write_skips_the_rating
        (w : Appwrite.World) (e : Js.Error)
        (reviewData : ReviewService.CreateReviewRequest) (reviewId : string)
        (updateData : ReviewService.UpdateReviewRequest) (current : Review.t) :
  (Appwrite.fault_at 0 w = Some e ->
   let run := ReviewService.create reviewData w in
   fst run = Appwrite.Returned
               (Failure (Js.or_string (Js.message e) "Failed to create review"))
   /\ (forall method u, ~ In (Appwrite.Entered method u) (Appwrite.new_events w (snd run)))
   /\ Appwrite.reviews (snd run) = Appwrite.reviews w
   /\ Appwrite.profiles (snd run) = Appwrite.profiles w
   /\ Appwrite.console (snd run) = Appwrite.console w)
  /\ (List.find (fun d => String.eqb (doc_id d) reviewId) (Appwrite.reviews w)
      = Some current ->
      Appwrite.fault_at 0 w = None -> Appwrite.fault_at 1 w = Some e ->
      (let run := ReviewService.update reviewId updateData w in
       fst run = Appwrite.Returned
                   (Failure (Js.or_string (Js.message e) "Failed to update review"))
       /\ (forall method u,
              ~ In (Appwrite.Entered method u) (Appwrite.new_events w (snd run)))
       /\ Appwrite.reviews (snd run) = Appwrite.reviews w
       /\ Appwrite.profiles (snd run) = Appwrite.profiles w
       /\ Appwrite.console (snd run) = Appwrite.console w)
      /\ (let run := ReviewService.delete reviewId w in
          fst run = Appwrite.Returned
                      (Failure (Js.or_string (Js.message e) "Failed to delete review"))
          /\ (forall method u,
                 ~ In (Appwrite.Entered method u) (Appwrite.new_events w (snd run)))
          /\ Appwrite.reviews (snd run) = Appwrite.reviews w
          /\ Appwrite.profiles (snd run) = Appwrite.profiles w
          /\ Appwrite.console (snd run) = Appwrite.console w)).
Proof.
  destruct w as [ds ps rs pf cr co fl rc tr nw ni]. cbn [Appwrite.reviews]. split.
  - intros Hfault. cbv zeta.
    destruct fl as [|[e0|] fl]; try discriminate Hfault.
    injection Hfault as ->.
    run_services; read_events;
      repeat apply conj; try reflexivity; intros method u Hin; by_events.
  - intros Hfind Hfault0 Hfault1. cbv zeta.
    destruct fl as [|[e0|] [|[e1|] fl]]; try discriminate Hfault0; try discriminate Hfault1.
    injection Hfault1 as ->.
    split; run_services; rewrite ?Hfind; run_services; read_events;
      repeat apply conj; try reflexivity; intros method u Hin; by_events.
Qed.

Lemma failed_review_write_skips_the_rating_witness :
  fst (ReviewService.create Reviews.request
         (Examples.world [] [] [Reviews.stored] ∅ [Some Outage.unavailable]))
  = Appwrite.Returned (Failure "Service unavailable")
  /\ Appwrite.reviews
       (snd (ReviewService.create Reviews.request
               (Examples.world [] [] [Reviews.stored] ∅ [Some Outage.unavailable])))
     = [Reviews.stored].
Proof.
  destruct (proj1 (failed_review_write_skips_the_rating
                     (Examples.world [] [] [Reviews.stored] ∅ [Some Outage.unavailable])
                     Outage.unavailable Reviews.request "r1"
                     (ReviewService.mkUpdate None None) Reviews.stored) eq_refl)
    as (Hrun & _ & Hreviews & _).
  exact (conj Hrun Hreviews).
Defined.

(** ** ReviewService: the rating written to the profile *)

Lemma rating_average_is_rounded_mean (reviews : list Review.t) :
  ReviewService.averageRating (ReviewService.rating_stats_of reviews)
  = round_half_up 1 (spec_mean (Review.rating <$> reviews))
  /\ ReviewService.totalReviews (ReviewService.rating_stats_of reviews) = length reviews.
Proof.
  unfold ReviewService.rating_stats_of, spec_mean. rewrite length_fmap.
  destruct reviews as [|r reviews]; [split; [apply Qc_is_canon|]; reflexivity|].
  cbn [length Nat.eqb ReviewService.averageRating ReviewService.totalReviews].
  rewrite totalRating_sum, round1_half_up. split; reflexivity.
Qed.

Lemma spec_sum_Permutation (l l' : list Qc) : l ≡ₚ l' -> spec_sum l = spec_sum l'.
Proof.
  unfold spec_sum.
  induction 1 as [|x l l' _ IH|x y l|l l' l'' _ IH1 _ IH2]; cbn.
  - reflexivity.
  - rewrite IH. reflexivity.
  - ring.
  - congruence.
Qed.

Lemma rating_of_reviews_Permutation (l l' : list Review.t) :
  l ≡ₚ l' -> rating_of_reviews l = rating_of_reviews l'.
Proof.
  intros Hperm. unfold rating_of_reviews, spec_mean.
  rewrite !length_fmap, (Permutation_length Hperm).
  rewrite (spec_sum_Permutation (Review.rating <$> l) (Review.rating <$> l'))
    by (apply fmap_Permutation, Hperm).
  reflexivity.
Qed.

Lemma received_by_select (u : string) (reviews : list Review.t) :
  Appwrite.documents
    (Appwrite.select [Query.equal "reviewee_id" u; Query.orderDesc "created_at"] reviews)
  ≡ₚ received_by u reviews.
Proof.
  unfold Appwrite.select, received_by.
  cbn [Appwrite.documents Appwrite.limit_of Appwrite.offset_of Appwrite.ordered_desc
       existsb orb String.eqb Ascii.eqb Bool.eqb andb].
  rewrite drop_0, sort_Permutation.
  erewrite filter_ext; [reflexivity|].
  intros r. cbn. rewrite andb_true_r.
  destruct (String.eqb_spec (Review.reviewee_id r) u) as [->|Hne].
  - apply bool_decide_eq_true_2. reflexivity.
  - apply bool_decide_eq_false_2. congruence.
Qed.

Lemma updateUserRating_returns (u : string) (w : Appwrite.World) :
  fst (ReviewService.updateUserRating u w) = Appwrite.Returned tt.
Proof.
  destruct w as [ds ps rs pf cr co fl rc tr nw ni].
  destruct fl as [|[e0|] [|[e1|] fl]]; run_services;
    try (destruct (pf !! u) as [p|] eqn:Hp); reflexivity.
Qed.

(** What [updateUserRating] leaves when its two requests are answered and
    the user has a profile document. *)
Lemma updateUserRating_syncs (u : string) (w : Appwrite.World) (p : Profile.t) :
  Appwrite.fault_at 0 w = None -> Appwrite.fault_at 1 w = None ->
  Appwrite.profiles w !! u = Some p ->
  Appwrite.reviews (snd (ReviewService.updateUserRating u w)) = Appwrite.reviews w
  /\ Appwrite.console (snd (ReviewService.updateUserRating u w)) = Appwrite.console w
  /\ profile_in_sync u (snd (ReviewService.updateUserRating u w)).
Proof.
  intros H0 H1 Hp. unfold profile_in_sync.
  destruct w as [ds ps rs pf cr co fl rc tr nw ni]. cbn [Appwrite.profiles] in Hp.
  destruct fl as [|[e0|] [|[e1|] fl]]; try discriminate H0; try discriminate H1;
    run_services; rewrite Hp; run_services;
    (split; [reflexivity|]); (split; [reflexivity|]);
    eexists; (split; [apply lookup_insert_eq|]);
    cbn [Profile.average_rating Profile.total_reviews];
    rewrite <- (rating_of_reviews_Permutation _ _ (received_by_select u rs));
    unfold rating_of_reviews;
    destruct (rating_average_is_rounded_mean
                (Appwrite.documents
                   (Appwrite.select
                      [Query.equal "reviewee_id" u; Query.orderDesc "created_at"] rs)))
      as [-> ->]; reflexivity.
Qed.







(** ** ReviewService: a review once created is found by [canUserReview] *)

Lemma reviewed_is_matched (userId jobId revieweeId : string) (reviews : list Review.t)
      (review : Review.t) :
  review ∈ reviews -> reviewed_by userId jobId revieweeId review ->
  (0 <? length (Appwrite.documents
                  (Appwrite.select
                     [Query.equal "job_id" jobId; Query.equal "reviewer_id" userId;
                      Query.equal "reviewee_id" revieweeId; Query.limit 1] reviews)))%nat
  = true.
Proof.
  intros Hin Hby. apply Nat.ltb_lt.
  unfold Appwrite.select. cbn [Appwrite.documents Appwrite.limit_of Appwrite.offset_of
                               Appwrite.ordered_desc existsb orb].
  rewrite drop_0.
  assert (Hmatched : review ∈ List.filter
                       (Appwrite.matches
                          [Query.equal "job_id" jobId; Query.equal "reviewer_id" userId;
                           Query.equal "reviewee_id" revieweeId; Query.limit 1]) reviews).
  { rewrite list_elem_of_In, filter_In, reviewed_by_matches, <- list_elem_of_In. auto. }
  destruct (List.filter _ reviews) as [|first rest];
    [apply elem_of_nil in Hmatched; destruct Hmatched|].
  cbn. lia.
Qed.

Lemma create_stores_the_review (w : Appwrite.World)
      (reviewData : ReviewService.CreateReviewRequest) :
  Appwrite.fault_at 0 w = None ->
  exists review,
    fst (ReviewService.create reviewData w) = Appwrite.Returned (Success review)
    /\ Appwrite.reviews (snd (ReviewService.create reviewData w))
       = Appwrite.reviews w ++ [review]
    /\ reviewed_by (ReviewService.reviewerId reviewData) (ReviewService.jobId reviewData)
                   (ReviewService.revieweeId reviewData) review
    /\ Review.rating review = ReviewService.rating reviewData.
Proof.
  intros H0.
  destruct w as [ds ps rs pf cr co fl rc tr nw ni].
  destruct (pf !! ReviewService.revieweeId reviewData) as [p|] eqn:Hp;
    destruct fl as [|[e0|] [|[e1|] [|[e2|] fl]]];
    try discriminate H0;
    run_services; rewrite ?Hp; run_services;
    eexists; repeat split; reflexivity.
Qed.

(** Once [create] has stored a review (its first request was answered),
    it returns success whatever happens to the rating write, and a later
    [canUserReview] for the same reviewer, job and reviewee that gets its
    answer says [false]. *)
Theorem created_review_blocks_a_second (w : Appwrite.World)
        (reviewData : ReviewService.CreateReviewRequest) :
  Appwrite.fault_at 0 w = None ->
  Appwrite.fault_at 0 (snd (ReviewService.create reviewData w)) = None ->
  (exists review,
      fst (ReviewService.create reviewData w) = Appwrite.Returned (Success review))
  /\ fst (ReviewReads.canUserReview (ReviewService.reviewerId reviewData)
                                    (ReviewService.jobId reviewData)
                                    (ReviewService.revieweeId reviewData)
                                    (snd (ReviewService.create reviewData w)))
     = Appwrite.Returned (Success false).
Proof.
  intros H0 Hnext.
  destruct (create_stores_the_review w reviewData H0) as (review & Hret & Hstore & Hby & _).
  split; [exists review; exact Hret|].
  rewrite canUserReview_run, Hnext.
  rewrite (reviewed_is_matched _ _ _ _ review); [reflexivity| |exact Hby].
  rewrite Hstore. apply elem_of_app. right. apply list_elem_of_singleton. reflexivity.
Qed.

Lemma created_review_blocks_a_second_witness :
  fst (ReviewReads.canUserReview "C" "j2" "B"
         (snd (ReviewService.create Reviews.request Reviews.without_profile)))
  = Appwrite.Returned (Success false).
Proof.
  exact (proj2 (created_review_blocks_a_second Reviews.without_profile Reviews.request
                                               eq_refl eq_refl)).
Defined.

(** ** DisputeService and PaymentService: one document read and written *)

Section OneDocument.
Context {D : Type} `{Document D}.
Variable id : string.
Variable data : D -> D.
Hypothesis data_id : forall x, doc_id (data x) = doc_id x.

Lemma find_updated (id' : string) (l : list D) :
  List.find (fun d => String.eqb (doc_id d) id')
            (map (fun x => if String.eqb (doc_id x) id then data x else x) l)
  = if String.eqb id' id
    then data <$> List.find (fun d => String.eqb (doc_id d) id) l
    else List.find (fun d => String.eqb (doc_id d) id') l.
Proof.
  induction l as [|x l IH]; [destruct (String.eqb id' id); reflexivity|].
  cbn [map List.find].
  destruct (String.eqb_spec (doc_id x) id) as [Hx|Hx].
  - rewrite data_id, Hx.
    destruct (String.eqb_spec id' id) as [->|Hne].
    + destruct (String.eqb_spec id id); [reflexivity|congruence].
    + destruct (String.eqb_spec id id') as [Heq|_]; [congruence|].
      rewrite IH. destruct (String.eqb_spec id' id); [congruence|reflexivity].
  - destruct (String.eqb_spec id' id) as [->|Hne].
    + destruct (String.eqb_spec (doc_id x) id); [congruence|].
      rewrite IH. destruct (String.eqb_spec id id); [reflexivity|congruence].
    + rewrite IH. destruct (String.eqb_spec id' id); [congruence|reflexivity].
Qed.

Lemma find_other_than (id' : string) (l : list D) :
  List.find (fun d => String.eqb (doc_id d) id') (other_than id l)
  = if String.eqb id' id then None
    else List.find (fun d => String.eqb (doc_id d) id') l.
Proof.
  unfold other_than.
  induction l as [|x l IH]; [destruct (String.eqb id' id); reflexivity|].
  cbn [List.filter List.find].
  destruct (String.eqb_spec (doc_id x) id) as [Hx|Hx]; cbn [negb].
  - rewrite IH, Hx. destruct (String.eqb_spec id' id) as [->|Hne]; [reflexivity|].
    destruct (String.eqb_spec id id'); [congruence|reflexivity].
  - cbn [List.find]. rewrite IH.
    destruct (String.eqb_spec id' id) as [->|Hne]; [|reflexivity].
    destruct (String.eqb_spec (doc_id x) id); [congruence|reflexivity].
Qed.

Lemma other_than_absent (l : list D) :
  id ∉ doc_id <$> l ->
  map (fun x => if String.eqb (doc_id x) id then data x else x) l = l
  /\ other_than id l = l.
Proof.
  unfold other_than. induction l as [|x l IH]; [split; reflexivity|].
  rewrite fmap_cons, not_elem_of_cons. intros [Hx Hl].
  destruct (IH Hl) as [IH1 IH2]. cbn [map List.filter].
  destruct (String.eqb_spec (doc_id x) id) as [Heq|_]; [congruence|].
  cbn [negb]. rewrite IH1, IH2. split; reflexivity.
Qed.

Lemma updated_Permutation (l : list D) (d : D) :
  NoDup (doc_id <$> l) ->
  List.find (fun x => String.eqb (doc_id x) id) l = Some d ->
  map (fun x => if String.eqb (doc_id x) id then data x else x) l
  ≡ₚ data d :: other_than id l.
Proof.
  induction l as [|x l IH]; [discriminate|].
  rewrite fmap_cons, NoDup_cons. intros [Hx Hl]. cbn [List.find map].
  unfold other_than. cbn [List.filter].
  destruct (String.eqb_spec (doc_id x) id) as [Heq|Hne]; cbn [negb].
  - intros [= <-]. rewrite Heq in Hx.
    destruct (other_than_absent l Hx) as [-> Hsame].
    unfold other_than in Hsame. rewrite Hsame. reflexivity.
  - intros Hfind. rewrite (IH Hl Hfind). apply Permutation_swap.
Qed.

End OneDocument.

(** Runs of the methods that read, update or delete one document. *)
Section OneDocumentRuns.
Context {D : Type} `{Document D}.
Variable collection : string.
Variable content : Appwrite.World -> list D.
Variable put : list D -> Appwrite.World -> Appwrite.World.
Hypothesis content_faults : forall fs w, content (Appwrite.set_faults fs w) = content w.

Lemma get_method_run (id fallback : string) (w : Appwrite.World) :
  fst (Appwrite.try_catch
         (doc <- Appwrite.getDocument collection content id ;; Appwrite.ret (Success doc))
         (failed fallback) w)
  = Appwrite.Returned
      match Appwrite.fault_at 0 w with
      | Some e => Failure (Js.or_string (Js.message e) fallback)
      | None =>
          match List.find (fun d => String.eqb (doc_id d) id) (content w) with
          | Some d => Success d
          | None => Failure not_found_message
          end
      end.
Proof.
  unfold Appwrite.try_catch, Appwrite.bind, Appwrite.getDocument, Appwrite.request,
    Appwrite.fault_at.
  rewrite <- head_lookup.
  destruct (head (Appwrite.faults w)) as [[e|]|]; rewrite ?content_faults;
    [reflexivity | destruct (List.find _ (content w)); reflexivity ..].
Qed.

Lemma list_method_run (qs : list Query.t) (fallback : string) (w : Appwrite.World) :
  fst (Appwrite.try_catch
         (response <- Appwrite.listDocuments collection content qs ;;
          Appwrite.ret (Success (Appwrite.documents response)))
         (failed fallback) w)
  = Appwrite.Returned
      match Appwrite.fault_at 0 w with
      | Some e => Failure (Js.or_string (Js.message e) fallback)
      | None => Success (Appwrite.documents (Appwrite.select qs (content w)))
      end.
Proof.
  unfold Appwrite.try_catch, Appwrite.bind, Appwrite.listDocuments, Appwrite.request,
    Appwrite.fault_at.
  rewrite <- head_lookup.
  destruct (head (Appwrite.faults w)) as [[e|]|]; rewrite ?content_faults; reflexivity.
Qed.

Lemma update_method_run (id : string) (data : D -> D) (fallback : string)
      (w : Appwrite.World) :
  Appwrite.try_catch
    (doc <- Appwrite.updateDocument collection content put id data ;;
     Appwrite.ret (Success doc))
    (failed fallback) w
  = let w0 := Appwrite.set_faults (tail (Appwrite.faults w)) w in
    match Appwrite.fault_at 0 w with
    | Some e =>
        (Appwrite.Returned (Failure (Js.or_string (Js.message e) fallback)),
         Appwrite.record (Appwrite.Requested Appwrite.UpdateDocument collection false) w0)
    | None =>
        match List.find (fun d => String.eqb (doc_id d) id) (content w) with
        | Some d =>
            (Appwrite.Returned (Success (data d)),
             Appwrite.record (Appwrite.Requested Appwrite.UpdateDocument collection true)
               (put (map (fun x => if String.eqb (doc_id x) id then data x else x)
                         (content w)) w0))
        | None =>
            (Appwrite.Returned (Failure not_found_message),
             Appwrite.record (Appwrite.Requested Appwrite.UpdateDocument collection false) w0)
        end
    end.
Proof.
  unfold Appwrite.try_catch, Appwrite.bind, Appwrite.updateDocument, Appwrite.request,
    Appwrite.fault_at.
  rewrite <- head_lookup. cbv zeta.
  destruct (head (Appwrite.faults w)) as [[e|]|]; rewrite ?content_faults;
    [reflexivity | destruct (List.find _ (content w)); reflexivity ..].
Qed.

Lemma delete_method_run (id fallback : string) (w : Appwrite.World) :
  Appwrite.try_catch
    (_ <- Appwrite.deleteDocument collection content put id ;; Appwrite.ret (Success tt))
    (failed fallback) w
  = let w0 := Appwrite.set_faults (tail (Appwrite.faults w)) w in
    match Appwrite.fault_at 0 w with
    | Some e =>
        (Appwrite.Returned (Failure (Js.or_string (Js.message e) fallback)),
         Appwrite.record (Appwrite.Requested Appwrite.DeleteDocument collection false) w0)
    | None =>
        match List.find (fun d => String.eqb (doc_id d) id) (content w) with
        | Some d =>
            (Appwrite.Returned (Success tt),
             Appwrite.record (Appwrite.Requested Appwrite.DeleteDocument collection true)
               (put (other_than id (content w)) w0))
        | None =>
            (Appwrite.Returned (Failure not_found_message),
             Appwrite.record (Appwrite.Requested Appwrite.DeleteDocument collection false) w0)
        end
    end.
Proof.
  unfold Appwrite.try_catch, Appwrite.bind, Appwrite.deleteDocument, Appwrite.request,
    Appwrite.fault_at.
  rewrite <- head_lookup. cbv zeta.
  destruct (head (Appwrite.faults w)) as [[e|]|]; rewrite ?content_faults;
    [reflexivity | destruct (List.find _ (content w)); reflexivity ..].
Qed.

End OneDocumentRuns.

Lemma fault_after_dispute_write (n : nat) (e : Appwrite.Event) (x : list Dispute.t)
      (w : Appwrite.World) :
  Appwrite.fault_at n
    (Appwrite.record e (set_disputes x (Appwrite.set_faults (tail (Appwrite.faults w)) w)))
  = Appwrite.fault_at (S n) w.
Proof. unfold Appwrite.fault_at. cbn. rewrite lookup_tail. reflexivity. Qed.

Lemma fault_after_payment_write (n : nat) (e : Appwrite.Event) (x : list Payment.t)
      (w : Appwrite.World) :
  Appwrite.fault_at n
    (Appwrite.record e (set_payments x (Appwrite.set_faults (tail (Appwrite.faults w)) w)))
  = Appwrite.fault_at (S n) w.
Proof. unfold Appwrite.fault_at. cbn. rewrite lookup_tail. reflexivity. Qed.

Lemma dispute_getById_run (disputeId : string) (w : Appwrite.World) :
  fst (DisputeWrites.getById disputeId w)
  = Appwrite.Returned
      match Appwrite.fault_at 0 w with
      | Some e => Failure (Js.or_string (Js.message e) "Failed to fetch dispute")
      | None =>
          match List.find (fun d => String.eqb (doc_id d) disputeId) (Appwrite.disputes w) with
          | Some d => Success d
          | None => Failure not_found_message
          end
      end.
Proof. apply (get_method_run COLLECTION_IDS.DISPUTES Appwrite.disputes disputes_faults). Qed.

(** A successful update of the dispute [disputeId] with the patch [data]
    is read back, and leaves the other disputes as they were. *)
Lemma dispute_update_written (w : Appwrite.World) (disputeId fallback : string)
      (data : Dispute.t -> Dispute.t) (d : Dispute.t) :
  (forall x, doc_id (data x) = doc_id x) ->
  List.find (fun x => String.eqb (doc_id x) disputeId) (Appwrite.disputes w) = Some d ->
  Appwrite.fault_at 0 w = None -> Appwrite.fault_at 1 w = None ->
  dispute_written w disputeId (data d)
    (Appwrite.try_catch
       (doc <- Appwrite.updateDocument COLLECTION_IDS.DISPUTES Appwrite.disputes
                 set_disputes disputeId data ;;
        Appwrite.ret (Success doc))
       (failed fallback) w).
Proof.
  intros Hid Hfind H0 H1. unfold dispute_written.
  rewrite (update_method_run COLLECTION_IDS.DISPUTES Appwrite.disputes set_disputes
             disputes_faults).
  cbv zeta. rewrite H0, Hfind. cbn [fst snd].
  split; [reflexivity|]. split.
  - rewrite dispute_getById_run, fault_after_dispute_write, H1.
    cbn [Appwrite.record Appwrite.set_trace set_disputes Appwrite.disputes].
    rewrite (find_updated disputeId data Hid), Hfind.
    destruct (String.eqb_spec disputeId disputeId); [reflexivity|congruence].
  - intros other Hother.
    rewrite !dispute_getById_run, fault_after_dispute_write, H0, H1.
    cbn [Appwrite.record Appwrite.set_trace set_disputes Appwrite.disputes].
    rewrite (find_updated disputeId data Hid).
    destruct (String.eqb_spec other disputeId); [congruence|reflexivity].
Qed.

(** A status, an assignment or a priority written to a stored dispute,
    the two requests being answered, comes back from a later [getById]
    and changes no other dispute. [updateStatus] writes the status it is
    given; it writes [resolved_at] only for a status resolved for one of
    the parties together with a resolution text, and the admin only for
    ['under_review'] together with an admin id. *)
Theorem dispute_updates_are_read_back (w : Appwrite.World) (disputeId : string)
        (d : Dispute.t) :
  List.find (fun x => String.eqb (doc_id x) disputeId) (Appwrite.disputes w) = Some d ->
  Appwrite.fault_at 0 w = None -> Appwrite.fault_at 1 w = None ->
  (forall status adminId resolution,
      exists d',
        dispute_written w disputeId d'
          (DisputeWrites.updateStatus disputeId status adminId resolution w)
        /\ same_case d d' /\ Dispute.status d' = status
        /\ Dispute.priority d' = Dispute.priority d
        /\ Dispute.resolved_at d'
           = (if resolved_for_a_party status && Js.truthy_opt_string resolution
              then Some (Appwrite.now w) else Dispute.resolved_at d)
        /\ Dispute.assigned_admin_id d'
           = (if String.eqb status "under_review" && Js.truthy_opt_string adminId
              then adminId else Dispute.assigned_admin_id d))
  /\ (forall adminId,
         exists d',
           dispute_written w disputeId d' (DisputeWrites.assignToAdmin disputeId adminId w)
           /\ same_case d d' /\ Dispute.status d' = "under_review"%string
           /\ Dispute.priority d' = Dispute.priority d
           /\ Dispute.resolved_at d' = Dispute.resolved_at d
           /\ Dispute.assigned_admin_id d' = Some adminId)
  /\ (forall priority,
         exists d',
           dispute_written w disputeId d' (DisputeWrites.updatePriority disputeId priority w)
           /\ same_case d d' /\ Dispute.status d' = Dispute.status d
           /\ Dispute.priority d' = priority
           /\ Dispute.resolved_at d' = Dispute.resolved_at d
           /\ Dispute.assigned_admin_id d' = Dispute.assigned_admin_id d).
Proof.
  intros Hfind H0 H1. split; [|split].
  - intros status adminId resolution.
    exists (DisputeWrites.updateStatus_data status adminId resolution (Appwrite.now w) d).
    split.
    + apply (dispute_update_written w disputeId "Failed to update dispute status"
               (DisputeWrites.updateStatus_data status adminId resolution (Appwrite.now w)) d);
        try assumption.
      intros x. unfold DisputeWrites.updateStatus_data. cbv zeta.
      repeat match goal with |- context [if ?b then _ else _] => destruct b end;
        reflexivity.
    + unfold DisputeWrites.updateStatus_data, resolved_for_a_party, same_case. cbv zeta.
      destruct (String.eqb_spec status "under_review") as [->|_].
      * destruct adminId as [a|]; cbn; [|repeat split].
        destruct (Js.truthy_string a); cbn; repeat split.
      * cbn [andb].
        destruct (String.eqb status "resolved_in_favor_of_seeker"
                  || String.eqb status "resolved_in_favor_of_provider");
          cbn [andb]; [destruct (Js.truthy_opt_string resolution)|];
          try destruct (String.eqb status "cancelled"); cbn; repeat split.
  - intros adminId. eexists. split.
    + apply (dispute_update_written w disputeId "Failed to assign dispute to admin"
               (fun d => DisputeWrites.with_status "under_review"
                           (DisputeWrites.with_admin adminId d)) d);
        try assumption.
      reflexivity.
    + cbn. unfold same_case. repeat split.
  - intros priority. eexists. split.
    + apply (dispute_update_written w disputeId "Failed to update dispute priority"
               (DisputeWrites.with_priority priority) d); try assumption.
      reflexivity.
    + cbn. unfold same_case. repeat split.
Qed.

Lemma dispute_updates_are_read_back_witness :
  exists d',
    dispute_written Lifecycle.started "d1" d'
      (DisputeWrites.updateStatus "d1" "resolved_in_favor_of_seeker" None
                                  (Some "work redone"%string) Lifecycle.started)
    /\ Dispute.resolved_at d' = Some (Appwrite.now Lifecycle.started).
Proof.
  destruct (proj1 (dispute_updates_are_read_back Lifecycle.started "d1" Lifecycle.raised
                     eq_refl eq_refl eq_refl)
              "resolved_in_favor_of_seeker"%string None (Some "work redone"%string))
    as (d' & Hwritten & _ & _ & _ & Hresolved & _).
  exists d'. split; [exact Hwritten | exact Hresolved].
Defined.

(** ** DisputeService.delete *)

(** [delete] of a stored dispute, the requests being answered, removes
    it: a later [getById] fails with the store's message for a missing
    document, and every other dispute is read as before. [delete] of an
    id the store does not hold fails with that message and removes
    nothing. *)
Theorem deleted_dispute_is_gone (w : Appwrite.World) (disputeId : string) :
  Appwrite.fault_at 0 w = None -> Appwrite.fault_at 1 w = None ->
  let run := DisputeWrites.delete disputeId w in
  match List.find (fun x => String.eqb (doc_id x) disputeId) (Appwrite.disputes w) with
  | Some d =>
      fst run = Appwrite.Returned (Success tt)
      /\ fst (DisputeWrites.getById disputeId (snd run))
         = Appwrite.Returned (Failure not_found_message)
      /\ (forall other, other <> disputeId ->
                        fst (DisputeWrites.getById other (snd run))
                        = fst (DisputeWrites.getById other w))
      /\ Appwrite.disputes (snd run) = other_than disputeId (Appwrite.disputes w)
  | None =>
      fst run = Appwrite.Returned (Failure not_found_message)
      /\ Appwrite.disputes (snd run) = Appwrite.disputes w
  end.
Proof.
  intros H0 H1. cbv zeta. unfold DisputeWrites.delete.
  rewrite (delete_method_run COLLECTION_IDS.DISPUTES Appwrite.disputes set_disputes
             disputes_faults).
  cbv zeta. rewrite H0.
  destruct (List.find _ (Appwrite.disputes w)) as [d|] eqn:Hfind; cbn [fst snd].
  - split; [reflexivity|]. split; [|split].
    + rewrite dispute_getById_run, fault_after_dispute_write, H1.
      cbn [Appwrite.record Appwrite.set_trace set_disputes Appwrite.disputes].
      rewrite find_other_than.
      destruct (String.eqb_spec disputeId disputeId); [reflexivity|congruence].
    + intros other Hother.
      rewrite !dispute_getById_run, fault_after_dispute_write, H0, H1.
      cbn [Appwrite.record Appwrite.set_trace set_disputes Appwrite.disputes].
      rewrite find_other_than.
      destruct (String.eqb_spec other disputeId); [congruence|reflexivity].
    + reflexivity.
  - split; reflexivity.
Qed.

Lemma deleted_dispute_is_gone_witness :
  fst (DisputeWrites.getById "d1" (snd (DisputeWrites.delete "d1" Lifecycle.started)))
  = Appwrite.Returned (Failure not_found_message).
Proof.
  exact (proj1 (proj2 (deleted_dispute_is_gone Lifecycle.started "d1" eq_refl eq_refl))).
Defined.

(** ** getByJobId *)

Lemma job_matches {D : Type} `{Document D} (jobId : string) (l : list D) :
  Appwrite.documents
    (Appwrite.select [Query.equal "job_id" jobId; Query.orderDesc "created_at"] l)
  ≡ₚ List.filter (fun d => bool_decide (doc_attribute d "job_id" = Some jobId)) l.
Proof.
  unfold Appwrite.select.
  cbn [Appwrite.documents Appwrite.limit_of Appwrite.offset_of Appwrite.ordered_desc
       existsb orb String.eqb Ascii.eqb Bool.eqb andb].
  rewrite drop_0, sort_Permutation.
  erewrite filter_ext; [reflexivity|].
  intros d. cbn. rewrite andb_true_r. reflexivity.
Qed.

(** When its request is answered, [getByJobId] of the disputes and of
    the payments returns the stored documents of that job, each as often
    as it is stored and no other, newest first. *)
Theorem job_lists_hold_the_documents_of_the_job (w : Appwrite.World) (jobId : string) :
  Appwrite.fault_at 0 w = None ->
  (exists l, fst (DisputeWrites.getByJobId jobId w) = Appwrite.Returned (Success l)
             /\ l ≡ₚ List.filter (fun d => bool_decide (Dispute.job_id d = jobId))
                                 (Appwrite.disputes w)
             /\ Sorted newer_or_same l)
  /\ (exists l, fst (PaymentWrites.getByJobId jobId w) = Appwrite.Returned (Success l)
                /\ l ≡ₚ List.filter (fun p => bool_decide (Payment.job_id p = jobId))
                                    (Appwrite.payments w)
                /\ Sorted newer_or_same l).
Proof.
  intros H0. split.
  - unfold DisputeWrites.getByJobId.
    rewrite (list_method_run COLLECTION_IDS.DISPUTES Appwrite.disputes disputes_faults), H0.
    eexists. split; [reflexivity|]. split; [|apply select_Sorted; reflexivity].
    rewrite job_matches. erewrite filter_ext; [reflexivity|].
    intros d. cbn. apply bool_decide_ext. split; congruence.
  - unfold PaymentWrites.getByJobId.
    rewrite (list_method_run COLLECTION_IDS.PAYMENTS Appwrite.payments payments_faults), H0.
    eexists. split; [reflexivity|]. split; [|apply select_Sorted; reflexivity].
    rewrite job_matches. erewrite filter_ext; [reflexivity|].
    intros d. cbn. apply bool_decide_ext. split; congruence.
Qed.

Lemma job_lists_hold_the_documents_of_the_job_witness :
  exists l, fst (PaymentWrites.getByJobId "j1" Lifecycle.started)
            = Appwrite.Returned (Success l)
            /\ l ≡ₚ List.filter (fun p => bool_decide (Payment.job_id p = "j1"%string))
                                (Appwrite.payments Lifecycle.started)
            /\ Sorted newer_or_same l.
Proof.
  exact (proj2 (job_lists_hold_the_documents_of_the_job Lifecycle.started "j1" eq_refl)).
Defined.

(** ** From a write of a dispute to the workload of its admin *)

Lemma getAdminWorkload_run (adminId : string) (w : Appwrite.World) :
  fst (DisputeService.getAdminWorkload adminId w)
  = Appwrite.Returned
      match Appwrite.fault_at 0 w with
      | Some e => Failure (Js.or_string (Js.message e) "Failed to fetch admin workload")
      | None =>
          Success (DisputeService.workload_of
                     (Appwrite.documents
                        (Appwrite.select
                           [Query.equal "assigned_admin_id" adminId;
                            Query.orderDesc "created_at"] (Appwrite.disputes w))))
      end.
Proof.
  unfold DisputeService.getAdminWorkload, Appwrite.try_catch, Appwrite.bind.
  rewrite (listDocuments_run COLLECTION_IDS.DISPUTES Appwrite.disputes disputes_faults).
  destruct (Appwrite.fault_at 0 w); reflexivity.
Qed.

Lemma assigned_matches (adminId : string) (l : list Dispute.t) :
  Appwrite.documents
    (Appwrite.select [Query.equal "assigned_admin_id" adminId; Query.orderDesc "created_at"] l)
  ≡ₚ assigned_to adminId l.
Proof.
  unfold Appwrite.select, assigned_to.
  cbn [Appwrite.documents Appwrite.limit_of Appwrite.offset_of Appwrite.ordered_desc
       existsb orb String.eqb Ascii.eqb Bool.eqb andb].
  rewrite drop_0, sort_Permutation.
  erewrite filter_ext; [reflexivity|].
  intros d. cbn. rewrite andb_true_r. reflexivity.
Qed.

(** The workload of [adminId] after a successful update of the dispute
    [disputeId] that leaves it assigned to [adminId]: that of a response
    holding the updated dispute and the other disputes of the admin. *)
Lemma workload_after_update (w : Appwrite.World) (disputeId adminId fallback : string)
      (data : Dispute.t -> Dispute.t) (d : Dispute.t) :
  (forall x, doc_id (data x) = doc_id x) ->
  Dispute.assigned_admin_id (data d) = Some adminId ->
  NoDup (Dispute.id <$> Appwrite.disputes w) ->
  List.find (fun x => String.eqb (doc_id x) disputeId) (Appwrite.disputes w) = Some d ->
  Appwrite.fault_at 0 w = None -> Appwrite.fault_at 1 w = None ->
  exists response,
    fst (DisputeService.getAdminWorkload adminId
           (snd (Appwrite.try_catch
                   (doc <- Appwrite.updateDocument COLLECTION_IDS.DISPUTES Appwrite.disputes
                             set_disputes disputeId data ;;
                    Appwrite.ret (Success doc))
                   (failed fallback) w)))
    = Appwrite.Returned (Success (DisputeService.workload_of response))
    /\ response ≡ₚ data d :: assigned_to adminId (other_than disputeId (Appwrite.disputes w)).
Proof.
  intros Hid Hassigned Hnodup Hfind H0 H1.
  rewrite (update_method_run COLLECTION_IDS.DISPUTES Appwrite.disputes set_disputes
             disputes_faults).
  cbv zeta. rewrite H0, Hfind. cbn [snd].
  rewrite getAdminWorkload_run, fault_after_dispute_write, H1.
  cbn [Appwrite.record Appwrite.set_trace set_disputes Appwrite.disputes].
  eexists. split; [reflexivity|].
  rewrite assigned_matches.
  unfold assigned_to.
  rewrite (filter_keeps_Permutation _ _ _
             (@updated_Permutation Dispute.t Dispute_Document disputeId data
                (Appwrite.disputes w) d Hnodup Hfind)).
  cbn [List.filter].
  rewrite Hassigned, bool_decide_eq_true_2 by reflexivity. reflexivity.
Qed.

(** Ids being unique and the requests answered: after [assignToAdmin],
    the workload of that admin counts the dispute as assigned and under
    review. After [updateStatus] to a status resolved for one of the
    parties, on a dispute assigned to the admin, the dispute stays in the
    workload; it is counted in [resolved] when a resolution text came
    with the status, and otherwise only if it carried [resolved_at]
    before. *)
Theorem writes_reach_the_workload (w : Appwrite.World) (disputeId adminId : string)
        (d : Dispute.t) :
  NoDup (Dispute.id <$> Appwrite.disputes w) ->
  List.find (fun x => String.eqb (doc_id x) disputeId) (Appwrite.disputes w) = Some d ->
  Appwrite.fault_at 0 w = None -> Appwrite.fault_at 1 w = None ->
  let others := assigned_to adminId (other_than disputeId (Appwrite.disputes w)) in
  (exists workload,
      fst (DisputeService.getAdminWorkload adminId
             (snd (DisputeWrites.assignToAdmin disputeId adminId w)))
      = Appwrite.Returned (Success workload)
      /\ DisputeService.totalAssigned workload = S (length others)
      /\ DisputeService.inReview workload
         = S (occurrences Dispute.status "under_review"%string others)
      /\ DisputeService.resolved workload = length (spec_resolution_hours others))
  /\ (forall status anyAdmin resolution,
         resolved_for_a_party status = true ->
         Dispute.assigned_admin_id d = Some adminId ->
         let resolved_at :=
           if Js.truthy_opt_string resolution then Some (Appwrite.now w)
           else Dispute.resolved_at d in
         exists workload,
           fst (DisputeService.getAdminWorkload adminId
                  (snd (DisputeWrites.updateStatus disputeId status anyAdmin resolution w)))
           = Appwrite.Returned (Success workload)
           /\ DisputeService.totalAssigned workload = S (length others)
           /\ DisputeService.inReview workload
              = occurrences Dispute.status "under_review"%string others
           /\ DisputeService.resolved workload
              = (length (option_list resolved_at)
                 + length (spec_resolution_hours others))%nat).
Proof.
  intros Hnodup Hfind H0 H1. cbv zeta. split.
  - destruct (workload_after_update w disputeId adminId "Failed to assign dispute to admin"
                (fun d => DisputeWrites.with_status "under_review"
                            (DisputeWrites.with_admin adminId d)) d)
      as (response & Hrun & Hperm); try assumption; try reflexivity.
    eexists. split; [exact Hrun|].
    destruct (workload_of_fields response) as (-> & -> & -> & _).
    rewrite (Permutation_length Hperm),
      (occurrences_Permutation Dispute.status _ _ _ Hperm),
      (spec_resolution_hours_Permutation _ _ Hperm).
    repeat split.
  - intros status anyAdmin resolution Hresolved Hassigned.
    assert (Hreview : String.eqb status "under_review" = false).
    { unfold resolved_for_a_party in Hresolved.
      destruct (String.eqb_spec status "under_review") as [->|_]; [discriminate|reflexivity]. }
    assert (Hdata : DisputeWrites.updateStatus_data status anyAdmin resolution
                      (Appwrite.now w) d
                    = if Js.truthy_opt_string resolution
                      then DisputeWrites.with_resolved_at (Appwrite.now w)
                             (DisputeWrites.with_status status d)
                      else DisputeWrites.with_status status d).
    { unfold DisputeWrites.updateStatus_data. cbv zeta.
      unfold resolved_for_a_party in Hresolved. rewrite Hreview, Hresolved. cbn [andb].
      destruct (Js.truthy_opt_string resolution); [reflexivity|].
      destruct (String.eqb status "cancelled"); reflexivity. }
    destruct (workload_after_update w disputeId adminId "Failed to update dispute status"
                (DisputeWrites.updateStatus_data status anyAdmin resolution (Appwrite.now w))
                d)
      as (response & Hrun & Hperm); try assumption.
    { intros x. unfold DisputeWrites.updateStatus_data. cbv zeta.
      repeat match goal with |- context [if ?b then _ else _] => destruct b end;
        reflexivity. }
    { rewrite Hdata. destruct (Js.truthy_opt_string resolution); exact Hassigned. }
    eexists. split; [exact Hrun|].
    destruct (workload_of_fields response) as (-> & -> & -> & _).
    rewrite (Permutation_length Hperm),
      (occurrences_Permutation Dispute.status _ _ _ Hperm),
      (spec_resolution_hours_Permutation _ _ Hperm).
    rewrite Hdata.
    unfold occurrences, spec_resolution_hours. cbn [List.filter omap list_omap length].
    unfold resolved_for_a_party in Hresolved.
    destruct (Js.truthy_opt_string resolution);
      cbn [DisputeWrites.with_resolved_at DisputeWrites.with_status Dispute.status
           Dispute.resolved_at Dispute.created_at];
      rewrite Hresolved, bool_decide_string, Hreview;
      [|destruct (Dispute.resolved_at d)];
      repeat split.
Qed.

Lemma writes_reach_the_workload_witness :
  exists workload,
    fst (DisputeService.getAdminWorkload "admin"
           (snd (DisputeWrites.assignToAdmin "d1" "admin" Lifecycle.started)))
    = Appwrite.Returned (Success workload)
    /\ DisputeService.totalAssigned workload = 1%nat
    /\ DisputeService.inReview workload = 1%nat
    /\ DisputeService.resolved workload = 0%nat.
Proof.
  exact (proj1 (writes_reach_the_workload Lifecycle.started "d1" "admin" Lifecycle.raised
                  (NoDup_singleton _) eq_refl eq_refl eq_refl)).
Defined.

(** ** From a write of a payment to the payment statistics *)

Lemma payment_getStats_run (w : Appwrite.World) :
  fst (PaymentService.getStats None w)
  = Appwrite.Returned
      match Appwrite.fault_at 0 w with
      | Some e => Failure (Js.or_string (Js.message e) "Failed to fetch payment statistics")
      | None =>
          Success (PaymentService.stats_of
                     (Appwrite.documents
                        (Appwrite.select [Query.orderDesc "created_at"]
                                         (Appwrite.payments w))))
      end.
Proof.
  unfold PaymentService.getStats, Appwrite.try_catch, Appwrite.bind.
  rewrite (listDocuments_run COLLECTION_IDS.PAYMENTS Appwrite.payments payments_faults).
  destruct (Appwrite.fault_at 0 w); reflexivity.
Qed.

Lemma all_by_date {D : Type} `{Document D} (l : list D) :
  Appwrite.documents (Appwrite.select [Query.orderDesc "created_at"] l)
  = Js.sort by_created_at_desc l.
Proof.
  unfold Appwrite.select.
  cbn [Appwrite.documents Appwrite.limit_of Appwrite.offset_of Appwrite.ordered_desc
       existsb orb String.eqb Ascii.eqb Bool.eqb andb].
  rewrite drop_0. f_equal.
  induction l as [|x l IH]; [reflexivity|]. cbn. f_equal. exact IH.
Qed.

Lemma filter_has_status_cons (bucket : string) (p : Payment.t) (l : list Payment.t) :
  List.filter (has_status bucket) (p :: l)
  = (if String.eqb (Payment.status p) bucket then [p] else [])
    ++ List.filter (has_status bucket) l.
Proof.
  cbn [List.filter]. unfold has_status at 1.
  destruct (String.eqb (Payment.status p) bucket); reflexivity.
Qed.

(** The statistics after a successful write of the status [status] to
    the payment [paymentId]. *)
Lemma stats_after_status (w : Appwrite.World) (paymentId status fallback : string)
      (p : Payment.t) :
  NoDup (Payment.id <$> Appwrite.payments w) ->
  List.find (fun x => String.eqb (doc_id x) paymentId) (Appwrite.payments w) = Some p ->
  Appwrite.fault_at 0 w = None -> Appwrite.fault_at 1 w = None ->
  exists stats response,
    fst (PaymentService.getStats None
           (snd (Appwrite.try_catch
                   (doc <- Appwrite.updateDocument COLLECTION_IDS.PAYMENTS Appwrite.payments
                             set_payments paymentId (PaymentWrites.with_status status) ;;
                    Appwrite.ret (Success doc))
                   (failed fallback) w)))
    = Appwrite.Returned (Success stats)
    /\ moved_to status (PaymentWrites.with_status status p)
                (other_than paymentId (Appwrite.payments w)) response stats.
Proof.
  intros Hnodup Hfind H0 H1.
  rewrite (update_method_run COLLECTION_IDS.PAYMENTS Appwrite.payments set_payments
             payments_faults).
  cbv zeta. rewrite H0, Hfind. cbn [snd].
  rewrite payment_getStats_run, fault_after_payment_write, H1.
  cbn [Appwrite.record Appwrite.set_trace set_payments Appwrite.payments].
  rewrite all_by_date.
  pose proof (@updated_Permutation Payment.t Payment_Document paymentId
                (PaymentWrites.with_status status) (Appwrite.payments w) p Hnodup Hfind)
    as Hupdated.
  set (updated := map _ (Appwrite.payments w)) in *.
  eexists. exists (Js.sort by_created_at_desc updated). split; [reflexivity|].
  assert (Hperm : Js.sort by_created_at_desc updated
                  ≡ₚ PaymentWrites.with_status status p
                     :: other_than paymentId (Appwrite.payments w))
    by (rewrite sort_Permutation; exact Hupdated).
  assert (Hcounted : forall bucket : string,
             List.filter (has_status bucket) (Js.sort by_created_at_desc updated)
             ≡ₚ (if String.eqb status bucket then [PaymentWrites.with_status status p]
                 else [])
                ++ List.filter (has_status bucket)
                               (other_than paymentId (Appwrite.payments w))).
  { intros bucket.
    rewrite (filter_keeps_Permutation _ _ _ Hperm), filter_has_status_cons.
    reflexivity. }
  unfold moved_to. cbv zeta.
  destruct (payment_stats_of_fields (Js.sort by_created_at_desc updated))
    as (-> & -> & -> & -> & ->).
  repeat apply conj; try reflexivity; try apply Hcounted.
  - exact Hperm.
  - apply sort_Sorted.
  - rewrite (Permutation_length Hperm). reflexivity.
Qed.

Lemma found_Permutation (paymentId : string) (payments : list Payment.t) (p : Payment.t) :
  NoDup (Payment.id <$> payments) ->
  List.find (fun x => String.eqb (doc_id x) paymentId) payments = Some p ->
  payments ≡ₚ p :: other_than paymentId payments.
Proof.
  intros Hnodup Hfind.
  pose proof (@updated_Permutation Payment.t Payment_Document paymentId (fun x => x)
                payments p Hnodup Hfind) as Hperm.
  assert (Hsame : map (fun x : Payment.t => if String.eqb (doc_id x) paymentId then x else x)
                      payments = payments).
  { clear. induction payments as [|x l IH]; [reflexivity|].
    cbn [map]. rewrite IH. destruct (String.eqb (doc_id x) paymentId); reflexivity. }
  cbv beta in Hperm. rewrite Hsame in Hperm. exact Hperm.
Qed.

(** Ids being unique and the requests answered: after [releaseEscrow],
    [refundEscrow] or [updateStatus] of a stored payment, [getStats]
    sums over a response that holds that payment with its new status
    (completed, refunded, or the status given) and the other payments as
    they were, newest first. The payment is then among the payments
    summed under the amount of its new status and under no other; the
    other payments are summed where they were; each amount is the sum in
    double precision in the order of that response; and the number of
    transactions is the number of stored payments. *)
Theorem escrow_writes_move_the_amount (w : Appwrite.World) (paymentId : string)
        (p : Payment.t) :
  NoDup (Payment.id <$> Appwrite.payments w) ->
  List.find (fun x => String.eqb (doc_id x) paymentId) (Appwrite.payments w) = Some p ->
  Appwrite.fault_at 0 w = None -> Appwrite.fault_at 1 w = None ->
  let others := other_than paymentId (Appwrite.payments w) in
  (exists stats response,
      fst (PaymentService.getStats None (snd (PaymentWrites.releaseEscrow paymentId w)))
      = Appwrite.Returned (Success stats)
      /\ moved_to "completed" (PaymentWrites.with_status "completed" p)
                  others response stats)
  /\ (forall reason,
         exists stats response,
           fst (PaymentService.getStats None
                  (snd (PaymentWrites.refundEscrow paymentId reason w)))
           = Appwrite.Returned (Success stats)
           /\ moved_to "refunded" (PaymentWrites.with_status "refunded" p)
                       others response stats)
  /\ (forall status,
         exists stats response,
           fst (PaymentService.getStats None
                  (snd (PaymentWrites.updateStatus paymentId status w)))
           = Appwrite.Returned (Success stats)
           /\ moved_to status (PaymentWrites.with_status status p) others response stats)
  /\ length (Appwrite.payments w) = S (length others).
Proof.
  intros Hnodup Hfind H0 H1. cbv zeta. split; [|split; [|split]].
  - apply (stats_after_status w paymentId "completed" "Failed to release escrow payment" p);
      assumption.
  - intros reason.
    apply (stats_after_status w paymentId "refunded" "Failed to refund escrow payment" p);
      assumption.
  - intros status.
    apply (stats_after_status w paymentId status "Failed to update payment status" p);
      assumption.
  - rewrite (Permutation_length (found_Permutation paymentId _ p Hnodup Hfind)).
    reflexivity.
Qed.

Lemma escrow_writes_move_the_amount_witness :
  exists stats response,
    fst (PaymentService.getStats None
           (snd (PaymentWrites.releaseEscrow "p1" Lifecycle.started)))
    = Appwrite.Returned (Success stats)
    /\ moved_to "completed" (PaymentWrites.with_status "completed" Lifecycle.held)
                [Lifecycle.settled] response stats.
Proof.
  exact (proj1 (escrow_writes_move_the_amount Lifecycle.started "p1" Lifecycle.held
                  (bool_decide_unpack
                     (NoDup (Payment.id <$> Appwrite.payments Lifecycle.started)) I)
                  eq_refl eq_refl eq_refl)).
Defined.

(** ** Failures of the methods on one document *)

Lemma payment_getById_run (paymentId : string) (w : Appwrite.World) :
  fst (PaymentWrites.getById paymentId w)
  = Appwrite.Returned
      match Appwrite.fault_at 0 w with
      | Some e => Failure (Js.or_string (Js.message e) "Failed to fetch payment")
      | None =>
          match List.find (fun d => String.eqb (doc_id d) paymentId) (Appwrite.payments w) with
          | Some d => Success d
          | None => Failure not_found_message
          end
      end.
Proof. apply (get_method_run COLLECTION_IDS.PAYMENTS Appwrite.payments payments_faults). Qed.

Lemma dispute_update_answers (w : Appwrite.World) (disputeId fallback : string)
      (data : Dispute.t -> Dispute.t) :
  answers_like Appwrite.disputes disputeId fallback w
    (Appwrite.try_catch
       (doc <- Appwrite.updateDocument COLLECTION_IDS.DISPUTES Appwrite.disputes
                 set_disputes disputeId data ;;
        Appwrite.ret (Success doc))
       (failed fallback) w).
Proof.
  unfold answers_like.
  rewrite (update_method_run COLLECTION_IDS.DISPUTES Appwrite.disputes set_disputes
             disputes_faults).
  cbv zeta. destruct (Appwrite.fault_at 0 w); [split; reflexivity|].
  destruct (List.find _ (Appwrite.disputes w)); [eexists; reflexivity | split; reflexivity].
Qed.

Lemma payment_update_answers (w : Appwrite.World) (paymentId fallback : string)
      (data : Payment.t -> Payment.t) :
  answers_like Appwrite.payments paymentId fallback w
    (Appwrite.try_catch
       (doc <- Appwrite.updateDocument COLLECTION_IDS.PAYMENTS Appwrite.payments
                 set_payments paymentId data ;;
        Appwrite.ret (Success doc))
       (failed fallback) w).
Proof.
  unfold answers_like.
  rewrite (update_method_run COLLECTION_IDS.PAYMENTS Appwrite.payments set_payments
             payments_faults).
  cbv zeta. destruct (Appwrite.fault_at 0 w); [split; reflexivity|].
  destruct (List.find _ (Appwrite.payments w)); [eexists; reflexivity | split; reflexivity].
Qed.

(** Whatever the store does, the methods that read, update or delete one
    dispute or one payment return a response and never throw: a rejected
    request gives a failure with the message of the error, or the
    method's own text when the error has none; an id the store does not
    hold gives a failure with the store's message; in both cases the
    collection is left as it was. *)
Theorem one_document_methods_report_failures (w : Appwrite.World) (id : string) :
  (answers_like Appwrite.disputes id "Failed to fetch dispute" w
     (DisputeWrites.getById id w)
   /\ (forall status adminId resolution,
          answers_like Appwrite.disputes id "Failed to update dispute status" w
            (DisputeWrites.updateStatus id status adminId resolution w))
   /\ (forall adminId,
          answers_like Appwrite.disputes id "Failed to assign dispute to admin" w
            (DisputeWrites.assignToAdmin id adminId w))
   /\ (forall priority,
          answers_like Appwrite.disputes id "Failed to update dispute priority" w
            (DisputeWrites.updatePriority id priority w))
   /\ answers_like Appwrite.disputes id "Failed to delete dispute" w
        (DisputeWrites.delete id w))
  /\ (answers_like Appwrite.payments id "Failed to fetch payment" w
        (PaymentWrites.getById id w)
      /\ (forall status,
             answers_like Appwrite.payments id "Failed to update payment status" w
               (PaymentWrites.updateStatus id status w))
      /\ answers_like Appwrite.payments id "Failed to release escrow payment" w
           (PaymentWrites.releaseEscrow id w)
      /\ (forall reason,
             answers_like Appwrite.payments id "Failed to refund escrow payment" w
               (PaymentWrites.refundEscrow id reason w))).
Proof.
  split; repeat apply conj; intros;
    try apply dispute_update_answers; try apply payment_update_answers.
  - unfold answers_like. rewrite dispute_getById_run.
    unfold DisputeWrites.getById, Appwrite.try_catch, Appwrite.bind, Appwrite.getDocument,
      Appwrite.request, Appwrite.fault_at.
    rewrite <- head_lookup.
    destruct (head (Appwrite.faults w)) as [[e|]|]; cbn [Appwrite.disputes Appwrite.set_faults];
      [split; reflexivity | destruct (List.find _ (Appwrite.disputes w)) ..];
      first [eexists; reflexivity | split; reflexivity].
  - unfold answers_like, DisputeWrites.delete.
    rewrite (delete_method_run COLLECTION_IDS.DISPUTES Appwrite.disputes set_disputes
               disputes_faults).
    cbv zeta. destruct (Appwrite.fault_at 0 w); [split; reflexivity|].
    destruct (List.find _ (Appwrite.disputes w)); [eexists; reflexivity | split; reflexivity].
  - unfold answers_like. rewrite payment_getById_run.
    unfold PaymentWrites.getById, Appwrite.try_catch, Appwrite.bind, Appwrite.getDocument,
      Appwrite.request, Appwrite.fault_at.
    rewrite <- head_lookup.
    destruct (head (Appwrite.faults w)) as [[e|]|]; cbn [Appwrite.payments Appwrite.set_faults];
      [split; reflexivity | destruct (List.find _ (Appwrite.payments w)) ..];
      first [eexists; reflexivity | split; reflexivity].
Qed.

(** ** DisputeService.getAll without a user filter *)

Lemma wanted_push_if (filter : option string) (attribute : string) (d : Dispute.t)
      (value : string) :
  doc_attribute d attribute = Some value ->
  forallb (fun q => Appwrite.satisfies q d)
          (DisputeService.push_if filter (Query.equal attribute))
  = wanted filter value.
Proof.
  intros Hattribute. unfold DisputeService.push_if, wanted.
  destruct filter as [x|]; [|reflexivity].
  destruct (Js.truthy_string x); [|reflexivity].
  cbn [forallb Appwrite.satisfies]. rewrite Hattribute, andb_true_r.
  destruct (String.eqb_spec value x) as [->|Hne].
  - apply bool_decide_eq_true_2. reflexivity.
  - apply bool_decide_eq_false_2. congruence.
Qed.

Lemma getAll_queries_pass (filters : DisputeService.Filters) (limit offset : nat)
      (d : Dispute.t) :
  Appwrite.matches (DisputeService.getAll_queries filters limit offset) d = passes filters d.
Proof.
  unfold Appwrite.matches, DisputeService.getAll_queries, passes.
  rewrite !forallb_app.
  rewrite (wanted_push_if _ "status" d (Dispute.status d)) by reflexivity.
  rewrite (wanted_push_if _ "priority" d (Dispute.priority d)) by reflexivity.
  rewrite (wanted_push_if _ "dispute_type" d (Dispute.dispute_type d)) by reflexivity.
  cbn. rewrite andb_assoc. reflexivity.
Qed.

(** Without a user filter, and its request answered, [getAll] returns
    the window [offset, offset + limit) of the disputes that pass the
    status, priority and type filters, newest first, and the number of
    all of them as [total]: consecutive pages neither skip nor repeat a
    dispute. A filter that is missing or the empty string filters
    nothing. *)
Theorem getAll_pages_are_windows (w : Appwrite.World) (filters : DisputeService.Filters)
        (limit offset : nat) :
  Js.truthy_opt_string (DisputeService.userId filters) = false ->
  Appwrite.fault_at 0 w = None ->
  let matching :=
    Js.sort by_created_at_desc (List.filter (passes filters) (Appwrite.disputes w)) in
  fst (DisputeService.getAll filters limit offset w)
  = Appwrite.Returned
      (Success (mkPage (Js.slice offset (offset + limit) matching) (length matching))).
Proof.
  intros Huser H0. cbv zeta.
  unfold DisputeService.getAll, Appwrite.try_catch, Appwrite.bind. rewrite Huser.
  rewrite (listDocuments_run COLLECTION_IDS.DISPUTES Appwrite.disputes disputes_faults), H0.
  cbn [fst]. do 2 f_equal.
  unfold Appwrite.select.
  cbn [Appwrite.documents Appwrite.total DisputeService.getAll_queries app
       Appwrite.limit_of Appwrite.offset_of Appwrite.ordered_desc existsb orb
       String.eqb Ascii.eqb Bool.eqb andb].
  rewrite (filter_ext _ _ (getAll_queries_pass filters limit offset)).
  unfold Js.slice. rewrite take_drop_commute.
  rewrite (Permutation_length (sort_Permutation _)). reflexivity.
Qed.

Lemma getAll_pages_are_windows_witness :
  fst (DisputeService.getAll (DisputeService.mkFilters (Some "open"%string) None None None)
                             1 0 Lifecycle.started)
  = Appwrite.Returned (Success (mkPage [Lifecycle.raised] 1)).
Proof.
  exact (getAll_pages_are_windows Lifecycle.started
           (DisputeService.mkFilters (Some "open"%string) None None None) 1 0
           eq_refl eq_refl).
Defined.

(** ** The date range of the statistics *)

Lemma range_select {D : Type} `{Document D} (dateRange : option (Z * Z)) (l : list D) :
  Appwrite.documents
    (Appwrite.select ([Query.orderDesc "created_at"] ++ DisputeService.range_queries dateRange)
                     l)
  = Js.sort by_created_at_desc (List.filter (created_within dateRange) l).
Proof.
  unfold Appwrite.select.
  assert (Hordered : Appwrite.ordered_desc
                       ([Query.orderDesc "created_at"]
                        ++ DisputeService.range_queries dateRange) = true) by reflexivity.
  assert (Hlimit : Appwrite.limit_of
                     ([Query.orderDesc "created_at"]
                      ++ DisputeService.range_queries dateRange) = None)
    by (destruct dateRange as [[start stop]|]; reflexivity).
  assert (Hoffset : Appwrite.offset_of
                      ([Query.orderDesc "created_at"]
                       ++ DisputeService.range_queries dateRange) = 0%nat)
    by (destruct dateRange as [[start stop]|]; reflexivity).
  cbn [Appwrite.documents]. rewrite Hordered, Hlimit, Hoffset, drop_0.
  f_equal. apply filter_ext.
  intros d. destruct dateRange as [[start stop]|]; cbn; rewrite ?andb_true_r; reflexivity.
Qed.

(** When the request is answered, the statistics of the payments, of
    the disputes and of the reviews are those of the documents created
    within the date range, both ends included, taken newest first, and
    of all the documents, newest first, when no range is given. *)
Theorem statistics_cover_the_date_range (w : Appwrite.World) (dateRange : option (Z * Z)) :
  Appwrite.fault_at 0 w = None ->
  fst (PaymentService.getStats dateRange w)
  = Appwrite.Returned
      (Success (PaymentService.stats_of
                  (Js.sort by_created_at_desc
                     (List.filter (created_within dateRange) (Appwrite.payments w)))))
  /\ fst (DisputeService.getStats dateRange w)
     = Appwrite.Returned
         (Success (DisputeService.stats_of
                     (Js.sort by_created_at_desc
                        (List.filter (created_within dateRange) (Appwrite.disputes w)))))
  /\ fst (ReviewService.getPlatformStats dateRange w)
     = Appwrite.Returned
         (Success (ReviewService.platform_stats_of
                     (Js.sort by_created_at_desc
                        (List.filter (created_within dateRange) (Appwrite.reviews w))))).
Proof.
  intros H0. repeat apply conj.
  - unfold PaymentService.getStats, Appwrite.try_catch, Appwrite.bind.
    rewrite (listDocuments_run COLLECTION_IDS.PAYMENTS Appwrite.payments payments_faults), H0.
    unfold Appwrite.ret. cbn [fst]. rewrite range_select. reflexivity.
  - unfold DisputeService.getStats, Appwrite.try_catch, Appwrite.bind.
    rewrite (listDocuments_run COLLECTION_IDS.DISPUTES Appwrite.disputes disputes_faults), H0.
    unfold Appwrite.ret. cbn [fst]. rewrite range_select. reflexivity.
  - unfold ReviewService.getPlatformStats, Appwrite.try_catch, Appwrite.bind.
    rewrite (listDocuments_run COLLECTION_IDS.REVIEWS Appwrite.reviews reviews_faults), H0.
    unfold Appwrite.ret. cbn [fst]. rewrite range_select. reflexivity.
Qed.

Lemma statistics_cover_the_date_range_witness :
  fst (PaymentService.getStats (Some (150, 250)) Lifecycle.started)
  = Appwrite.Returned (Success (PaymentService.stats_of [Lifecycle.settled])).
Proof.
  exact (proj1 (statistics_cover_the_date_range Lifecycle.started (Some (150, 250)) eq_refl)).
Defined.
